(** * Sweet Shop Management System: accounts, access control and the
      inventory ledger

    A shallow embedding of [database.py], [models.py] and the HTTP handlers
    of [main.py], followed by the properties of the authentication and
    authorization layer and of the stock-adjustment rules.

    Conventions of the embedding.
    - A Python [int] is a [Z]; a [str] is a [string]; a [float] is a
      primitive [float]; [Optional[T]] is [option T].
    - [create_sweet], [update_sweet] and [restock_sweet] hand the values
      they are given to [sqlite3]: an [int] outside the 64-bit range of the
      INTEGER storage class raises [OverflowError], a NaN is refused by a
      REAL NOT NULL column, and the zero with a sign is stored as 0.0.
      [get_sweet_by_id], [delete_sweet] and [purchase_sweet] are embedded
      for ids and stocks within that range, where every row of a store is.
    - The two SQLite tables are finite maps.  [sweets] is keyed by its
      [INTEGER PRIMARY KEY AUTOINCREMENT] column, [users] by its
      [UNIQUE NOT NULL] username column (text comparison in SQLite is
      byte-wise, hence case-sensitive).  The counters that AUTOINCREMENT
      keeps in [sqlite_sequence] are explicit fields of the store.
    - Every function of [database.py] opens a connection, runs its
      statements, commits and closes; it is embedded as a computation in a
      state-and-exception monad over the store.  Requests are handled one at
      a time: interleavings of concurrent requests are not modelled.
    - [datetime.now().isoformat()] is an input ([now_iso]) of the
      operations that read the clock. *)

From Stdlib Require Import ZArith String Ascii Floats.PrimFloat Lia.
From stdpp Require Import gmap strings list fin_maps sorting pretty.

Open Scope string_scope.
Open Scope Z_scope.

(** ** models.py: request and response bodies *)

Module UserRegister.
Record t := mk { username : string; password : string; admin_key : option string }.
End UserRegister.

Module TokenResponse.
Record t (token : Type) := mk { access_token : token; token_type : string }.
Arguments mk {token} _ _.
Arguments access_token {token} _.
Arguments token_type {token} _.
End TokenResponse.

Module SweetCreate.
Record t := mk { name : string; category : string; price : float; quantity : Z }.
End SweetCreate.

Module SweetUpdate.
Record t := mk { name : option string; category : option string;
                 price : option float; quantity : option Z }.
End SweetUpdate.

Module SweetResponse.
Record t := mk { id : Z; name : string; category : string; price : float;
                 quantity : Z; created_at : string }.
End SweetResponse.

Module PurchaseRequest.
Record t := mk { quantity : Z }.
End PurchaseRequest.

Module RestockRequest.
Record t := mk { quantity : Z }.
End RestockRequest.

(** ** database.py: the store *)

(** Table [users]: the columns other than the unique [username], which is
    the key of the map. *)
Module users.
Record columns := mk { id : Z; password_hash : string; is_admin : Z; created_at : string }.
End users.

(** Table [sweets]: the columns other than the primary key [id]. *)
Module sweets.
Record columns := mk { name : string; category : string; price : float;
                       quantity : Z; created_at : string }.

Definition set_name (v : string) (r : columns) : columns :=
  mk v (category r) (price r) (quantity r) (created_at r).
Definition set_category (v : string) (r : columns) : columns :=
  mk (name r) v (price r) (quantity r) (created_at r).
Definition set_price (v : float) (r : columns) : columns :=
  mk (name r) (category r) v (quantity r) (created_at r).
Definition set_quantity (v : Z) (r : columns) : columns :=
  mk (name r) (category r) (price r) v (created_at r).
End sweets.

Record database := mkdb {
  users_table : gmap string users.columns;
  users_seq : Z;
  sweets_table : gmap Z sweets.columns;
  sweets_seq : Z
}.

(** The store after [init_database] on a fresh file: both tables empty. *)
Definition init_database : database := mkdb ∅ 0 ∅ 0.

(** The dictionaries that [dict(row)] builds from a [SELECT *]. *)
Record user_dict := mkuser {
  user_id : Z; user_username : string; user_password_hash : string;
  user_is_admin : Z; user_created_at : string
}.

Definition user_row (username : string) (c : users.columns) : user_dict :=
  mkuser (users.id c) username (users.password_hash c) (users.is_admin c) (users.created_at c).

Definition sweet_row (sweet_id : Z) (c : sweets.columns) : SweetResponse.t :=
  SweetResponse.mk sweet_id (sweets.name c) (sweets.category c) (sweets.price c)
                   (sweets.quantity c) (sweets.created_at c).

(** ** Exceptions and the monad of the handlers *)

Inductive exn :=
| HTTPException (status_code : Z) (detail : string)
| IntegrityError (message : string)
| OverflowError (message : string)
| TypeError (message : string).

Inductive outcome (A : Type) :=
| Return (a : A)
| Raise (e : exn).
Arguments Return {A} _.
Arguments Raise {A} _.

Definition io (A : Type) : Type := database → outcome A * database.

Definition ret {A} (a : A) : io A := λ db, (Return a, db).
Definition raise {A} (e : exn) : io A := λ db, (Raise e, db).
Definition bind {A B} (m : io A) (k : A → io B) : io B :=
  λ db, match m db with
        | (Return a, db') => k a db'
        | (Raise e, db') => (Raise e, db')
        end.
Definition get : io database := λ db, (Return db, db).
Definition put (db' : database) : io unit := λ _, (Return tt, db').

Notation "'let*' x ':=' m 'in' k" := (bind m (λ x, k))
  (at level 10, x name, m at level 100, k at level 200).
Notation "m ';;' k" := (bind m (λ _, k))
  (at level 100, k at level 200, right associativity).

Module status.
Definition HTTP_400_BAD_REQUEST : Z := 400.
Definition HTTP_401_UNAUTHORIZED : Z := 401.
Definition HTTP_403_FORBIDDEN : Z := 403.
Definition HTTP_404_NOT_FOUND : Z := 404.
End status.

(** ** sqlite3: the values that a statement takes and gives back

    [execute] binds a Python [int] to a parameter as a 64-bit integer and
    raises [OverflowError], before the statement runs, when the value is
    outside that range.  A [float] is bound as a REAL: a NaN is bound as
    NULL, which a NOT NULL column refuses with [IntegrityError], and the
    zero with a sign comes back as 0.0. *)

(** An integer that the INTEGER storage class holds. *)
Definition int64 (z : Z) : Prop := - 2 ^ 63 ≤ z < 2 ^ 63.

#[global] Instance int64_dec (z : Z) : Decision (int64 z) :=
  decide (- 2 ^ 63 ≤ z ∧ z < 2 ^ 63).

(** A price that the REAL NOT NULL column holds: a NaN is stored as NULL. *)
Definition storable_price (p : float) : Prop := PrimFloat.is_nan p = false.

Module sqlite3.
Definition too_large : exn :=
  OverflowError "Python int too large to convert to SQLite INTEGER".

Definition price_is_NULL : exn :=
  IntegrityError "NOT NULL constraint failed: sweets.price".

(** An [int] among the parameters of [execute]. *)
Definition INTEGER (z : Z) : io unit :=
  if bool_decide (int64 z) then ret tt else raise too_large.

(** An optional [int] that is a parameter only when it is not [None]. *)
Definition optional_INTEGER (z : option Z) : io unit :=
  from_option INTEGER (ret tt) z.

(** The REAL that a column holds after the float [x] is written to it. *)
Definition REAL (x : float) : float :=
  if PrimFloat.eqb x 0 then 0%float else x.

(** A [float] written to the column [price REAL NOT NULL]. *)
Definition price_NOT_NULL (x : float) : io float :=
  if PrimFloat.is_nan x then raise price_is_NULL else ret (REAL x).
End sqlite3.

(** ** database.py: the operations *)

Definition get_user_by_username (username : string) : io (option user_dict) :=
  let* db := get in
  ret (user_row username <$> users_table db !! username).

(** The INSERT violates the UNIQUE constraint on [username] when the name
    is taken; [sqlite3] then raises and nothing is committed. *)
Definition create_user (now_iso : string) (username password_hash : string)
    (is_admin : bool) : io Z :=
  let* db := get in
  match users_table db !! username with
  | Some _ => raise (IntegrityError "UNIQUE constraint failed: users.username")
  | None =>
      let user_id := users_seq db + 1 in
      put (mkdb (<[username := users.mk user_id password_hash
                                 (if is_admin then 1 else 0) now_iso]> (users_table db))
                user_id (sweets_table db) (sweets_seq db)) ;;
      ret user_id
  end.

Definition get_sweet_by_id (sweet_id : Z) : io (option SweetResponse.t) :=
  let* db := get in
  ret (sweet_row sweet_id <$> sweets_table db !! sweet_id).

Definition create_sweet (now_iso : string) (name category : string) (price : float)
    (quantity : Z) : io Z :=
  sqlite3.INTEGER quantity ;;
  let* stored_price := sqlite3.price_NOT_NULL price in
  let* db := get in
  let sweet_id := sweets_seq db + 1 in
  put (mkdb (users_table db) (users_seq db)
            (<[sweet_id := sweets.mk name category stored_price quantity now_iso]>
               (sweets_table db))
            sweet_id) ;;
  ret sweet_id.

(** The SET clause assembled by [update_sweet]: one assignment for each
    argument that is not [None], applied to the row in the order
    name, category, price, quantity. *)
Definition apply_updates (name category : option string) (price : option float)
    (quantity : option Z) (r : sweets.columns) : sweets.columns :=
  let r := from_option (λ v, sweets.set_name v r) r name in
  let r := from_option (λ v, sweets.set_category v r) r category in
  let r := from_option (λ v, sweets.set_price (sqlite3.REAL v) r) r price in
  from_option (λ v, sweets.set_quantity v r) r quantity.

Definition no_updates (name category : option string) (price : option float)
    (quantity : option Z) : bool :=
  match name, category, price, quantity with
  | None, None, None, None => true
  | _, _, _, _ => false
  end.

(** The parameters are bound before the statement runs; the NOT NULL
    constraint is checked on the row that the statement updates, if any. *)
Definition update_sweet (sweet_id : Z) (name category : option string)
    (price : option float) (quantity : option Z) : io bool :=
  let* db := get in
  if no_updates name category price quantity then ret false
  else
    sqlite3.optional_INTEGER quantity ;;
    sqlite3.INTEGER sweet_id ;;
    let found := bool_decide (is_Some (sweets_table db !! sweet_id)) in
    if found && from_option PrimFloat.is_nan false price
    then raise sqlite3.price_is_NULL
    else
      put (mkdb (users_table db) (users_seq db)
                (alter (apply_updates name category price quantity) sweet_id (sweets_table db))
                (sweets_seq db)) ;;
      ret found.

Definition delete_sweet (sweet_id : Z) : io bool :=
  let* db := get in
  put (mkdb (users_table db) (users_seq db)
            (delete sweet_id (sweets_table db)) (sweets_seq db)) ;;
  ret (bool_decide (is_Some (sweets_table db !! sweet_id))).

Definition purchase_sweet (sweet_id quantity : Z) : io bool :=
  let* db := get in
  match sweets.quantity <$> sweets_table db !! sweet_id with
  | None => ret false
  | Some current_quantity =>
      if current_quantity <? quantity then ret false
      else
        let new_quantity := current_quantity - quantity in
        put (mkdb (users_table db) (users_seq db)
                  (alter (sweets.set_quantity new_quantity) sweet_id (sweets_table db))
                  (sweets_seq db)) ;;
        ret true
  end.

Definition restock_sweet (sweet_id quantity : Z) : io bool :=
  sqlite3.INTEGER sweet_id ;;
  let* db := get in
  match sweets.quantity <$> sweets_table db !! sweet_id with
  | None => ret false
  | Some current_quantity =>
      let new_quantity := current_quantity + quantity in
      sqlite3.INTEGER new_quantity ;;
      put (mkdb (users_table db) (users_seq db)
                (alter (sweets.set_quantity new_quantity) sweet_id (sweets_table db))
                (sweets_seq db)) ;;
      ret true
  end.

(** [SELECT COUNT( * ) FROM users], run by [register] on its own connection. *)
Definition count_users : io Z :=
  let* db := get in
  ret (Z.of_nat (size (users_table db))).

(** ** auth.py: credential hashing and the token service

    [main.py] imports [hash_password], [create_access_token] and
    [verify_token] from a module [auth] whose source is not available.  The
    hash and the signature primitive are left abstract; the token service is
    written from its specification. *)

(** The content of a token: subject username, admin flag, expiration
    instant (seconds). *)
Record payload := mkpayload { sub : string; is_admin : bool; exp : Z }.

(** A bearer credential as presented by a client: either a string that does
    not decode to a signed payload, or a payload with the signature that
    accompanies it. *)
Inductive token :=
| Malformed (raw : string)
| Signed (body : payload) (signature : string).

Class Crypto := {
  (** the process-wide signing secret *)
  SECRET_KEY : string;
  (** the validity window of a token, in seconds *)
  ACCESS_TOKEN_EXPIRE : Z;
  (** [hash_password]: the one-way transform of a plaintext password (the
      salt it draws is not modelled) *)
  hash_password : string → string;
  (** the signature of a token body under a key *)
  sign : string → payload → string
}.

Section TokenService.
Context `{Crypto}.

(** Modelled from the spec: [create_access_token] of the absent [auth.py]
    ("issue(subject, is_admin) -> token: produces an opaque signed token
    embedding subject, is_admin, and an expiration instant set to
    issue-time + fixed validity window"). *)
Definition create_access_token (now : Z) (subject : string) (admin : bool) : token :=
  let body := mkpayload subject admin (now + ACCESS_TOKEN_EXPIRE) in
  Signed body (sign SECRET_KEY body).

(** Modelled from the spec: [verify_token] of the absent [auth.py]
    ("validates signature and expiration; returns decoded
    {subject, is_admin} on success.  Fails (returns invalid/null, never
    throws) when: signature invalid, payload malformed, or current
    time ≥ expiration"). *)
Definition verify_token (now : Z) (tok : token) : option payload :=
  match tok with
  | Malformed _ => None
  | Signed body signature =>
      if bool_decide (signature = sign SECRET_KEY body) && (now <? exp body)
      then Some body
      else None
  end.
End TokenService.

(** ** main.py: the access control gate *)

(** The two readings of the clock that a request handler may take:
    the instant used for token expiry and [datetime.now().isoformat()]. *)
Record clock := mkclock { now : Z; now_iso : string }.

(** The identity that [get_current_user] attaches to a request. *)
Record identity := mkidentity { id : Z; username : string; admin : bool }.

(** Modelled from the spec: [security = HTTPBearer()], the bearer scheme of
    the web framework, which extracts the credential from the
    [Authorization] header before [get_current_user] runs ("absent ⇒
    immediate Rejected, reason missing credential"; "401 = missing/invalid/
    expired token or unknown account"). *)
Definition security (authorization : option token) : io token :=
  match authorization with
  | None => raise (HTTPException status.HTTP_401_UNAUTHORIZED "Not authenticated")
  | Some credentials => ret credentials
  end.

(** Truth value of an [Optional[dict]]: a row dictionary is never empty,
    so only [None] is false. *)
Definition truthy {A} (o : option A) : bool :=
  match o with Some _ => true | None => false end.

Section Main.
Context `{Crypto}.

Definition get_current_user (clk : clock) (authorization : option token) : io identity :=
  let* credentials := security authorization in
  match verify_token (now clk) credentials with
  | None => raise (HTTPException status.HTTP_401_UNAUTHORIZED "Invalid or expired token")
  | Some payload =>
      let username := sub payload in
      let* user := get_user_by_username username in
      match user with
      | None => raise (HTTPException status.HTTP_401_UNAUTHORIZED "User not found")
      | Some user =>
          ret (mkidentity (user_id user) (user_username user)
                          (negb (user_is_admin user =? 0)))
      end
  end.

Definition get_admin_user (clk : clock) (authorization : option token) : io identity :=
  let* current_user := get_current_user clk authorization in
  if negb (admin current_user)
  then raise (HTTPException status.HTTP_403_FORBIDDEN "Admin access required")
  else ret current_user.

(** *** Registration *)

Definition ADMIN_KEY : string := "aswd".

Definition register (clk : clock) (user_data : UserRegister.t)
    : io (TokenResponse.t token) :=
  let* existing := get_user_by_username (UserRegister.username user_data) in
  if truthy existing
  then raise (HTTPException status.HTTP_400_BAD_REQUEST "Username already exists")
  else
    let* user_count := count_users in
    let is_admin := (user_count =? 0)
                    || bool_decide (UserRegister.admin_key user_data = Some ADMIN_KEY) in
    let password_hash := hash_password (UserRegister.password user_data) in
    let* user_id := create_user (now_iso clk) (UserRegister.username user_data)
                                password_hash is_admin in
    let access_token :=
      create_access_token (now clk) (UserRegister.username user_data) is_admin in
    ret (TokenResponse.mk access_token "bearer").

(** *** Inventory handlers *)

(** [SweetResponse( **row )] on the result of [get_sweet_by_id]. *)
Definition sweet_response (row : option SweetResponse.t) : io SweetResponse.t :=
  match row with
  | Some sweet => ret sweet
  | None => raise (TypeError "argument after ** must be a mapping, not NoneType")
  end.

Definition add_sweet (clk : clock) (authorization : option token)
    (sweet : SweetCreate.t) : io SweetResponse.t :=
  let* current_user := get_current_user clk authorization in
  let* sweet_id := create_sweet (now_iso clk) (SweetCreate.name sweet)
                     (SweetCreate.category sweet) (SweetCreate.price sweet)
                     (SweetCreate.quantity sweet) in
  let* created_sweet := get_sweet_by_id sweet_id in
  sweet_response created_sweet.

Definition update_sweet_endpoint (clk : clock) (authorization : option token)
    (sweet_id : Z) (sweet_update : SweetUpdate.t) : io SweetResponse.t :=
  let* current_user := get_current_user clk authorization in
  let* sweet := get_sweet_by_id sweet_id in
  if negb (truthy sweet)
  then raise (HTTPException status.HTTP_404_NOT_FOUND "Sweet not found")
  else
    update_sweet sweet_id (SweetUpdate.name sweet_update)
      (SweetUpdate.category sweet_update) (SweetUpdate.price sweet_update)
      (SweetUpdate.quantity sweet_update) ;;
    let* updated_sweet := get_sweet_by_id sweet_id in
    sweet_response updated_sweet.

Definition delete_sweet_endpoint (clk : clock) (authorization : option token)
    (sweet_id : Z) : io unit :=
  let* current_user := get_admin_user clk authorization in
  let* sweet := get_sweet_by_id sweet_id in
  if negb (truthy sweet)
  then raise (HTTPException status.HTTP_404_NOT_FOUND "Sweet not found")
  else
    delete_sweet sweet_id ;;
    ret tt.

Definition purchase_sweet_endpoint (clk : clock) (authorization : option token)
    (sweet_id : Z) (purchase : PurchaseRequest.t) : io SweetResponse.t :=
  let* current_user := get_current_user clk authorization in
  let* sweet := get_sweet_by_id sweet_id in
  if negb (truthy sweet)
  then raise (HTTPException status.HTTP_404_NOT_FOUND "Sweet not found")
  else
    let* purchased := purchase_sweet sweet_id (PurchaseRequest.quantity purchase) in
    if negb purchased
    then raise (HTTPException status.HTTP_400_BAD_REQUEST "Insufficient quantity in stock")
    else
      let* updated_sweet := get_sweet_by_id sweet_id in
      sweet_response updated_sweet.

Definition restock_sweet_endpoint (clk : clock) (authorization : option token)
    (sweet_id : Z) (restock : RestockRequest.t) : io SweetResponse.t :=
  let* current_user := get_admin_user clk authorization in
  let* sweet := get_sweet_by_id sweet_id in
  if negb (truthy sweet)
  then raise (HTTPException status.HTTP_404_NOT_FOUND "Sweet not found")
  else
    restock_sweet sweet_id (RestockRequest.quantity restock) ;;
    let* updated_sweet := get_sweet_by_id sweet_id in
    sweet_response updated_sweet.
End Main.

(** ** The service as a transition system *)

(** The requests that can change the store.  The read-only routes (login,
    listing, search) leave every table as it is and are not listed. *)
Inductive request :=
| POST_register (user_data : UserRegister.t)
| POST_sweets (authorization : option token) (sweet : SweetCreate.t)
| PUT_sweet (authorization : option token) (sweet_id : Z) (sweet_update : SweetUpdate.t)
| DELETE_sweet (authorization : option token) (sweet_id : Z)
| POST_purchase (authorization : option token) (sweet_id : Z) (purchase : PurchaseRequest.t)
| POST_restock (authorization : option token) (sweet_id : Z) (restock : RestockRequest.t).

Section Service.
Context `{Crypto}.

(** The store left behind by one request handled at the instant [clk]. *)
Definition serve (clk : clock) (req : request) (db : database) : database :=
  match req with
  | POST_register user_data => snd (register clk user_data db)
  | POST_sweets authorization sweet => snd (add_sweet clk authorization sweet db)
  | PUT_sweet authorization sweet_id sweet_update =>
      snd (update_sweet_endpoint clk authorization sweet_id sweet_update db)
  | DELETE_sweet authorization sweet_id =>
      snd (delete_sweet_endpoint clk authorization sweet_id db)
  | POST_purchase authorization sweet_id purchase =>
      snd (purchase_sweet_endpoint clk authorization sweet_id purchase db)
  | POST_restock authorization sweet_id restock =>
      snd (restock_sweet_endpoint clk authorization sweet_id restock db)
  end.

(** The stores reachable from the initial one by requests that all
    satisfy [accept]. *)
Inductive reachable_by (accept : request → Prop) : database → Prop :=
| reachable_init : reachable_by accept init_database
| reachable_step clk req db :
    reachable_by accept db → accept req → reachable_by accept (serve clk req db).

Definition reachable : database → Prop := reachable_by (λ _, True).

(** A request succeeds from [db] when its handler returns. *)
Definition succeeds {A} (m : io A) (db : database) : Prop :=
  ∃ a db', m db = (Return a, db').

(** A request is rejected with status [code] when its handler raises
    that [HTTPException] and leaves the store as it was. *)
Definition rejected_with {A} (code : Z) (m : io A) (db : database) : Prop :=
  ∃ detail, m db = (Raise (HTTPException code detail), db).

(** The credential faults of the access control gate: no credential, a
    string that is not a token, an expired token, a signature that is not
    the one the signing secret gives, a subject without an account. *)
Inductive credential_fault (clk : clock) (db : database) : option token → Prop :=
| fault_missing : credential_fault clk db None
| fault_malformed raw : credential_fault clk db (Some (Malformed raw))
| fault_expired body signature :
    exp body ≤ now clk → credential_fault clk db (Some (Signed body signature))
| fault_forged body signature :
    signature ≠ sign SECRET_KEY body →
    credential_fault clk db (Some (Signed body signature))
| fault_unknown_account body signature :
    users_table db !! sub body = None →
    credential_fault clk db (Some (Signed body signature)).
End Service.

(** Every item of the store has a quantity of at least 0. *)
Definition stock_nonneg (db : database) : Prop :=
  map_Forall (λ _ c, 0 ≤ sweets.quantity c) (sweets_table db).

(** The quantity on hand of an item, when the item exists. *)
Definition stock (db : database) (sweet_id : Z) : option Z :=
  sweets.quantity <$> sweets_table db !! sweet_id.

(** The admin flag of an account as [get_current_user] reads it,
    [bool(user["is_admin"])]. *)
Definition admin_flag (db : database) (username : string) : option bool :=
  (λ c, negb (users.is_admin c =? 0)) <$> users_table db !! username.

(** Requests whose add-item, field-update and restock quantities are not
    negative. *)
Definition nonneg_quantities (req : request) : Prop :=
  match req with
  | POST_sweets _ sweet => 0 ≤ SweetCreate.quantity sweet
  | PUT_sweet _ _ sweet_update => from_option (λ q, 0 ≤ q) True (SweetUpdate.quantity sweet_update)
  | POST_restock _ _ restock => 0 ≤ RestockRequest.quantity restock
  | _ => True
  end.

(** ** database.py: listing and search *)

(** The text functions of SQLite that [search_sweets] relies on.  A
    [string] holds the UTF-8 bytes of the Python [str]; SQLite reads both
    operands of LIKE as C strings, one code point at a time, and reads the
    code points U+FFFE and U+FFFF as U+FFFD.  The limit on the length of a
    LIKE pattern (50 000 bytes) is not modelled. *)
Module sqlite.
Definition byte (c : ascii) : N := N_of_ascii c.

(** Case is folded for the letters A-Z only. *)
Definition tolower (c : ascii) : ascii :=
  if (N.leb 65 (byte c) && N.leb (byte c) 90)%bool then ascii_of_N (byte c + 32) else c.

Definition is_continuation (c : ascii) : bool :=
  (N.leb 128 (byte c) && N.ltb (byte c) 192)%bool.

Definition is_lead (c : ascii) : bool := N.leb 192 (byte c).

(** A C string ends at its first NUL byte. *)
Fixpoint c_str (s : string) : string :=
  match s with
  | EmptyString => EmptyString
  | String c s' => if Ascii.eqb c "000" then EmptyString else String c (c_str s')
  end.

Fixpoint skip_continuation (s : string) : string :=
  match s with
  | String c s' => if is_continuation c then skip_continuation s' else s
  | EmptyString => s
  end.

(** The code points as LIKE reads them: the bytes EF BF BE (U+FFFE) and
    EF BF BF (U+FFFF) are read as EF BF BD (U+FFFD). *)
Fixpoint read_utf8 (s : string) : string :=
  match s with
  | EmptyString => EmptyString
  | String a t =>
      match t with
      | String b (String c s') =>
          if (Ascii.eqb a "239" && Ascii.eqb b "191"
              && (Ascii.eqb c "190" || Ascii.eqb c "191"))%bool
          then String a (String b (String "189" (read_utf8 s')))
          else String a (read_utf8 t)
      | _ => String a (read_utf8 t)
      end
  end.

(** Two characters match when they are equal, or both are ASCII and equal
    after folding. *)
Definition same_char (p c : ascii) : bool :=
  Ascii.eqb p c
  || (N.ltb (byte p) 128 && N.ltb (byte c) 128 && Ascii.eqb (tolower p) (tolower c)).

(** [%]: the rest of the pattern matches the text from some code point
    boundary on.  [inside] tells that the bytes read so far end in the
    middle of a multi-byte character. *)
Fixpoint match_all (rest : string → bool) (inside : bool) (text : string) : bool :=
  let boundary :=
    negb (inside && match text with String c _ => is_continuation c | EmptyString => false end) in
  (boundary && rest text)
  || match text with
     | EmptyString => false
     | String c text' => match_all rest (if boundary then is_lead c else true) text'
     end.

(** [_] matches one code point, any other character matches itself. *)
Fixpoint pattern_compare (pattern text : string) {struct pattern} : bool :=
  match pattern with
  | EmptyString => match text with EmptyString => true | _ => false end
  | String p pattern' =>
      if Ascii.eqb p "%" then match_all (pattern_compare pattern') false text
      else
        match text with
        | EmptyString => false
        | String c text' =>
            if Ascii.eqb p "_"
            then pattern_compare pattern' (if is_lead c then skip_continuation text' else text')
            else same_char p c && pattern_compare pattern' text'
        end
  end.

(** [text LIKE pattern] *)
Definition like (text pattern : string) : bool :=
  pattern_compare (read_utf8 (c_str pattern)) (read_utf8 (c_str text)).
End sqlite.

(** The order of [ORDER BY id] on the entries of the table. *)
Definition id_le (a b : Z * sweets.columns) : Prop := a.1 ≤ b.1.

#[global] Instance id_le_dec : RelDecision id_le := λ a b, decide (a.1 ≤ b.1).

(** [SELECT * FROM sweets ... ORDER BY id]: the rows in ascending id. *)
Definition select_order_by_id (t : gmap Z sweets.columns) : list SweetResponse.t :=
  (λ kv, sweet_row kv.1 kv.2) <$> merge_sort id_le (map_to_list t).

Definition get_all_sweets : io (list SweetResponse.t) :=
  let* db := get in
  ret (select_order_by_id (sweets_table db)).

(** Truth value of an [Optional[str]]: [None] and the empty string are
    false. *)
Definition truthy_str (o : option string) : bool :=
  match o with
  | Some (String _ _) => true
  | _ => false
  end.

(** The WHERE clause assembled by [search_sweets], evaluated on one row:
    [1=1], then one conjunct for each argument that passes its test. *)
Definition search_where (name category : option string) (min_price max_price : option float)
    (row : SweetResponse.t) : bool :=
  (if truthy_str name
   then sqlite.like (SweetResponse.name row)
          (String "%" (String.append (default "" name) "%"))
   else true)
  && (if truthy_str category
      then String.eqb (SweetResponse.category row) (default "" category)
      else true)
  && match min_price with
     | Some min_price => PrimFloat.leb min_price (SweetResponse.price row)
     | None => true
     end
  && match max_price with
     | Some max_price => PrimFloat.leb (SweetResponse.price row) max_price
     | None => true
     end.

Definition search_sweets (name category : option string) (min_price max_price : option float)
    : io (list SweetResponse.t) :=
  let* db := get in
  ret (List.filter (search_where name category min_price max_price)
         (select_order_by_id (sweets_table db))).

(** ** main.py: the read-only inventory handlers *)

Section ReadHandlers.
Context `{Crypto}.

Definition get_sweets (clk : clock) (authorization : option token)
    : io (list SweetResponse.t) :=
  let* current_user := get_current_user clk authorization in
  let* sweets := get_all_sweets in
  ret sweets.

Definition search_sweets_endpoint (clk : clock) (authorization : option token)
    (name category : option string) (min_price max_price : option float)
    : io (list SweetResponse.t) :=
  let* current_user := get_current_user clk authorization in
  let* results := search_sweets name category min_price max_price in
  ret results.

(** The store after a sequence of requests, each handled at its own
    instant, the first of the list first. *)
Definition serve_all (requests : list (clock * request)) (db : database) : database :=
  fold_left (λ db' r, serve r.1 r.2 db') requests db.
End ReadHandlers.

(** ** main.py: the command-line interface

    The menu reads lines from the standard input and prints to the standard
    output; both are part of the state, with the number of readings of the
    clock taken so far.  The built-in conversions of the language and the
    clock are parameters.  A session is embedded with a fuel that the number
    of input lines bounds: every turn of the loop reads a line. *)

Class Builtins := {
  (** [s.strip()] *)
  strip : string → string;
  (** [s.lower()] *)
  lower : string → string;
  (** [int(s)], [None] when it raises [ValueError] *)
  parse_int : string → option Z;
  (** [float(s)], [None] when it raises [ValueError] *)
  parse_float : string → option float;
  (** [format(x, ".2f")] *)
  format_2f : float → string;
  (** [datetime.now().isoformat()] at the n-th reading of the clock *)
  datetime_now : nat → string
}.

Record world := mkworld {
  store : database;
  stdin : list string;
  stdout : list string;
  clock_reads : nat
}.

(** What leaves a statement of the interface other than its value. *)
Inductive raised :=
| ValueError
| EOFError
| SystemExit (code : Z)
| DatabaseError (e : exn).

Inductive completion (A : Type) :=
| Normal (a : A)
| Abrupt (r : raised).
Arguments Normal {A} _.
Arguments Abrupt {A} _.

Definition cli (A : Type) : Type := world → completion A * world.

Definition cli_ret {A} (a : A) : cli A := λ w, (Normal a, w).
Definition cli_raise {A} (r : raised) : cli A := λ w, (Abrupt r, w).
Definition cli_bind {A B} (m : cli A) (k : A → cli B) : cli B :=
  λ w, match m w with
       | (Normal a, w') => k a w'
       | (Abrupt r, w') => (Abrupt r, w')
       end.

Notation "'let!' x ':=' m 'in' k" := (cli_bind m (λ x, k))
  (at level 10, x name, m at level 100, k at level 200).
Notation "m ';;;' k" := (cli_bind m (λ _, k))
  (at level 100, k at level 200, right associativity).

(** A call of a function of [database.py] that does not read the clock. *)
Definition call {A} (m : io A) : cli A :=
  λ w, match m (store w) with
       | (Return a, db') =>
           (Normal a, mkworld db' (stdin w) (stdout w) (clock_reads w))
       | (Raise e, db') =>
           (Abrupt (DatabaseError e), mkworld db' (stdin w) (stdout w) (clock_reads w))
       end.

(** A call of a function of [database.py] that reads the clock once. *)
Definition call_now `{Builtins} {A} (m : string → io A) : cli A :=
  λ w, call (m (datetime_now (clock_reads w)))
         (mkworld (store w) (stdin w) (stdout w) (S (clock_reads w))).

Definition NL : string := String "010" "".

Definition write (text : string) : cli unit :=
  λ w, (Normal tt, mkworld (store w) (stdin w) (stdout w ++ [text]) (clock_reads w)).

(** [print(text)] *)
Definition print (text : string) : cli unit := write (text +:+ NL).

(** [input(prompt)]: the prompt is written, a line is read; at the end of
    the input it raises [EOFError]. *)
Definition input (prompt : string) : cli string :=
  write prompt ;;;
  λ w, match stdin w with
       | [] => (Abrupt EOFError, w)
       | line :: lines => (Normal line, mkworld (store w) lines (stdout w) (clock_reads w))
       end.

(** [try: body except ValueError: handler] *)
Definition try_except_ValueError {A} (body handler : cli A) : cli A :=
  λ w, match body w with
       | (Abrupt ValueError, w') => handler w'
       | r => r
       end.

(** [int(text)] and [float(text)] as statements of a [try] block. *)
Definition int_of `{Builtins} (text : string) : cli Z :=
  match parse_int text with
  | Some z => cli_ret z
  | None => cli_raise ValueError
  end.

Definition float_of `{Builtins} (text : string) : cli float :=
  match parse_float text with
  | Some x => cli_ret x
  | None => cli_raise ValueError
  end.

(** [text * n] *)
Fixpoint times (text : string) (n : nat) : string :=
  match n with
  | O => ""
  | S n' => text +:+ times text n'
  end.

(** [len(text)]: the number of code points of the UTF-8 text. *)
Fixpoint len (text : string) : nat :=
  match text with
  | EmptyString => O
  | String c text' => if sqlite.is_continuation c then len text' else S (len text')
  end.

(** [format(text, "<width")] *)
Definition ljust (width : nat) (text : string) : string :=
  text +:+ times " " (width - len text).

(** [text or None] *)
Definition or_None (text : string) : option string :=
  match text with
  | EmptyString => None
  | _ => Some text
  end.

(** Truth value of a [str]. *)
Definition nonempty (text : string) : bool :=
  match text with
  | EmptyString => false
  | _ => true
  end.

(** How a turn of a menu loop ends: with [continue] or the end of the body,
    or with the [return] of the function. *)
Inductive turn := Continue | Return_None.

Section CommandLine.
Context `{Builtins}.

Definition display_sweets (sweets_list : list SweetResponse.t) : cli unit :=
  match sweets_list with
  | [] => print (NL +:+ "No sweets found.")
  | _ =>
      print (NL +:+ times "=" 80) ;;;
      print (ljust 5 "ID" +:+ " " +:+ ljust 25 "Name" +:+ " " +:+ ljust 15 "Category"
             +:+ " " +:+ ljust 10 "Price" +:+ " " +:+ ljust 10 "Quantity") ;;;
      print (times "=" 80) ;;;
      fold_right
        (λ sweet rest,
           print (ljust 5 (pretty (SweetResponse.id sweet)) +:+ " "
                  +:+ ljust 25 (SweetResponse.name sweet) +:+ " "
                  +:+ ljust 15 (SweetResponse.category sweet) +:+ " $"
                  +:+ ljust 9 (format_2f (SweetResponse.price sweet)) +:+ " "
                  +:+ ljust 10 (pretty (SweetResponse.quantity sweet))) ;;;
           rest)
        (print (times "=" 80)) sweets_list
  end.

(** The four lines that the update and delete branches print of an item. *)
Definition print_details (sweet : SweetResponse.t) : cli unit :=
  print ("  Name: " +:+ SweetResponse.name sweet) ;;;
  print ("  Category: " +:+ SweetResponse.category sweet) ;;;
  print ("  Price: $" +:+ format_2f (SweetResponse.price sweet)) ;;;
  print ("  Quantity: " +:+ pretty (SweetResponse.quantity sweet)).

(** [choice == "1"] *)
Definition menu_view_all : cli turn :=
  print (NL +:+ "--- All Sweets ---") ;;;
  let! sweets := call get_all_sweets in
  display_sweets sweets ;;;
  cli_ret Continue.

(** [choice == "2"] *)
Definition menu_add : cli turn :=
  print (NL +:+ "--- Add New Sweet ---") ;;;
  let! name_line := input "Enter sweet name: " in
  let name := strip name_line in
  let! category_line := input "Enter category: " in
  let category := strip category_line in
  try_except_ValueError
    (let! price_line := input "Enter price: " in
     let! price := float_of (strip price_line) in
     let! quantity_line := input "Enter initial quantity: " in
     let! quantity := int_of (strip quantity_line) in
     if negb (nonempty name) || negb (nonempty category)
     then print "Error: Name and category are required!" ;;; cli_ret Continue
     else if PrimFloat.ltb price 0 || (quantity <? 0)
     then print "Error: Price and quantity must be non-negative!" ;;; cli_ret Continue
     else
       let! sweet_id := call_now (λ now, create_sweet now name category price quantity) in
       print (NL +:+ "✓ Sweet '" +:+ name +:+ "' added successfully! (ID: "
              +:+ pretty sweet_id +:+ ")") ;;;
       cli_ret Continue)
    (print "Error: Invalid input! Price must be a number and quantity must be an integer." ;;;
     cli_ret Continue).

(** An optional price read from a line: empty keeps [None], a text that is
    not a number prints the warning and keeps [None]. *)
Definition optional_float (text warning : string) : cli (option float) :=
  if nonempty text
  then try_except_ValueError
         (let! x := float_of text in cli_ret (Some x))
         (print warning ;;; cli_ret None)
  else cli_ret None.

Definition optional_int (text warning : string) : cli (option Z) :=
  if nonempty text
  then try_except_ValueError
         (let! z := int_of text in cli_ret (Some z))
         (print warning ;;; cli_ret None)
  else cli_ret None.

(** [choice == "3"] *)
Definition menu_search : cli turn :=
  print (NL +:+ "--- Search Sweets ---") ;;;
  print "Leave fields empty to skip that filter" ;;;
  let! name_line := input "Enter name (or part of name): " in
  let name := or_None (strip name_line) in
  let! category_line := input "Enter category (exact match): " in
  let category := or_None (strip category_line) in
  let! min_price_line := input "Enter minimum price: " in
  let! min_price :=
    optional_float (strip min_price_line) "Warning: Invalid minimum price, ignoring..." in
  let! max_price_line := input "Enter maximum price: " in
  let! max_price :=
    optional_float (strip max_price_line) "Warning: Invalid maximum price, ignoring..." in
  let! results := call (search_sweets name category min_price max_price) in
  print (NL +:+ "Found " +:+ pretty (length results) +:+ " result(s):") ;;;
  display_sweets results ;;;
  cli_ret Continue.

(** [choice == "4"] *)
Definition menu_update : cli turn :=
  print (NL +:+ "--- Update Sweet ---") ;;;
  try_except_ValueError
    (let! id_line := input "Enter sweet ID to update: " in
     let! sweet_id := int_of (strip id_line) in
     let! found := call (get_sweet_by_id sweet_id) in
     match found with
     | None =>
         print ("Error: Sweet with ID " +:+ pretty sweet_id +:+ " not found!") ;;;
         cli_ret Continue
     | Some sweet =>
         print (NL +:+ "Current details:") ;;;
         print_details sweet ;;;
         print (NL +:+ "Enter new values (press Enter to keep current value):") ;;;
         let! name_line := input ("Name [" +:+ SweetResponse.name sweet +:+ "]: ") in
         let new_name := or_None (strip name_line) in
         let! category_line :=
           input ("Category [" +:+ SweetResponse.category sweet +:+ "]: ") in
         let new_category := or_None (strip category_line) in
         let! price_line :=
           input ("Price [$" +:+ format_2f (SweetResponse.price sweet) +:+ "]: ") in
         let! new_price :=
           optional_float (strip price_line) "Warning: Invalid price, keeping current value" in
         let! quantity_line :=
           input ("Quantity [" +:+ pretty (SweetResponse.quantity sweet) +:+ "]: ") in
         let! new_quantity :=
           optional_int (strip quantity_line)
             "Warning: Invalid quantity, keeping current value" in
         let! updated :=
           call (update_sweet sweet_id new_name new_category new_price new_quantity) in
         (if updated
          then print (NL +:+ "✓ Sweet updated successfully!")
          else print (NL +:+ "Error: Failed to update sweet!")) ;;;
         cli_ret Continue
     end)
    (print "Error: Invalid sweet ID!" ;;; cli_ret Continue).

(** [choice == "5"] *)
Definition menu_delete (is_admin : bool) : cli turn :=
  if negb is_admin
  then print (NL +:+ "✗ Error: Admin privileges required to delete sweets!") ;;;
       cli_ret Continue
  else
    print (NL +:+ "--- Delete Sweet ---") ;;;
    try_except_ValueError
      (let! id_line := input "Enter sweet ID to delete: " in
       let! sweet_id := int_of (strip id_line) in
       let! found := call (get_sweet_by_id sweet_id) in
       match found with
       | None =>
           print ("Error: Sweet with ID " +:+ pretty sweet_id +:+ " not found!") ;;;
           cli_ret Continue
       | Some sweet =>
           print (NL +:+ "Sweet to delete:") ;;;
           print_details sweet ;;;
           let! confirm_line :=
             input (NL +:+ "Are you sure you want to delete this sweet? (yes/no): ") in
           let confirm := lower (strip confirm_line) in
           (if String.eqb confirm "yes"
            then
              let! deleted := call (delete_sweet sweet_id) in
              if deleted
              then print (NL +:+ "✓ Sweet '" +:+ SweetResponse.name sweet
                          +:+ "' deleted successfully!")
              else print (NL +:+ "Error: Failed to delete sweet!")
            else print "Deletion cancelled.") ;;;
           cli_ret Continue
       end)
      (print "Error: Invalid sweet ID!" ;;; cli_ret Continue).

(** [choice == "6"] *)
Definition menu_purchase : cli turn :=
  print (NL +:+ "--- Purchase Sweet ---") ;;;
  try_except_ValueError
    (let! id_line := input "Enter sweet ID to purchase: " in
     let! sweet_id := int_of (strip id_line) in
     let! quantity_line := input "Enter quantity to purchase: " in
     let! quantity := int_of (strip quantity_line) in
     if quantity <=? 0
     then print "Error: Quantity must be positive!" ;;; cli_ret Continue
     else
       let! found := call (get_sweet_by_id sweet_id) in
       match found with
       | None =>
           print ("Error: Sweet with ID " +:+ pretty sweet_id +:+ " not found!") ;;;
           cli_ret Continue
       | Some sweet =>
           let! purchased := call (purchase_sweet sweet_id quantity) in
           (if purchased
            then
              let! updated := call (get_sweet_by_id sweet_id) in
              match updated with
              | None =>
                  cli_raise (DatabaseError (TypeError "'NoneType' object is not subscriptable"))
              | Some updated =>
                  print (NL +:+ "✓ Purchased " +:+ pretty quantity +:+ " unit(s) of '"
                         +:+ SweetResponse.name sweet +:+ "'!") ;;;
                  print ("  Remaining stock: " +:+ pretty (SweetResponse.quantity updated))
              end
            else print (NL +:+ "✗ Error: Insufficient stock! Available: "
                        +:+ pretty (SweetResponse.quantity sweet))) ;;;
           cli_ret Continue
       end)
    (print "Error: Invalid input! ID and quantity must be integers." ;;; cli_ret Continue).

(** [choice == "7"] *)
Definition menu_restock (is_admin : bool) : cli turn :=
  if negb is_admin
  then print (NL +:+ "✗ Error: Admin privileges required to restock!") ;;;
       cli_ret Continue
  else
    print (NL +:+ "--- Restock Sweet ---") ;;;
    try_except_ValueError
      (let! id_line := input "Enter sweet ID to restock: " in
       let! sweet_id := int_of (strip id_line) in
       let! quantity_line := input "Enter quantity to add: " in
       let! quantity := int_of (strip quantity_line) in
       if quantity <=? 0
       then print "Error: Quantity must be positive!" ;;; cli_ret Continue
       else
         let! found := call (get_sweet_by_id sweet_id) in
         match found with
         | None =>
             print ("Error: Sweet with ID " +:+ pretty sweet_id +:+ " not found!") ;;;
             cli_ret Continue
         | Some sweet =>
             let! restocked := call (restock_sweet sweet_id quantity) in
             (if restocked
              then
                let! updated := call (get_sweet_by_id sweet_id) in
                match updated with
                | None =>
                    cli_raise
                      (DatabaseError (TypeError "'NoneType' object is not subscriptable"))
                | Some updated =>
                    print (NL +:+ "✓ Restocked " +:+ pretty quantity +:+ " unit(s) of '"
                           +:+ SweetResponse.name sweet +:+ "'!") ;;;
                    print ("  New stock: " +:+ pretty (SweetResponse.quantity updated))
                end
              else print (NL +:+ "✗ Error: Failed to restock!")) ;;;
             cli_ret Continue
         end)
      (print "Error: Invalid input! ID and quantity must be integers." ;;; cli_ret Continue).

(** The [if]/[elif] chain on the choice. *)
Definition menu_choice (is_admin : bool) (choice : string) : cli turn :=
  if String.eqb choice "1" then menu_view_all
  else if String.eqb choice "2" then menu_add
  else if String.eqb choice "3" then menu_search
  else if String.eqb choice "4" then menu_update
  else if String.eqb choice "5" then menu_delete is_admin
  else if String.eqb choice "6" then menu_purchase
  else if String.eqb choice "7" then menu_restock is_admin
  else if String.eqb choice "8"
  then print (NL +:+ "✓ Logged out successfully!") ;;; cli_ret Return_None
  else if String.eqb choice "9"
  then print (NL +:+ "Goodbye!") ;;; cli_raise (SystemExit 0)
  else print (NL +:+ "Invalid choice! Please try again.") ;;; cli_ret Continue.

(** What a turn prints before it asks for the choice. *)
Definition menu_header (current_user : identity) : cli unit :=
  let is_admin := admin current_user in
  print (NL +:+ times "=" 50) ;;;
  print "Sweet Shop Management - Main Menu" ;;;
  print (times "=" 50) ;;;
  print ("Logged in as: " +:+ username current_user) ;;;
  (if is_admin then print "👑 Admin privileges active" else cli_ret tt) ;;;
  print (NL +:+ "1. View All Sweets") ;;;
  print "2. Add New Sweet" ;;;
  print "3. Search Sweets" ;;;
  print "4. Update Sweet" ;;;
  print ("5. Delete Sweet" +:+ (if is_admin then " (Admin)" else " (Admin Only)")) ;;;
  print "6. Purchase Sweet" ;;;
  print ("7. Restock Sweet" +:+ (if is_admin then " (Admin)" else " (Admin Only)")) ;;;
  print "8. Logout" ;;;
  print "9. Exit Application".

(** One turn of the [while True] loop of [sweet_management_menu]. *)
Definition menu_turn (current_user : identity) : cli turn :=
  menu_header current_user ;;;
  let! choice_line := input (NL +:+ "Enter your choice (1-9): ") in
  menu_choice (admin current_user) (strip choice_line).

(** The loop, with a bound on the number of turns. *)
Fixpoint menu_loop (fuel : nat) (current_user : identity) (w : world)
    : option (completion unit * world) :=
  match fuel with
  | O => None
  | S fuel' =>
      match menu_turn current_user w with
      | (Normal Continue, w') => menu_loop fuel' current_user w'
      | (Normal Return_None, w') => Some (Normal tt, w')
      | (Abrupt r, w') => Some (Abrupt r, w')
      end
  end.

Definition sweet_management_menu (current_user : identity) (w : world)
    : option (completion unit * world) :=
  menu_loop (S (length (stdin w))) current_user w.
End CommandLine.

(** [authenticate_user] of the absent [auth.py], of which [cli_interface]
    reads a possibly missing dictionary with a username and an admin flag. *)
Class Authentication := {
  authenticate_user : string → string → database → option identity
}.

Section CommandLineAccounts.
Context `{Builtins} `{Crypto} `{Authentication}.

(** [choice == "1"] of [cli_interface] *)
Definition cli_register : cli turn :=
  print (NL +:+ "--- Register New User ---") ;;;
  let! username_line := input "Enter username: " in
  let username := strip username_line in
  let! password_line := input "Enter password: " in
  let password := strip password_line in
  let! admin_key_line := input "Enter admin key (optional, press Enter to skip): " in
  let admin_key := strip admin_key_line in
  if negb (nonempty username) || negb (nonempty password)
  then print "Error: Username and password are required!" ;;; cli_ret Continue
  else
    let! existing := call (get_user_by_username username) in
    if truthy existing
    then print ("Error: Username '" +:+ username +:+ "' already exists!") ;;;
         cli_ret Continue
    else
      let! user_count := call count_users in
      let is_admin := (user_count =? 0) || String.eqb admin_key ADMIN_KEY in
      let password_hash := hash_password password in
      let! user_id := call_now (λ now, create_user now username password_hash is_admin) in
      print (NL +:+ "✓ User '" +:+ username +:+ "' registered successfully!") ;;;
      (if is_admin
       then if user_count =? 0
            then print "✓ You are the first user - you have admin privileges!"
            else print "✓ Admin key verified - you have admin privileges!"
       else cli_ret tt) ;;;
      cli_ret Continue.

(** What a turn of [cli_interface] prints before its choice is read, and
    the choice. *)
Definition cli_choice : cli string :=
  print (NL +:+ times "=" 50) ;;;
  print "Sweet Shop Management System - CLI" ;;;
  print (times "=" 50) ;;;
  print (NL +:+ "1. Register (Create Account)") ;;;
  print "2. Login" ;;;
  print "3. Exit" ;;;
  let! choice_line := input (NL +:+ "Enter your choice (1/2/3): ") in
  cli_ret (strip choice_line).

(** The credentials asked by [choice == "2"]. *)
Definition cli_credentials : cli (string * string) :=
  print (NL +:+ "--- Login ---") ;;;
  let! username_line := input "Enter username: " in
  let! password_line := input "Enter password: " in
  cli_ret (strip username_line, strip password_line).

(** One turn of the [while True] loop of [cli_interface].  The menu of a
    logged-in user runs inside the turn. *)
Definition cli_turn (w : world) : option (completion turn * world) :=
  match cli_choice w with
  | (Abrupt r, w') => Some (Abrupt r, w')
  | (Normal choice, w') =>
      if String.eqb choice "1" then Some (cli_register w')
      else if String.eqb choice "2" then
        match cli_credentials w' with
        | (Abrupt r, w'') => Some (Abrupt r, w'')
        | (Normal (username, password), w'') =>
            match authenticate_user username password (store w'') with
            | Some user =>
                match (print (NL +:+ "✓ Login successful! Welcome, " +:+ username +:+ "!") ;;;
                       if admin user then print "✓ You have admin privileges!"
                       else cli_ret tt) w'' with
                | (Abrupt r, w3) => Some (Abrupt r, w3)
                | (Normal _, w3) =>
                    match sweet_management_menu user w3 with
                    | None => None
                    | Some (Normal _, w4) => Some (Normal Continue, w4)
                    | Some (Abrupt r, w4) => Some (Abrupt r, w4)
                    end
                end
            | None =>
                Some ((print (NL +:+ "✗ Invalid username or password!") ;;;
                       cli_ret Continue) w'')
            end
        end
      else if String.eqb choice "3"
      then Some ((print (NL +:+ "Goodbye!") ;;; cli_raise (SystemExit 0)) w')
      else Some ((print (NL +:+ "Invalid choice! Please try again.") ;;;
                  cli_ret Continue) w')
  end.

Fixpoint cli_loop (fuel : nat) (w : world) : option (raised * world) :=
  match fuel with
  | O => None
  | S fuel' =>
      match cli_turn w with
      | None => None
      | Some (Normal _, w') => cli_loop fuel' w'
      | Some (Abrupt r, w') => Some (r, w')
      end
  end.

(** [cli_interface()]: the loop has no [return], it ends by an exception. *)
Definition cli_interface (w : world) : option (raised * world) :=
  cli_loop (S (length (stdin w))) w.
End CommandLineAccounts.

(** ** Vocabulary for the properties of the interface *)

(** A statement keeps the property [P] of the store and does not put lines
    back on the input. *)
Definition respects (P : database → Prop) {A} (m : cli A) : Prop :=
  ∀ w, (P (store w) → P (store (snd (m w))))
       ∧ (length (stdin (snd (m w))) ≤ length (stdin w))%nat.


(** ** Vocabulary for the properties of search *)

Fixpoint all_chars (P : ascii → bool) (s : string) : bool :=
  match s with
  | EmptyString => true
  | String c s' => P c && all_chars P s'
  end.

(** A search text without the two wildcards of LIKE and without NUL. *)
Definition plain_text (s : string) : Prop :=
  all_chars (λ c, negb (Ascii.eqb c "%" || Ascii.eqb c "_" || Ascii.eqb c "000")) s = true.

(** A text of ASCII characters other than NUL. *)
Definition ascii_text (s : string) : Prop :=
  all_chars (λ c, N.ltb 0 (sqlite.byte c) && N.ltb (sqlite.byte c) 128) s = true.

(** A text of bytes below 128. *)
Definition seven_bit (s : string) : Prop :=
  all_chars (λ c, N.ltb (sqlite.byte c) 128) s = true.

Fixpoint fold_case (s : string) : string :=
  match s with
  | EmptyString => EmptyString
  | String c s' => String (sqlite.tolower c) (fold_case s')
  end.

(** [needle] occurs in [text], up to the case of the letters A-Z. *)
Definition contains_ignoring_case (needle text : string) : Prop :=
  ∃ before found after,
    text = before +:+ found +:+ after ∧ fold_case found = fold_case needle.

(** A search text whose pattern [%text%] is within the 50 000 bytes that
    LIKE accepts. *)
Definition like_pattern_fits (name : string) : Prop :=
  Z.of_nat (String.length name) + 2 ≤ 50000.

(** ** Vocabulary for the invariants of the store *)

(** Every item carries an id that AUTOINCREMENT has handed out. *)
Definition sweet_ids_assigned (db : database) : Prop :=
  map_Forall (λ sweet_id _, 1 ≤ sweet_id ≤ sweets_seq db) (sweets_table db).

(** The [users] table: the counter is the number of accounts, the ids are
    handed out by the counter and identify the account, the stored flag is
    0 or 1. *)
Definition accounts_consistent (db : database) : Prop :=
  users_seq db = Z.of_nat (size (users_table db))
  ∧ map_Forall (λ _ c, 1 ≤ users.id c ≤ users_seq db
                       ∧ (users.is_admin c = 0 ∨ users.is_admin c = 1)) (users_table db)
  ∧ ∀ u1 u2 c1 c2,
      users_table db !! u1 = Some c1 → users_table db !! u2 = Some c2 →
      users.id c1 = users.id c2 → u1 = u2.

(** The row of item [sweet_id] after a field update with the given patch. *)
Definition patched (sweet_update : SweetUpdate.t) (c : sweets.columns) : sweets.columns :=
  sweets.mk (default (sweets.name c) (SweetUpdate.name sweet_update))
            (default (sweets.category c) (SweetUpdate.category sweet_update))
            (default (sweets.price c) (sqlite3.REAL <$> SweetUpdate.price sweet_update))
            (default (sweets.quantity c) (SweetUpdate.quantity sweet_update))
            (sweets.created_at c).

(** ** A concrete deployment, to run the handlers on examples *)

Module Demo.
(** Stand-ins for the hash and the signature; the secret is the one the
    frontend decodes tokens with, the window is one day. *)
Definition crypto : Crypto := {|
  SECRET_KEY := "your-secret-key-change-in-production";
  ACCESS_TOKEN_EXPIRE := 86400;
  hash_password := λ plaintext, String.append "$2b$" plaintext;
  sign := λ key body, String.append key (String.append "." (sub body))
|}.

Definition t0 : clock := mkclock 1000 "2025-01-01T00:00:00".

Definition alice : UserRegister.t := UserRegister.mk "alice" "wonderland" None.
Definition bob : UserRegister.t := UserRegister.mk "bob" "builder" None.

(** The tokens that registration hands to alice (first account, admin)
    and to bob. *)
Definition alice_token : option token := Some (@create_access_token crypto 1000 "alice" true).
Definition bob_token : option token := Some (@create_access_token crypto 1000 "bob" false).

Definition ladoo : SweetCreate.t := SweetCreate.mk "Ladoo" "Indian" 2.5%float 10.

(** alice and bob registered, one item "Ladoo" with 10 in stock. *)
Definition shop : database :=
  @serve crypto t0 (POST_sweets alice_token ladoo)
    (@serve crypto t0 (POST_register bob)
       (@serve crypto t0 (POST_register alice) init_database)).

(** The identities the gate resolves the two tokens to, and the stored
    columns of the item. *)
Definition alice_identity : identity := mkidentity 1 "alice" true.
Definition bob_identity : identity := mkidentity 2 "bob" false.
Definition ladoo_columns : sweets.columns :=
  sweets.mk "Ladoo" "Indian" 2.5%float 10 "2025-01-01T00:00:00".

(** The same shop after a field update that sets the quantity to -1. *)
Definition overdrawn : database :=
  @serve crypto t0
    (PUT_sweet bob_token 1 (SweetUpdate.mk None None None (Some (-1)))) shop.
End Demo.


(** A catalogue of three items on top of the demo accounts. *)
Module Catalog.
Definition barfi : SweetCreate.t := SweetCreate.mk "Chocolate Barfi" "Indian" 3%float 5.
Definition fudge : SweetCreate.t := SweetCreate.mk "Choco-Mint Fudge" "Western" 4.25%float 0.

(** An item given away, priced at the zero with a sign. *)
Definition sorbet : SweetCreate.t := SweetCreate.mk "Lemon Sorbet" "Frozen" (-0)%float 5.

Definition store : database :=
  @serve Demo.crypto Demo.t0 (POST_sweets Demo.bob_token fudge)
    (@serve Demo.crypto Demo.t0 (POST_sweets Demo.bob_token barfi) Demo.shop).

Definition ladoo_row : SweetResponse.t := sweet_row 1 Demo.ladoo_columns.
Definition barfi_columns : sweets.columns :=
  sweets.mk "Chocolate Barfi" "Indian" 3%float 5 "2025-01-01T00:00:00".
Definition fudge_columns : sweets.columns :=
  sweets.mk "Choco-Mint Fudge" "Western" 4.25%float 0 "2025-01-01T00:00:00".
Definition barfi_row : SweetResponse.t := sweet_row 2 barfi_columns.
Definition fudge_row : SweetResponse.t := sweet_row 3 fudge_columns.

(** The catalogue after alice has deleted item 1. *)
Definition without_ladoo : database :=
  @serve Demo.crypto Demo.t0 (DELETE_sweet Demo.alice_token 1) store.

(** A correctly signed token that names bob and claims the admin flag. *)
Definition bob_claiming_admin : option token :=
  Some (@create_access_token Demo.crypto 1000 "bob" true).
End Catalog.

(** A terminal for the examples: lines reach the program as they are, only
    plain decimal integers and two prices are understood. *)
Module Terminal.
Fixpoint digits (acc : Z) (text : string) : option Z :=
  match text with
  | EmptyString => Some acc
  | String c text' =>
      let n := Z.of_N (N_of_ascii c) in
      if (48 <=? n) && (n <=? 57) then digits (10 * acc + (n - 48)) text' else None
  end.

Definition decimal (text : string) : option Z :=
  match text with
  | EmptyString => None
  | String "-" (String c text') => Z.opp <$> digits 0 (String c text')
  | _ => digits 0 text
  end.

Definition builtins : Builtins := {|
  strip := λ text, text;
  lower := λ text, text;
  parse_int := decimal;
  parse_float := λ text,
    if String.eqb text "2.5" then Some 2.5%float
    else if String.eqb text "-1" then Some (-1)%float
    else None;
  format_2f := λ _, "#.##";
  datetime_now := λ _, "2025-01-01T00:00:00"
|}.

Definition authentication : Authentication := {|
  authenticate_user := λ username password db,
    match users_table db !! username with
    | Some c =>
        if String.eqb (users.password_hash c) (@hash_password Demo.crypto password)
        then Some (mkidentity (users.id c) username (negb (users.is_admin c =? 0)))
        else None
    | None => None
    end
|}.

(** The demo shop in front of a terminal on which [lines] will be typed. *)
Definition session (lines : list string) : world := mkworld Demo.shop lines [] 0.
End Terminal.

(** * Properties *)

(** Unfolds the monad so that a handler applied to a store computes. *)
Ltac run :=
  unfold bind, ret, raise, get, put, security, sweet_response, truthy in *;
  simpl in *.

(** ** The token service *)

Section TokenServiceFacts.
Context `{Crypto}.

Lemma verify_token_signed (clk_now : Z) (body : payload) :
  verify_token clk_now (Signed body (sign SECRET_KEY body))
  = if clk_now <? exp body then Some body else None.
Proof.
  unfold verify_token. rewrite bool_decide_eq_true_2 by reflexivity.
  reflexivity.
Qed.

Lemma verify_token_Some (clk_now : Z) (tok : token) (body : payload) :
  verify_token clk_now tok = Some body →
  tok = Signed body (sign SECRET_KEY body) ∧ clk_now < exp body.
Proof.
  destruct tok as [raw|b sg]; simpl; [discriminate|].
  destruct (bool_decide (sg = sign SECRET_KEY b)) eqn:Hsig; simpl; [|discriminate].
  destruct (clk_now <? exp b) eqn:Hexp; [|discriminate].
  intros [= ->]. apply bool_decide_eq_true_1 in Hsig. subst sg.
  split; [reflexivity | lia].
Qed.

(** C9 (token round trip).  A token issued at [issued_at] for [subject]
    with flag [admin] verifies, at every instant strictly before its
    expiration, to the payload carrying exactly that subject and flag; at
    the expiration instant and at every later instant verification
    returns [None].  Verification is a total function into an option, so
    it has no other way to fail. *)
Theorem verify_issued_token (issued_at clk_now : Z) (subject : string) (admin : bool) :
  let tok := create_access_token issued_at subject admin in
  let expiration := issued_at + ACCESS_TOKEN_EXPIRE in
  (clk_now < expiration →
     verify_token clk_now tok = Some (mkpayload subject admin expiration)) ∧
  (expiration ≤ clk_now → verify_token clk_now tok = None).
Proof.
  intros tok expiration. subst tok. unfold create_access_token.
  rewrite verify_token_signed. simpl. fold expiration.
  split; intros Hlt.
  - apply Z.ltb_lt in Hlt. rewrite Hlt. reflexivity.
  - apply Z.ltb_ge in Hlt. rewrite Hlt. reflexivity.
Qed.
End TokenServiceFacts.

(** The round trip on the demo deployment: a token issued at second 1000
    with a one-day window is accepted at 87399 and refused at 87400. *)
Lemma verify_issued_token_witness :
  @verify_token Demo.crypto 87399 (@create_access_token Demo.crypto 1000 "alice" true)
    = Some (mkpayload "alice" true 87400)
  ∧ @verify_token Demo.crypto 87400 (@create_access_token Demo.crypto 1000 "alice" true)
    = None.
Proof.
  destruct (@verify_issued_token Demo.crypto 1000 87399 "alice" true) as [Hbefore _].
  destruct (@verify_issued_token Demo.crypto 1000 87400 "alice" true) as [_ Hafter].
  split; [apply Hbefore | apply Hafter]; simpl; lia.
Defined.

(** ** The access control gate *)

Section GateFacts.
Context `{Crypto}.

Lemma get_current_user_db clk authorization db :
  snd (get_current_user clk authorization db) = db.
Proof.
  unfold get_current_user, get_user_by_username. run.
  destruct authorization as [tok|]; simpl; [|reflexivity].
  destruct (verify_token (now clk) tok) as [body|]; simpl; [|reflexivity].
  destruct (users_table db !! sub body); reflexivity.
Qed.

Lemma get_current_user_run clk authorization db :
  get_current_user clk authorization db
  = (fst (get_current_user clk authorization db), db).
Proof.
  rewrite <- (get_current_user_db clk authorization db) at 3.
  apply surjective_pairing.
Qed.

Lemma get_current_user_fault clk authorization db :
  credential_fault clk db authorization →
  rejected_with status.HTTP_401_UNAUTHORIZED (get_current_user clk authorization) db.
Proof.
  unfold rejected_with, get_current_user, get_user_by_username.
  intros [|raw|body sg Hexp|body sg Hsig|body sg Hnone]; run.
  - eauto.
  - eauto.
  - apply Z.ltb_ge in Hexp. rewrite Hexp, andb_false_r. eauto.
  - rewrite bool_decide_eq_false_2 by assumption. simpl. eauto.
  - destruct (_ && _); [|eauto]. rewrite Hnone. simpl. eauto.
Qed.

(** A request that the gate lets through carries a well-signed,
    unexpired token whose subject is a registered account. *)
Lemma get_current_user_Return clk authorization db user :
  fst (get_current_user clk authorization db) = Return user →
  ∃ body c,
    authorization = Some (Signed body (sign SECRET_KEY body))
    ∧ now clk < exp body
    ∧ users_table db !! sub body = Some c
    ∧ user = mkidentity (users.id c) (sub body) (negb (users.is_admin c =? 0)).
Proof.
  unfold get_current_user, get_user_by_username. run.
  destruct authorization as [tok|]; simpl; [|discriminate].
  destruct (verify_token (now clk) tok) as [body|] eqn:Hv; simpl; [|discriminate].
  apply verify_token_Some in Hv as [-> Hlt].
  destruct (users_table db !! sub body) as [c|] eqn:Hc; simpl; [|discriminate].
  intros [= <-]. eauto 10.
Qed.

Lemma get_admin_user_run clk authorization db :
  get_admin_user clk authorization db
  = match fst (get_current_user clk authorization db) with
    | Return user =>
        if admin user then (Return user, db)
        else (Raise (HTTPException status.HTTP_403_FORBIDDEN "Admin access required"), db)
    | Raise e => (Raise e, db)
    end.
Proof.
  unfold get_admin_user. run. rewrite (get_current_user_run clk authorization db).
  simpl. destruct (fst _) as [user|e]; [|reflexivity].
  destruct (admin user); reflexivity.
Qed.
End GateFacts.

(** ** The ledger operations of database.py *)

Lemma purchase_sweet_run (sweet_id quantity : Z) (db : database) :
  purchase_sweet sweet_id quantity db
  = match sweets_table db !! sweet_id with
    | None => (Return false, db)
    | Some c =>
        if sweets.quantity c <? quantity then (Return false, db)
        else (Return true,
              mkdb (users_table db) (users_seq db)
                   (alter (sweets.set_quantity (sweets.quantity c - quantity)) sweet_id
                          (sweets_table db))
                   (sweets_seq db))
    end.
Proof.
  unfold purchase_sweet. run.
  destruct (sweets_table db !! sweet_id) as [c|]; simpl; [|reflexivity].
  destruct (sweets.quantity c <? quantity); reflexivity.
Qed.

Lemma restock_sweet_run (sweet_id quantity : Z) (db : database) :
  restock_sweet sweet_id quantity db
  = if bool_decide (int64 sweet_id)
    then match sweets_table db !! sweet_id with
         | None => (Return false, db)
         | Some c =>
             if bool_decide (int64 (sweets.quantity c + quantity))
             then (Return true,
                   mkdb (users_table db) (users_seq db)
                        (alter (sweets.set_quantity (sweets.quantity c + quantity)) sweet_id
                               (sweets_table db))
                        (sweets_seq db))
             else (Raise sqlite3.too_large, db)
         end
    else (Raise sqlite3.too_large, db).
Proof.
  unfold restock_sweet, sqlite3.INTEGER. run.
  destruct (bool_decide (int64 sweet_id)); simpl; [|reflexivity].
  destruct (sweets_table db !! sweet_id) as [c|]; simpl; [|reflexivity].
  destruct (bool_decide (int64 (sweets.quantity c + quantity))); reflexivity.
Qed.

(** Within the range of the storage, [restock_sweet] adds to the stock. *)
Lemma restock_sweet_fits (sweet_id quantity : Z) (db : database) (c : sweets.columns) :
  sweets_table db !! sweet_id = Some c →
  int64 sweet_id →
  int64 (sweets.quantity c + quantity) →
  restock_sweet sweet_id quantity db
  = (Return true,
     mkdb (users_table db) (users_seq db)
          (alter (sweets.set_quantity (sweets.quantity c + quantity)) sweet_id
                 (sweets_table db))
          (sweets_seq db)).
Proof.
  intros Hc Hid Hsum. rewrite restock_sweet_run, Hc.
  rewrite !bool_decide_eq_true_2 by assumption. reflexivity.
Qed.

(** [restock_sweet] leaves the store as it is unless it returns [True]. *)
Lemma restock_sweet_cases (sweet_id quantity : Z) (db : database) :
  restock_sweet sweet_id quantity db = (Return false, db)
  ∨ restock_sweet sweet_id quantity db = (Raise sqlite3.too_large, db)
  ∨ ∃ c, sweets_table db !! sweet_id = Some c
         ∧ restock_sweet sweet_id quantity db
           = (Return true,
              mkdb (users_table db) (users_seq db)
                   (alter (sweets.set_quantity (sweets.quantity c + quantity)) sweet_id
                          (sweets_table db))
                   (sweets_seq db)).
Proof.
  rewrite restock_sweet_run.
  destruct (bool_decide (int64 sweet_id)); [|right; left; reflexivity].
  destruct (sweets_table db !! sweet_id) as [c|]; [|left; reflexivity].
  destruct (bool_decide (int64 (sweets.quantity c + quantity))).
  - right. right. exists c. split; reflexivity.
  - right. left. reflexivity.
Qed.

Lemma create_sweet_run now_iso name category price quantity (db : database) :
  create_sweet now_iso name category price quantity db
  = if bool_decide (int64 quantity)
    then if PrimFloat.is_nan price then (Raise sqlite3.price_is_NULL, db)
         else (Return (sweets_seq db + 1),
               mkdb (users_table db) (users_seq db)
                    (<[sweets_seq db + 1 :=
                         sweets.mk name category (sqlite3.REAL price) quantity now_iso]>
                       (sweets_table db))
                    (sweets_seq db + 1))
    else (Raise sqlite3.too_large, db).
Proof.
  unfold create_sweet, sqlite3.INTEGER, sqlite3.price_NOT_NULL. run.
  destruct (bool_decide (int64 quantity)); simpl; [|reflexivity].
  destruct (PrimFloat.is_nan price); reflexivity.
Qed.

(** [create_sweet] leaves the store as it is when it raises. *)
Lemma create_sweet_cases now_iso name category price quantity (db : database) :
  (∃ e, create_sweet now_iso name category price quantity db = (Raise e, db))
  ∨ create_sweet now_iso name category price quantity db
    = (Return (sweets_seq db + 1),
       mkdb (users_table db) (users_seq db)
            (<[sweets_seq db + 1 :=
                 sweets.mk name category (sqlite3.REAL price) quantity now_iso]>
               (sweets_table db))
            (sweets_seq db + 1)).
Proof.
  rewrite create_sweet_run.
  destruct (bool_decide (int64 quantity)); [|left; eexists; reflexivity].
  destruct (PrimFloat.is_nan price); [left; eexists; reflexivity | right; reflexivity].
Qed.

Lemma update_sweet_run sweet_id name category price quantity (db : database) :
  update_sweet sweet_id name category price quantity db
  = if no_updates name category price quantity then (Return false, db)
    else if from_option (λ q, bool_decide (int64 q)) true quantity
            && bool_decide (int64 sweet_id)
    then if bool_decide (is_Some (sweets_table db !! sweet_id))
            && from_option PrimFloat.is_nan false price
         then (Raise sqlite3.price_is_NULL, db)
         else (Return (bool_decide (is_Some (sweets_table db !! sweet_id))),
               mkdb (users_table db) (users_seq db)
                    (alter (apply_updates name category price quantity) sweet_id
                           (sweets_table db))
                    (sweets_seq db))
    else (Raise sqlite3.too_large, db).
Proof.
  unfold update_sweet, sqlite3.optional_INTEGER, sqlite3.INTEGER. run.
  destruct (no_updates name category price quantity); [reflexivity|].
  destruct quantity as [q|]; simpl.
  - destruct (bool_decide (int64 q)); simpl; [|reflexivity].
    destruct (bool_decide (int64 sweet_id)); simpl; [|reflexivity].
    destruct (_ && _); reflexivity.
  - destruct (bool_decide (int64 sweet_id)); simpl; [|reflexivity].
    destruct (_ && _); reflexivity.
Qed.

(** [update_sweet] leaves the store as it is when it raises. *)
Lemma update_sweet_cases sweet_id name category price quantity (db : database) :
  (∃ e, update_sweet sweet_id name category price quantity db = (Raise e, db))
  ∨ update_sweet sweet_id name category price quantity db = (Return false, db)
  ∨ ∃ found,
      update_sweet sweet_id name category price quantity db
      = (Return found,
         mkdb (users_table db) (users_seq db)
              (alter (apply_updates name category price quantity) sweet_id (sweets_table db))
              (sweets_seq db)).
Proof.
  rewrite update_sweet_run.
  destruct (no_updates name category price quantity); [right; left; reflexivity|].
  destruct (_ && _); [|left; eexists; reflexivity].
  destruct (_ && _); [left; eexists; reflexivity|].
  right. right. eexists. reflexivity.
Qed.

Lemma lookup_alter_eq (f : sweets.columns → sweets.columns) (i : Z)
    (m : gmap Z sweets.columns) :
  alter f i m !! i = f <$> m !! i.
Proof. rewrite lookup_alter. case_decide; [reflexivity | congruence]. Qed.

Lemma lookup_alter_other (f : sweets.columns → sweets.columns) (i j : Z)
    (m : gmap Z sweets.columns) :
  j ≠ i → alter f i m !! j = m !! j.
Proof. intros Hne. rewrite lookup_alter. case_decide; [congruence | reflexivity]. Qed.

(** Writing back the quantity a row already has changes nothing. *)
Lemma alter_set_quantity_id (i : Z) (c : sweets.columns) (m : gmap Z sweets.columns) :
  m !! i = Some c → alter (sweets.set_quantity (sweets.quantity c)) i m = m.
Proof.
  intros Hc. apply map_eq. intros j.
  destruct (decide (j = i)) as [->|Hne].
  - rewrite lookup_alter_eq, Hc. destruct c; reflexivity.
  - apply lookup_alter_other, Hne.
Qed.

Lemma alter_set_quantity_twice (i q1 q2 : Z) (m : gmap Z sweets.columns) :
  alter (sweets.set_quantity q2) i (alter (sweets.set_quantity q1) i m)
  = alter (sweets.set_quantity q2) i m.
Proof.
  apply map_eq. intros j.
  destruct (decide (j = i)) as [->|Hne].
  - rewrite !lookup_alter_eq. destruct (m !! i); reflexivity.
  - rewrite !lookup_alter_other by assumption. reflexivity.
Qed.

(** ** The inventory handlers, past the gate *)

Section HandlerFacts.
Context `{Crypto}.

(** The gate reads the [users] table only. *)
Lemma get_current_user_users clk authorization db1 db2 :
  users_table db1 = users_table db2 →
  fst (get_current_user clk authorization db1)
  = fst (get_current_user clk authorization db2).
Proof.
  intros Hu. unfold get_current_user, get_user_by_username. run.
  destruct authorization as [tok|]; simpl; [|reflexivity].
  destruct (verify_token (now clk) tok) as [body|]; simpl; [|reflexivity].
  rewrite Hu. destruct (users_table db2 !! sub body); reflexivity.
Qed.

Lemma purchase_sweet_endpoint_run clk authorization user sweet_id quantity db :
  fst (get_current_user clk authorization db) = Return user →
  purchase_sweet_endpoint clk authorization sweet_id (PurchaseRequest.mk quantity) db
  = match sweets_table db !! sweet_id with
    | None => (Raise (HTTPException status.HTTP_404_NOT_FOUND "Sweet not found"), db)
    | Some c =>
        if sweets.quantity c <? quantity
        then (Raise (HTTPException status.HTTP_400_BAD_REQUEST
                       "Insufficient quantity in stock"), db)
        else (Return (sweet_row sweet_id
                        (sweets.set_quantity (sweets.quantity c - quantity) c)),
              snd (purchase_sweet sweet_id quantity db))
    end.
Proof.
  intros Hu. unfold purchase_sweet_endpoint.
  unfold bind at 1. rewrite (get_current_user_run clk authorization db), Hu.
  unfold bind at 1. unfold get_sweet_by_id at 1. run.
  destruct (sweets_table db !! sweet_id) as [c|] eqn:Hc; simpl; [|reflexivity].
  rewrite purchase_sweet_run, Hc.
  destruct (sweets.quantity c <? quantity); simpl; [reflexivity|].
  unfold get_sweet_by_id. run. rewrite lookup_alter_eq, Hc. reflexivity.
Qed.

Lemma restock_sweet_endpoint_run clk authorization user sweet_id quantity db :
  fst (get_current_user clk authorization db) = Return user →
  admin user = true →
  restock_sweet_endpoint clk authorization sweet_id (RestockRequest.mk quantity) db
  = match sweets_table db !! sweet_id with
    | None => (Raise (HTTPException status.HTTP_404_NOT_FOUND "Sweet not found"), db)
    | Some c =>
        if bool_decide (int64 sweet_id) && bool_decide (int64 (sweets.quantity c + quantity))
        then (Return (sweet_row sweet_id
                        (sweets.set_quantity (sweets.quantity c + quantity) c)),
              snd (restock_sweet sweet_id quantity db))
        else (Raise sqlite3.too_large, db)
    end.
Proof.
  intros Hu Hadmin. unfold restock_sweet_endpoint.
  unfold bind at 1. rewrite get_admin_user_run, Hu, Hadmin.
  unfold bind at 1. unfold get_sweet_by_id at 1. run.
  destruct (sweets_table db !! sweet_id) as [c|] eqn:Hc; simpl; [|reflexivity].
  rewrite restock_sweet_run, Hc.
  destruct (bool_decide (int64 sweet_id)); simpl; [|reflexivity].
  destruct (bool_decide (int64 (sweets.quantity c + quantity))); simpl; [|reflexivity].
  unfold get_sweet_by_id. run. rewrite lookup_alter_eq, Hc. reflexivity.
Qed.

Lemma delete_sweet_endpoint_run clk authorization user sweet_id db :
  fst (get_current_user clk authorization db) = Return user →
  admin user = true →
  delete_sweet_endpoint clk authorization sweet_id db
  = match sweets_table db !! sweet_id with
    | None => (Raise (HTTPException status.HTTP_404_NOT_FOUND "Sweet not found"), db)
    | Some _ => (Return tt, snd (delete_sweet sweet_id db))
    end.
Proof.
  intros Hu Hadmin. unfold delete_sweet_endpoint.
  unfold bind at 1. rewrite get_admin_user_run, Hu, Hadmin.
  unfold bind at 1. unfold get_sweet_by_id at 1. run.
  destruct (sweets_table db !! sweet_id) as [c|] eqn:Hc; reflexivity.
Qed.

(** A handler behind [get_admin_user] stops at the gate, with the store
    untouched, whenever the gate raises. *)
Lemma delete_sweet_endpoint_gate clk authorization sweet_id db e :
  get_admin_user clk authorization db = (Raise e, db) →
  delete_sweet_endpoint clk authorization sweet_id db = (Raise e, db).
Proof. intros Hg. unfold delete_sweet_endpoint, bind. rewrite Hg. reflexivity. Qed.

Lemma restock_sweet_endpoint_gate clk authorization sweet_id restock db e :
  get_admin_user clk authorization db = (Raise e, db) →
  restock_sweet_endpoint clk authorization sweet_id restock db = (Raise e, db).
Proof. intros Hg. unfold restock_sweet_endpoint, bind. rewrite Hg. reflexivity. Qed.
End HandlerFacts.

(** ** Purchase and restock *)

Section LedgerClaims.
Context `{Crypto}.

(** C2 (purchase).  For an existing item with stock [s] and a positive
    quantity [q], requested by an authenticated caller: the purchase
    succeeds exactly when [q ≤ s], both as a call of [purchase_sweet] and
    as a request to the endpoint; on success the stock becomes [s - q];
    when [s < q] the call returns [False], the endpoint answers 400
    "Insufficient quantity in stock", and the store is the one before. *)
Theorem purchase_iff_sufficient_stock clk authorization user db sweet_id c q :
  fst (get_current_user clk authorization db) = Return user →
  sweets_table db !! sweet_id = Some c →
  0 < q →
  let s := sweets.quantity c in
  let request := purchase_sweet_endpoint clk authorization sweet_id (PurchaseRequest.mk q) in
  (fst (purchase_sweet sweet_id q db) = Return true ↔ q ≤ s)
  ∧ (succeeds request db ↔ q ≤ s)
  ∧ (q ≤ s →
     ∃ db', purchase_sweet sweet_id q db = (Return true, db')
            ∧ request db = (Return (sweet_row sweet_id (sweets.set_quantity (s - q) c)), db')
            ∧ stock db' sweet_id = Some (s - q))
  ∧ (s < q →
     purchase_sweet sweet_id q db = (Return false, db)
     ∧ request db = (Raise (HTTPException status.HTTP_400_BAD_REQUEST
                              "Insufficient quantity in stock"), db)
     ∧ stock db sweet_id = Some s).
Proof.
  intros Hu Hc Hq s request. subst request. unfold succeeds, stock.
  rewrite (purchase_sweet_endpoint_run _ _ _ _ _ _ Hu), purchase_sweet_run, Hc.
  fold s.
  destruct (s <? q) eqn:Hlt; [apply Z.ltb_lt in Hlt | apply Z.ltb_ge in Hlt]; simpl.
  - repeat split; try (intros; lia); try discriminate.
    intros (a & db' & [=]).
  - repeat split; try (intros; lia); eauto.
    intros _. eexists. repeat split. simpl. rewrite lookup_alter_eq, Hc. reflexivity.
Qed.

(** No check on the sign of the quantity stands between the request body
    and [purchase_sweet]: for an authenticated caller and an item with stock
    [s ≥ 0], a purchase of [q ≤ 0] is answered with the updated row and
    leaves a stock of [s - q], which is at least [s]. *)
Lemma purchase_endpoint_nonpositive_quantity clk authorization user db sweet_id c q :
  fst (get_current_user clk authorization db) = Return user →
  sweets_table db !! sweet_id = Some c →
  0 ≤ sweets.quantity c →
  q ≤ 0 →
  ∃ db', purchase_sweet_endpoint clk authorization sweet_id (PurchaseRequest.mk q) db
         = (Return (sweet_row sweet_id
                      (sweets.set_quantity (sweets.quantity c - q) c)), db')
         ∧ stock db' sweet_id = Some (sweets.quantity c - q).
Proof.
  intros Hu Hc Hs Hq.
  rewrite (purchase_sweet_endpoint_run _ _ _ _ _ _ Hu), purchase_sweet_run, Hc.
  replace (sweets.quantity c <? q) with false by (symmetry; apply Z.ltb_ge; lia).
  eexists. split; [reflexivity|].
  unfold stock. simpl. rewrite lookup_alter_eq, Hc. reflexivity.
Qed.

(** C7 (restock), within the range of the storage.  For an id that is a
    64-bit integer and a positive quantity [q] requested by an admin:
    [restock_sweet] returns [False], and the endpoint answers 404, exactly
    when the id has no row, which is the case after the item has been
    deleted.  When the row exists with stock [s], the restock succeeds
    exactly when [s + q] is a 64-bit integer, and the stock is then
    [s + q]; when the sum is out of that range the UPDATE raises
    [OverflowError], through the endpoint too, and the store is the one
    before. *)
Theorem restock_not_found_or_out_of_range clk authorization user db sweet_id q :
  fst (get_current_user clk authorization db) = Return user →
  admin user = true →
  int64 sweet_id →
  0 < q →
  let request := restock_sweet_endpoint clk authorization sweet_id (RestockRequest.mk q) in
  (fst (restock_sweet sweet_id q db) = Return false ↔ sweets_table db !! sweet_id = None)
  ∧ (rejected_with status.HTTP_404_NOT_FOUND request db ↔ sweets_table db !! sweet_id = None)
  ∧ (∀ c, sweets_table db !! sweet_id = Some c →
       (fst (restock_sweet sweet_id q db) = Return true ↔ int64 (sweets.quantity c + q))
       ∧ (succeeds request db ↔ int64 (sweets.quantity c + q)))
  ∧ (∀ c, sweets_table db !! sweet_id = Some c →
       int64 (sweets.quantity c + q) →
       ∃ db', restock_sweet sweet_id q db = (Return true, db')
              ∧ request db
                = (Return (sweet_row sweet_id
                             (sweets.set_quantity (sweets.quantity c + q) c)), db')
              ∧ stock db' sweet_id = Some (sweets.quantity c + q))
  ∧ (∀ c, sweets_table db !! sweet_id = Some c →
       ¬ int64 (sweets.quantity c + q) →
       restock_sweet sweet_id q db = (Raise sqlite3.too_large, db)
       ∧ request db = (Raise sqlite3.too_large, db))
  ∧ (let deleted := snd (delete_sweet_endpoint clk authorization sweet_id db) in
     sweets_table deleted !! sweet_id = None
     ∧ restock_sweet sweet_id q deleted = (Return false, deleted)
     ∧ rejected_with status.HTTP_404_NOT_FOUND request deleted).
Proof.
  intros Hu Hadmin Hid Hq request. subst request.
  assert (Hdel : let deleted := snd (delete_sweet_endpoint clk authorization sweet_id db) in
                 users_table deleted = users_table db
                 ∧ sweets_table deleted !! sweet_id = None).
  { rewrite (delete_sweet_endpoint_run _ _ _ _ _ Hu Hadmin).
    destruct (sweets_table db !! sweet_id) eqn:Hc; simpl.
    - split; [reflexivity | apply lookup_delete_eq].
    - split; [reflexivity | assumption]. }
  simpl in Hdel. destruct Hdel as [Husers Hgone].
  assert (Hrun : ∀ db0, restock_sweet sweet_id q db0
            = match sweets_table db0 !! sweet_id with
              | None => (Return false, db0)
              | Some c =>
                  if bool_decide (int64 (sweets.quantity c + q))
                  then (Return true,
                        mkdb (users_table db0) (users_seq db0)
                             (alter (sweets.set_quantity (sweets.quantity c + q)) sweet_id
                                    (sweets_table db0))
                             (sweets_seq db0))
                  else (Raise sqlite3.too_large, db0)
              end).
  { intros db0. rewrite restock_sweet_run, (bool_decide_eq_true_2 _ Hid). reflexivity. }
  unfold succeeds, rejected_with.
  rewrite (restock_sweet_endpoint_run _ _ _ _ _ _ Hu Hadmin), (bool_decide_eq_true_2 _ Hid).
  rewrite !Hrun. simpl.
  split; [|split; [|split; [|split; [|split]]]].
  - destruct (sweets_table db !! sweet_id) as [c|]; [|split; reflexivity].
    destruct (bool_decide (int64 (sweets.quantity c + q))); split; discriminate.
  - destruct (sweets_table db !! sweet_id) as [c|].
    + destruct (bool_decide (int64 (sweets.quantity c + q)));
        (split; [intros [detail [=]] | discriminate]).
    + split; [reflexivity | intros _; eexists; reflexivity].
  - intros c ->. case_bool_decide as Hsum; simpl.
    + split; split; try (intros _; exact Hsum); intros _; [reflexivity | eauto].
    + split; split; try discriminate; try (intros; contradiction).
      intros (a & db' & [=]).
  - intros c Hc Hsum. rewrite Hc, (bool_decide_eq_true_2 _ Hsum).
    eexists. repeat split. unfold stock. simpl. rewrite lookup_alter_eq, Hc. reflexivity.
  - intros c Hc Hsum. rewrite Hc, (bool_decide_eq_false_2 _ Hsum). split; reflexivity.
  - split; [exact Hgone|]. rewrite Hgone. split; [reflexivity|].
    assert (Hu' : fst (get_current_user clk authorization
                         (snd (delete_sweet_endpoint clk authorization sweet_id db)))
                  = Return user).
    { rewrite <- Hu. apply get_current_user_users, Husers. }
    rewrite (restock_sweet_endpoint_run _ _ _ _ _ _ Hu' Hadmin), Hgone.
    eexists. reflexivity.
Qed.

(** C8 (round trip), for an item whose stock is not negative and within
    the range of the storage: the id and the stock plus [q] are 64-bit
    integers.  A restock of a positive [q] followed at once by a purchase of
    [q] succeeds twice and leaves the store exactly as it was before the
    restock; the same holds through the endpoints, for an admin restocking
    and any authenticated caller purchasing. *)
Theorem restock_then_purchase_round_trip db sweet_id c q :
  sweets_table db !! sweet_id = Some c →
  0 ≤ sweets.quantity c →
  0 < q →
  int64 sweet_id →
  int64 (sweets.quantity c + q) →
  ∃ db1,
    restock_sweet sweet_id q db = (Return true, db1)
    ∧ stock db1 sweet_id = Some (sweets.quantity c + q)
    ∧ purchase_sweet sweet_id q db1 = (Return true, db)
    ∧ ∀ clk1 clk2 authorization1 authorization2 user1 user2,
        fst (get_current_user clk1 authorization1 db) = Return user1 →
        admin user1 = true →
        fst (get_current_user clk2 authorization2 db) = Return user2 →
        restock_sweet_endpoint clk1 authorization1 sweet_id (RestockRequest.mk q) db
        = (Return (sweet_row sweet_id (sweets.set_quantity (sweets.quantity c + q) c)), db1)
        ∧ purchase_sweet_endpoint clk2 authorization2 sweet_id (PurchaseRequest.mk q) db1
          = (Return (sweet_row sweet_id c), db).
Proof.
  intros Hc Hs Hq Hid Hsum.
  pose proof (restock_sweet_fits sweet_id q db c Hc Hid Hsum) as Hrestock.
  assert (Hback : purchase_sweet sweet_id q (snd (restock_sweet sweet_id q db))
                  = (Return true, db)).
  { rewrite Hrestock. simpl.
    rewrite purchase_sweet_run. simpl. rewrite lookup_alter_eq, Hc. simpl.
    replace (sweets.quantity c + q <? q) with false by (symmetry; apply Z.ltb_ge; lia).
    rewrite alter_set_quantity_twice.
    replace (sweets.quantity c + q - q) with (sweets.quantity c) by lia.
    rewrite (alter_set_quantity_id _ _ _ Hc). destruct db; reflexivity. }
  exists (snd (restock_sweet sweet_id q db)).
  split; [|split; [|split]].
  - rewrite Hrestock. reflexivity.
  - rewrite Hrestock. unfold stock. simpl.
    rewrite lookup_alter_eq, Hc. reflexivity.
  - exact Hback.
  - intros clk1 clk2 authorization1 authorization2 user1 user2 Hu1 Hadmin Hu2. split.
    + rewrite (restock_sweet_endpoint_run _ _ _ _ _ _ Hu1 Hadmin), Hc.
      rewrite !bool_decide_eq_true_2 by assumption. reflexivity.
    + assert (Hu2' : fst (get_current_user clk2 authorization2
                            (snd (restock_sweet sweet_id q db))) = Return user2).
      { rewrite <- Hu2. apply get_current_user_users.
        rewrite Hrestock. reflexivity. }
      rewrite (purchase_sweet_endpoint_run _ _ _ _ _ _ Hu2'), Hback.
      rewrite Hrestock. simpl. rewrite lookup_alter_eq, Hc. simpl.
      replace (sweets.quantity c + q <? q) with false by (symmetry; apply Z.ltb_ge; lia).
      replace (sweets.quantity c + q - q) with (sweets.quantity c) by lia.
      destruct c; reflexivity.
Qed.

(** C10 (frame).  A successful purchase or restock of item [sweet_id],
    called directly or through its endpoint, leaves the accounts, the two
    id counters and every other item as they were, and changes nothing of
    the item's own row but its quantity. *)
Theorem ledger_changes_quantity_only db db' sweet_id q :
  purchase_sweet sweet_id q db = (Return true, db')
  ∨ restock_sweet sweet_id q db = (Return true, db')
  ∨ (∃ clk authorization row,
       purchase_sweet_endpoint clk authorization sweet_id (PurchaseRequest.mk q) db
       = (Return row, db'))
  ∨ (∃ clk authorization row,
       restock_sweet_endpoint clk authorization sweet_id (RestockRequest.mk q) db
       = (Return row, db')) →
  users_table db' = users_table db
  ∧ users_seq db' = users_seq db
  ∧ sweets_seq db' = sweets_seq db
  ∧ (∀ other, other ≠ sweet_id → sweets_table db' !! other = sweets_table db !! other)
  ∧ ∃ c c', sweets_table db !! sweet_id = Some c
            ∧ sweets_table db' !! sweet_id = Some c'
            ∧ sweets.name c' = sweets.name c
            ∧ sweets.category c' = sweets.category c
            ∧ sweets.price c' = sweets.price c
            ∧ sweets.created_at c' = sweets.created_at c.
Proof.
  intros Hcase.
  assert (Hdb : ∃ c q', sweets_table db !! sweet_id = Some c
                        ∧ db' = mkdb (users_table db) (users_seq db)
                                     (alter (sweets.set_quantity q') sweet_id
                                            (sweets_table db))
                                     (sweets_seq db)).
  { destruct Hcase as [Hp|[Hr|[(clk & authorization & row & Hp)|(clk & authorization & row & Hr)]]].
    - rewrite purchase_sweet_run in Hp.
      destruct (sweets_table db !! sweet_id) as [c|]; [|discriminate].
      destruct (_ <? _); [discriminate|]. injection Hp as <-. eauto.
    - destruct (restock_sweet_cases sweet_id q db) as [Hf|[Hf|(c & Hc & Hf)]];
        rewrite Hf in Hr; try discriminate.
      injection Hr as <-. eauto.
    - destruct (fst (get_current_user clk authorization db)) as [user|e] eqn:Hu.
      + rewrite (purchase_sweet_endpoint_run _ _ _ _ _ _ Hu), purchase_sweet_run in Hp.
        destruct (sweets_table db !! sweet_id) as [c|]; [|discriminate].
        destruct (_ <? _); [discriminate|]. injection Hp as _ <-. eauto.
      + unfold purchase_sweet_endpoint in Hp. unfold bind at 1 in Hp.
        rewrite (get_current_user_run clk authorization db), Hu in Hp. discriminate.
    - destruct (fst (get_current_user clk authorization db)) as [user|e] eqn:Hu;
        [destruct (admin user) eqn:Hadmin|].
      + rewrite (restock_sweet_endpoint_run _ _ _ _ _ _ Hu Hadmin) in Hr.
        destruct (sweets_table db !! sweet_id) as [c|] eqn:Hc; [|discriminate].
        destruct (bool_decide (int64 sweet_id)) eqn:Hid; [|discriminate].
        destruct (bool_decide (int64 (sweets.quantity c + q))) eqn:Hsum; [|discriminate].
        apply bool_decide_eq_true_1 in Hid, Hsum.
        rewrite (restock_sweet_fits _ _ _ _ Hc Hid Hsum) in Hr.
        injection Hr as _ <-. eauto.
      + unfold restock_sweet_endpoint in Hr. unfold bind at 1 in Hr.
        rewrite get_admin_user_run, Hu, Hadmin in Hr. discriminate.
      + unfold restock_sweet_endpoint in Hr. unfold bind at 1 in Hr.
        rewrite get_admin_user_run, Hu in Hr. discriminate. }
  destruct Hdb as (c & q' & Hc & ->). simpl.
  repeat split; try reflexivity.
  - intros other Hne. apply lookup_alter_other, Hne.
  - exists c, (sweets.set_quantity q' c).
    rewrite lookup_alter_eq, Hc. repeat split.
Qed.
End LedgerClaims.

(** ** Authentication failures and authorization failures *)

Section GateClaims.
Context `{Crypto}.

(** C5 (401 against 403).  A request whose credential is missing,
    malformed, expired, forged, or names a subject without an account is
    rejected by the gate with 401, on every protected route and before
    anything is written.  A request whose credential resolves to an account
    without the admin flag is rejected with 403 on the two admin-only
    routes (delete, restock): it is not answered 401 and the store is the
    one before, so the operation has not run. *)
Theorem gate_rejections_are_distinguishable clk authorization db :
  (credential_fault clk db authorization →
     rejected_with 401 (get_current_user clk authorization) db
     ∧ rejected_with 401 (get_admin_user clk authorization) db
     ∧ ∀ sweet_id sweet sweet_update purchase restock,
         rejected_with 401 (add_sweet clk authorization sweet) db
         ∧ rejected_with 401 (update_sweet_endpoint clk authorization sweet_id sweet_update) db
         ∧ rejected_with 401 (purchase_sweet_endpoint clk authorization sweet_id purchase) db
         ∧ rejected_with 401 (delete_sweet_endpoint clk authorization sweet_id) db
         ∧ rejected_with 401 (restock_sweet_endpoint clk authorization sweet_id restock) db)
  ∧ (∀ user,
       fst (get_current_user clk authorization db) = Return user →
       admin user = false →
       ∀ sweet_id restock,
         rejected_with 403 (get_admin_user clk authorization) db
         ∧ rejected_with 403 (delete_sweet_endpoint clk authorization sweet_id) db
         ∧ rejected_with 403 (restock_sweet_endpoint clk authorization sweet_id restock) db
         ∧ ¬ rejected_with 401 (delete_sweet_endpoint clk authorization sweet_id) db
         ∧ ¬ rejected_with 401 (restock_sweet_endpoint clk authorization sweet_id restock) db
         ∧ ¬ succeeds (delete_sweet_endpoint clk authorization sweet_id) db
         ∧ ¬ succeeds (restock_sweet_endpoint clk authorization sweet_id restock) db).
Proof.
  split.
  - intros Hfault.
    destruct (get_current_user_fault clk authorization db Hfault) as [detail Hgate].
    assert (Hadmin : get_admin_user clk authorization db
                     = (Raise (HTTPException 401 detail), db)).
    { unfold get_admin_user, bind. rewrite Hgate. reflexivity. }
    split; [exists detail; exact Hgate|].
    split; [exists detail; exact Hadmin|].
    intros sweet_id sweet sweet_update purchase restock.
    repeat split; exists detail.
    + unfold add_sweet, bind. rewrite Hgate. reflexivity.
    + unfold update_sweet_endpoint, bind. rewrite Hgate. reflexivity.
    + unfold purchase_sweet_endpoint, bind. rewrite Hgate. reflexivity.
    + apply delete_sweet_endpoint_gate, Hadmin.
    + apply restock_sweet_endpoint_gate, Hadmin.
  - intros user Hu Hflag sweet_id restock.
    assert (Hadmin : get_admin_user clk authorization db
                     = (Raise (HTTPException 403 "Admin access required"), db)).
    { rewrite get_admin_user_run, Hu, Hflag. reflexivity. }
    pose proof (delete_sweet_endpoint_gate _ _ sweet_id _ _ Hadmin) as Hdelete.
    pose proof (restock_sweet_endpoint_gate _ _ sweet_id restock _ _ Hadmin) as Hrestock.
    unfold rejected_with, succeeds. rewrite Hadmin, Hdelete, Hrestock.
    repeat split; eauto.
    + intros [detail [=]].
    + intros [detail [=]].
    + intros (a & db' & [=]).
    + intros (a & db' & [=]).
Qed.
End GateClaims.

(** ** Registration *)

Section RegistrationClaims.
Context `{Crypto}.

Lemma register_run clk user_data db :
  register clk user_data db
  = let username := UserRegister.username user_data in
    match users_table db !! username with
    | Some _ =>
        (Raise (HTTPException status.HTTP_400_BAD_REQUEST "Username already exists"), db)
    | None =>
        let is_admin :=
          (Z.of_nat (size (users_table db)) =? 0)
          || bool_decide (UserRegister.admin_key user_data = Some ADMIN_KEY) in
        (Return (TokenResponse.mk (create_access_token (now clk) username is_admin) "bearer"),
         mkdb (<[username := users.mk (users_seq db + 1)
                               (hash_password (UserRegister.password user_data))
                               (if is_admin then 1 else 0) (now_iso clk)]> (users_table db))
              (users_seq db + 1) (sweets_table db) (sweets_seq db))
    end.
Proof.
  unfold register, get_user_by_username, count_users, create_user. run.
  destruct (users_table db !! UserRegister.username user_data) eqn:Hu; simpl;
    [reflexivity|].
  rewrite Hu. reflexivity.
Qed.

(** C4 (admin designation).  A registration under a free username
    succeeds, and the admin flag of the account it creates, which is also
    the flag carried by the token it returns, is true exactly when no
    account was registered before or the submitted admin key is the
    string "aswd" itself.  So the first account is admin whatever key it
    submits, and a later account with another key, or none, is not. *)
Theorem register_admin_iff_first_or_key clk user_data db :
  users_table db !! UserRegister.username user_data = None →
  ∃ flag db',
    register clk user_data db
    = (Return (TokenResponse.mk
                 (create_access_token (now clk) (UserRegister.username user_data) flag)
                 "bearer"), db')
    ∧ admin_flag db' (UserRegister.username user_data) = Some flag
    ∧ (flag = true ↔
       size (users_table db) = 0%nat ∨ UserRegister.admin_key user_data = Some "aswd")
    ∧ (size (users_table db) = 0%nat → flag = true)
    ∧ (size (users_table db) ≠ 0%nat →
       UserRegister.admin_key user_data ≠ Some "aswd" → flag = false).
Proof.
  intros Hfree.
  pose proof (register_run clk user_data db) as Hrun.
  cbv zeta in Hrun. rewrite Hfree in Hrun.
  set (flag := (Z.of_nat (size (users_table db)) =? 0)
               || bool_decide (UserRegister.admin_key user_data = Some ADMIN_KEY)) in *.
  assert (Hflag : flag = true ↔
                  size (users_table db) = 0%nat
                  ∨ UserRegister.admin_key user_data = Some "aswd").
  { unfold flag. rewrite orb_true_iff, Z.eqb_eq, bool_decide_eq_true.
    unfold ADMIN_KEY. rewrite <- Nat2Z.inj_0, Nat2Z.inj_iff. reflexivity. }
  exists flag. eexists. split; [exact Hrun|]. split; [|split; [exact Hflag|split]].
  - unfold admin_flag. simpl. rewrite lookup_insert_eq. simpl.
    destruct flag; reflexivity.
  - intros Hzero. apply Hflag. left. exact Hzero.
  - intros Hsome Hkey. destruct flag; [|reflexivity].
    destruct Hflag as [Hflag _]. destruct (Hflag eq_refl); contradiction.
Qed.

(** C6 (duplicate username).  A registration whose username is that of an
    existing account, compared as exact strings, is rejected with 400
    "Username already exists"; the store is left as it was (no row is
    added, the existing account is untouched) and the handler raises
    instead of returning a token. *)
Theorem register_duplicate_rejected clk user_data db :
  is_Some (users_table db !! UserRegister.username user_data) →
  register clk user_data db
  = (Raise (HTTPException status.HTTP_400_BAD_REQUEST "Username already exists"), db).
Proof.
  intros [c Hc]. rewrite register_run. cbv zeta. rewrite Hc. reflexivity.
Qed.
End RegistrationClaims.

(** ** Non-negative stock *)

Lemma stock_nonneg_alter (f : sweets.columns → sweets.columns) (i : Z) (db : database)
    (users' : gmap string users.columns) (useq sseq : Z) :
  (∀ c, sweets_table db !! i = Some c → 0 ≤ sweets.quantity c → 0 ≤ sweets.quantity (f c)) →
  stock_nonneg db →
  stock_nonneg (mkdb users' useq (alter f i (sweets_table db)) sseq).
Proof.
  unfold stock_nonneg. simpl. intros Hf Hinv j c' Hj.
  destruct (decide (j = i)) as [->|Hne].
  - rewrite lookup_alter_eq in Hj.
    destruct (sweets_table db !! i) as [c|] eqn:Hc; [|discriminate].
    injection Hj as <-. apply (Hf c eq_refl). exact (Hinv i c Hc).
  - rewrite lookup_alter_other in Hj by assumption. exact (Hinv j c' Hj).
Qed.

(** A purchase never leaves a negative quantity behind, whatever quantity
    is requested: the guard [current_quantity < quantity] is the check. *)
Lemma purchase_sweet_nonneg (sweet_id quantity : Z) (db : database) :
  stock_nonneg db → stock_nonneg (snd (purchase_sweet sweet_id quantity db)).
Proof.
  intros Hinv. rewrite purchase_sweet_run.
  destruct (sweets_table db !! sweet_id) as [c|] eqn:Hc; [|exact Hinv].
  destruct (sweets.quantity c <? quantity) eqn:Hlt; [exact Hinv|].
  apply Z.ltb_ge in Hlt. simpl. apply stock_nonneg_alter; [|exact Hinv].
  intros c0 _ _. simpl. lia.
Qed.

Lemma restock_sweet_nonneg (sweet_id quantity : Z) (db : database) :
  0 ≤ quantity → stock_nonneg db → stock_nonneg (snd (restock_sweet sweet_id quantity db)).
Proof.
  intros Hq Hinv.
  destruct (restock_sweet_cases sweet_id quantity db) as [->|[->|(c & Hc & ->)]];
    [exact Hinv | exact Hinv |].
  simpl. apply stock_nonneg_alter; [|exact Hinv].
  intros c0 _ _. simpl. pose proof (Hinv sweet_id c Hc) as Hc0. simpl in Hc0. lia.
Qed.

Lemma create_sweet_nonneg now_iso name category price quantity (db : database) :
  0 ≤ quantity →
  stock_nonneg db →
  stock_nonneg (snd (create_sweet now_iso name category price quantity db)).
Proof.
  intros Hq Hinv.
  destruct (create_sweet_cases now_iso name category price quantity db) as [[e ->]| ->];
    [exact Hinv|].
  unfold stock_nonneg. simpl. apply map_Forall_insert_2; [exact Hq | exact Hinv].
Qed.

Lemma update_sweet_nonneg sweet_id name category price quantity (db : database) :
  from_option (λ q, 0 ≤ q) True quantity →
  stock_nonneg db →
  stock_nonneg (snd (update_sweet sweet_id name category price quantity db)).
Proof.
  intros Hq Hinv.
  destruct (update_sweet_cases sweet_id name category price quantity db)
    as [[e ->]|[->|[found ->]]]; [exact Hinv | exact Hinv |].
  simpl. apply stock_nonneg_alter; [|exact Hinv].
  intros c _ Hc. unfold apply_updates.
  destruct name, category, price, quantity; simpl in *; assumption.
Qed.

Lemma delete_sweet_nonneg sweet_id (db : database) :
  stock_nonneg db → stock_nonneg (snd (delete_sweet sweet_id db)).
Proof.
  intros Hinv. unfold delete_sweet. run.
  unfold stock_nonneg. simpl. apply map_Forall_delete. exact Hinv.
Qed.

Section InvariantClaims.
Context `{Crypto}.

Lemma serve_nonneg clk req db :
  nonneg_quantities req → stock_nonneg db → stock_nonneg (serve clk req db).
Proof.
  intros Hreq Hinv.
  destruct req as [user_data|authorization sweet|authorization sweet_id sweet_update
                  |authorization sweet_id|authorization sweet_id [quantity]
                  |authorization sweet_id [quantity]]; simpl in *.
  - rewrite register_run. cbv zeta.
    destruct (users_table db !! UserRegister.username user_data); exact Hinv.
  - unfold add_sweet. unfold bind at 1.
    rewrite (get_current_user_run clk authorization db).
    destruct (fst (get_current_user clk authorization db)) as [user|e]; [|exact Hinv].
    pose proof (create_sweet_nonneg (now_iso clk) (SweetCreate.name sweet)
                  (SweetCreate.category sweet) (SweetCreate.price sweet)
                  (SweetCreate.quantity sweet) db Hreq Hinv) as Hcreate.
    unfold bind at 1.
    destruct (create_sweet _ _ _ _ _ db) as [[created|e] db1]; [|exact Hcreate].
    unfold get_sweet_by_id. run.
    destruct (sweets_table db1 !! created); exact Hcreate.
  - unfold update_sweet_endpoint. unfold bind at 1.
    rewrite (get_current_user_run clk authorization db).
    destruct (fst (get_current_user clk authorization db)) as [user|e]; [|exact Hinv].
    pose proof (update_sweet_nonneg sweet_id (SweetUpdate.name sweet_update)
                  (SweetUpdate.category sweet_update) (SweetUpdate.price sweet_update)
                  (SweetUpdate.quantity sweet_update) db Hreq Hinv) as Hupdate.
    unfold bind at 1. unfold get_sweet_by_id at 1. run.
    destruct (sweets_table db !! sweet_id) as [c|] eqn:Hc; simpl; [|exact Hinv].
    destruct (update_sweet _ _ _ _ _ db) as [[updated|e] db1]; [|exact Hupdate].
    unfold get_sweet_by_id. run.
    destruct (sweets_table db1 !! sweet_id); exact Hupdate.
  - unfold delete_sweet_endpoint. unfold bind at 1. rewrite get_admin_user_run.
    destruct (fst (get_current_user clk authorization db)) as [user|e]; [|exact Hinv].
    destruct (admin user); [|exact Hinv].
    pose proof (delete_sweet_nonneg sweet_id db Hinv) as Hdelete.
    unfold delete_sweet, get_sweet_by_id in *. run.
    destruct (sweets_table db !! sweet_id); [exact Hdelete | exact Hinv].
  - destruct (fst (get_current_user clk authorization db)) as [user|e] eqn:Hu.
    + rewrite (purchase_sweet_endpoint_run _ _ _ _ _ _ Hu).
      pose proof (purchase_sweet_nonneg sweet_id quantity db Hinv) as Hpurchase.
      destruct (sweets_table db !! sweet_id) as [c|]; [|exact Hinv].
      destruct (_ <? _); [exact Hinv | exact Hpurchase].
    + unfold purchase_sweet_endpoint. unfold bind at 1.
      rewrite (get_current_user_run clk authorization db), Hu. exact Hinv.
  - destruct (fst (get_current_user clk authorization db)) as [user|e] eqn:Hu;
      [destruct (admin user) eqn:Hadmin|].
    + rewrite (restock_sweet_endpoint_run _ _ _ _ _ _ Hu Hadmin).
      pose proof (restock_sweet_nonneg sweet_id quantity db Hreq Hinv) as Hrestock.
      destruct (sweets_table db !! sweet_id) as [c|]; [|exact Hinv].
      destruct (_ && _); [exact Hrestock | exact Hinv].
    + unfold restock_sweet_endpoint. unfold bind at 1.
      rewrite get_admin_user_run, Hu, Hadmin. exact Hinv.
    + unfold restock_sweet_endpoint. unfold bind at 1.
      rewrite get_admin_user_run, Hu. exact Hinv.
Qed.

(** C1 (non-negative stock), for requests that supply no negative
    quantity.  In every store reachable from the initial one by requests
    whose add-item, field-update and restock quantities are at least 0,
    with purchases of any quantity and deletions, every item has a
    quantity of at least 0. *)
Theorem stock_nonneg_reachable db :
  reachable_by nonneg_quantities db → stock_nonneg db.
Proof.
  induction 1 as [|clk req db Hreach IH Hreq].
  - unfold stock_nonneg, init_database. simpl. apply map_Forall_empty.
  - apply serve_nonneg; assumption.
Qed.
End InvariantClaims.

(** * Scenarios on the demo deployment *)

Lemma shop_reachable_by (accept : request → Prop) :
  (∀ req, nonneg_quantities req → accept req) →
  @reachable_by Demo.crypto accept Demo.shop.
Proof.
  intros Hacc. unfold Demo.shop.
  repeat (apply reachable_step; [|apply Hacc; simpl; try exact I; lia]).
  apply reachable_init.
Qed.

Lemma overdrawn_reachable : @reachable Demo.crypto Demo.overdrawn.
Proof.
  unfold Demo.overdrawn. apply reachable_step; [|exact I].
  apply shop_reachable_by. intros req _. exact I.
Qed.

Lemma overdrawn_stock : stock Demo.overdrawn 1 = Some (-1).
Proof. vm_compute. reflexivity. Qed.

(** C1, as stated, fails: after alice and bob have registered and one item
    has been added, bob's field update with quantity -1 is accepted and
    stored as it is; the store reached holds an item with quantity -1. *)
Lemma stock_can_go_negative :
  @reachable Demo.crypto Demo.overdrawn
  ∧ stock Demo.overdrawn 1 = Some (-1)
  ∧ ¬ stock_nonneg Demo.overdrawn.
Proof.
  split; [exact overdrawn_reachable|]. split; [exact overdrawn_stock|].
  intros Hinv.
  assert (Hrow : sweets_table Demo.overdrawn !! 1
                 = Some (sweets.set_quantity (-1) Demo.ladoo_columns))
    by (vm_compute; reflexivity).
  specialize (Hinv 1 _ Hrow). simpl in Hinv. lia.
Qed.

(** The demo shop is reached by requests without negative quantities, and
    its only item has a quantity of 10. *)
Lemma stock_nonneg_reachable_witness :
  @reachable_by Demo.crypto nonneg_quantities Demo.shop ∧ stock_nonneg Demo.shop.
Proof.
  assert (Hreach : @reachable_by Demo.crypto nonneg_quantities Demo.shop).
  { unfold Demo.shop.
    apply reachable_step; [apply reachable_step; [apply reachable_step|]|].
    - apply reachable_init.
    - simpl. exact I.
    - simpl. exact I.
    - simpl. lia. }
  split; [exact Hreach | exact (@stock_nonneg_reachable Demo.crypto Demo.shop Hreach)].
Defined.

(** The scenario of the specification: 10 in stock, a purchase of 7 leaves 3. *)
Lemma purchase_iff_sufficient_stock_witness :
  ∃ db', purchase_sweet 1 7 Demo.shop = (Return true, db') ∧ stock db' 1 = Some 3.
Proof.
  destruct (@purchase_iff_sufficient_stock Demo.crypto Demo.t0 Demo.bob_token
              Demo.bob_identity Demo.shop 1 Demo.ladoo_columns 7)
    as (_ & _ & Hok & _).
  - vm_compute. reflexivity.
  - vm_compute. reflexivity.
  - lia.
  - destruct Hok as (db' & Hcall & _ & Hstock); [simpl; lia|].
    exists db'. split; [exact Hcall | exact Hstock].
Defined.

(** ... and a purchase of 5 on the remaining 3 is refused, the stock stays 3. *)
Example purchase_scenario_insufficient :
  let db := snd (purchase_sweet 1 7 Demo.shop) in
  @purchase_sweet_endpoint Demo.crypto Demo.t0 Demo.bob_token 1 (PurchaseRequest.mk 5) db
  = (Raise (HTTPException 400 "Insufficient quantity in stock"), db)
  ∧ stock db 1 = Some 3.
Proof. split; vm_compute; reflexivity. Qed.

(** C3 fails on the code.  [PurchaseRequest] declares [quantity: int]
    without a bound and [purchase_sweet_endpoint] passes it on unchecked: a
    purchase of -5 on a stock of 10 reaches [purchase_sweet], is answered
    200 and raises the stock to 15; a purchase of 0 is answered 200 as
    well. *)
Theorem purchase_endpoint_accepts_nonpositive_quantity :
  let request q :=
    @purchase_sweet_endpoint Demo.crypto Demo.t0 Demo.bob_token 1 (PurchaseRequest.mk q) in
  stock Demo.shop 1 = Some 10
  ∧ request (-5) Demo.shop
    = (Return (sweet_row 1 (sweets.set_quantity 15 Demo.ladoo_columns)),
       snd (purchase_sweet 1 (-5) Demo.shop))
  ∧ stock (snd (request (-5) Demo.shop)) 1 = Some 15
  ∧ fst (request 0 Demo.shop) = Return (sweet_row 1 Demo.ladoo_columns).
Proof. repeat split; vm_compute; reflexivity. Qed.

(** The first registration, without any admin key, creates an admin. *)
Lemma register_admin_iff_first_or_key_witness :
  ∃ flag db',
    @register Demo.crypto Demo.t0 Demo.alice init_database
    = (Return (TokenResponse.mk (@create_access_token Demo.crypto 1000 "alice" flag) "bearer"),
       db')
    ∧ admin_flag db' "alice" = Some flag
    ∧ flag = true.
Proof.
  destruct (@register_admin_iff_first_or_key Demo.crypto Demo.t0 Demo.alice init_database)
    as (flag & db' & Hreg & Hflag & _ & Hfirst & _).
  - vm_compute. reflexivity.
  - exists flag, db'. split; [exact Hreg|]. split; [exact Hflag|].
    apply Hfirst. vm_compute. reflexivity.
Defined.

(** The key is compared as an exact string: "ASWD" does not make the second
    account an admin, "aswd" does. *)
Example register_key_is_case_sensitive :
  let after user_data :=
    snd (@register Demo.crypto Demo.t0 user_data
           (snd (@register Demo.crypto Demo.t0 Demo.alice init_database))) in
  admin_flag (after (UserRegister.mk "carol" "pw" (Some "ASWD"))) "carol" = Some false
  ∧ admin_flag (after (UserRegister.mk "carol" "pw" (Some "aswd"))) "carol" = Some true
  ∧ admin_flag (after Demo.bob) "bob" = Some false.
Proof. repeat split; vm_compute; reflexivity. Qed.

(** On the demo shop: a restock without credential is answered 401, a
    deletion requested by bob, who is not an admin, is answered 403. *)
Lemma gate_rejections_are_distinguishable_witness :
  @rejected_with SweetResponse.t 401
     (@restock_sweet_endpoint Demo.crypto Demo.t0 None 1 (RestockRequest.mk 5)) Demo.shop
  ∧ @rejected_with unit 403
      (@delete_sweet_endpoint Demo.crypto Demo.t0 Demo.bob_token 1) Demo.shop.
Proof.
  split.
  - destruct (@gate_rejections_are_distinguishable Demo.crypto Demo.t0 None Demo.shop)
      as [Hfault _].
    destruct (Hfault (@fault_missing Demo.crypto Demo.t0 Demo.shop)) as (_ & _ & Hroutes).
    apply (Hroutes 1 Demo.ladoo (SweetUpdate.mk None None None None)
                   (PurchaseRequest.mk 1) (RestockRequest.mk 5)).
  - destruct (@gate_rejections_are_distinguishable Demo.crypto Demo.t0 Demo.bob_token
                Demo.shop) as [_ Hforbidden].
    apply (Hforbidden Demo.bob_identity); [vm_compute; reflexivity | reflexivity | ].
    exact (RestockRequest.mk 5).
Defined.

(** A second registration under the name bob is refused, even with the
    right admin key, and the store stays the same. *)
Lemma register_duplicate_rejected_witness :
  @register Demo.crypto Demo.t0 (UserRegister.mk "bob" "another" (Some "aswd")) Demo.shop
  = (Raise (HTTPException 400 "Username already exists"), Demo.shop).
Proof.
  apply (@register_duplicate_rejected Demo.crypto).
  exists (users.mk 2 "$2b$builder" 0 "2025-01-01T00:00:00"). vm_compute. reflexivity.
Defined.

(** Usernames are compared as exact strings too: "Bob" is free while "bob"
    is taken. *)
Example register_username_is_case_sensitive :
  fst (@register Demo.crypto Demo.t0 (UserRegister.mk "Bob" "pw" None) Demo.shop)
  = Return (TokenResponse.mk (@create_access_token Demo.crypto 1000 "Bob" false) "bearer")
  ∧ size (users_table (snd (@register Demo.crypto Demo.t0
                                (UserRegister.mk "Bob" "pw" None) Demo.shop))) = 3%nat.
Proof. split; vm_compute; reflexivity. Qed.

(** A restock of 5 of item 1 gives a stock of 15; item 2 does not exist and
    its restock fails. *)
Lemma restock_not_found_or_out_of_range_witness :
  (∃ db', restock_sweet 1 5 Demo.shop = (Return true, db') ∧ stock db' 1 = Some 15)
  ∧ restock_sweet 2 5 Demo.shop = (Return false, Demo.shop).
Proof.
  destruct (@restock_not_found_or_out_of_range Demo.crypto Demo.t0 Demo.alice_token
              Demo.alice_identity Demo.shop 1 5)
    as (_ & _ & _ & Hfound & _);
    [vm_compute; reflexivity | reflexivity | unfold int64; lia | lia |].
  destruct (@restock_not_found_or_out_of_range Demo.crypto Demo.t0 Demo.alice_token
              Demo.alice_identity Demo.shop 2 5)
    as (Hmissing & _);
    [vm_compute; reflexivity | reflexivity | unfold int64; lia | lia |].
  split.
  - destruct (Hfound Demo.ladoo_columns) as (db' & Hcall & _ & Hstock);
      [vm_compute; reflexivity | unfold int64; simpl; lia |].
    exists db'. split; [exact Hcall | exact Hstock].
  - destruct Hmissing as [_ Hmissing].
    rewrite (surjective_pairing (restock_sweet 2 5 Demo.shop)).
    rewrite Hmissing by (vm_compute; reflexivity).
    vm_compute. reflexivity.
Defined.

(** C7, as stated, fails at the limit of the INTEGER storage class.  Item
    1 of the demo shop exists with a stock of 10 and the quantity
    2^63 - 10 is positive, yet the restock does not succeed: the sum 2^63
    cannot be bound to the UPDATE, [restock_sweet] and the endpoint raise
    [OverflowError] and the stock stays 10.  One unit less is accepted and
    gives the largest stock there is. *)
Lemma restock_refused_beyond_storage_range :
  stock Demo.shop 1 = Some 10
  ∧ 0 < 2 ^ 63 - 10
  ∧ restock_sweet 1 (2 ^ 63 - 10) Demo.shop = (Raise sqlite3.too_large, Demo.shop)
  ∧ @restock_sweet_endpoint Demo.crypto Demo.t0 Demo.alice_token 1
      (RestockRequest.mk (2 ^ 63 - 10)) Demo.shop
    = (Raise sqlite3.too_large, Demo.shop)
  ∧ fst (restock_sweet 1 (2 ^ 63 - 11) Demo.shop) = Return true
  ∧ stock (snd (restock_sweet 1 (2 ^ 63 - 11) Demo.shop)) 1 = Some (2 ^ 63 - 1).
Proof. repeat split; vm_compute; reflexivity. Qed.

(** Deleting the item and then restocking or purchasing it: 404 twice. *)
Example deleted_item_not_found :
  let db := snd (@delete_sweet_endpoint Demo.crypto Demo.t0 Demo.alice_token 1 Demo.shop) in
  fst (@delete_sweet_endpoint Demo.crypto Demo.t0 Demo.alice_token 1 Demo.shop) = Return tt
  ∧ @restock_sweet_endpoint Demo.crypto Demo.t0 Demo.alice_token 1 (RestockRequest.mk 5) db
    = (Raise (HTTPException 404 "Sweet not found"), db)
  ∧ @purchase_sweet_endpoint Demo.crypto Demo.t0 Demo.bob_token 1 (PurchaseRequest.mk 1) db
    = (Raise (HTTPException 404 "Sweet not found"), db).
Proof. repeat split; vm_compute; reflexivity. Qed.

(** Restocking 5 and purchasing 5 gives the demo shop back. *)
Lemma restock_then_purchase_round_trip_witness :
  ∃ db1, restock_sweet 1 5 Demo.shop = (Return true, db1)
         ∧ purchase_sweet 1 5 db1 = (Return true, Demo.shop).
Proof.
  destruct (@restock_then_purchase_round_trip Demo.crypto Demo.shop 1 Demo.ladoo_columns 5)
    as (db1 & Hrestock & _ & Hpurchase & _).
  - vm_compute. reflexivity.
  - simpl. lia.
  - lia.
  - unfold int64. lia.
  - unfold int64. simpl. lia.
  - exists db1. split; [exact Hrestock | exact Hpurchase].
Defined.

(** The round trip stops at the limit of the storage too: on the demo shop
    the restock of 2^63 - 10 raises, the stock stays 10 and the purchase of
    the same quantity is then refused. *)
Example round_trip_stops_at_storage_range :
  restock_sweet 1 (2 ^ 63 - 10) Demo.shop = (Raise sqlite3.too_large, Demo.shop)
  ∧ purchase_sweet 1 (2 ^ 63 - 10) Demo.shop = (Return false, Demo.shop).
Proof. split; vm_compute; reflexivity. Qed.

(** C8, as stated, fails on an item whose stock is negative, and such an
    item is reachable: in the store where the quantity was set to -1, a
    restock of 1 brings the stock to 0 and the purchase of 1 that follows is
    refused, by [purchase_sweet] and by the endpoint (400), so the stock
    ends at 0 and not at -1. *)
Lemma round_trip_fails_on_negative_stock :
  let db1 := snd (restock_sweet 1 1 Demo.overdrawn) in
  @reachable Demo.crypto Demo.overdrawn
  ∧ stock Demo.overdrawn 1 = Some (-1)
  ∧ restock_sweet 1 1 Demo.overdrawn = (Return true, db1)
  ∧ @restock_sweet_endpoint Demo.crypto Demo.t0 Demo.alice_token 1 (RestockRequest.mk 1)
      Demo.overdrawn
    = (Return (sweet_row 1 (sweets.set_quantity 0 Demo.ladoo_columns)), db1)
  ∧ purchase_sweet 1 1 db1 = (Return false, db1)
  ∧ @purchase_sweet_endpoint Demo.crypto Demo.t0 Demo.bob_token 1 (PurchaseRequest.mk 1) db1
    = (Raise (HTTPException 400 "Insufficient quantity in stock"), db1)
  ∧ stock db1 1 = Some 0.
Proof.
  split; [exact overdrawn_reachable|].
  repeat split; vm_compute; reflexivity.
Qed.

(** A purchase of 7 of item 1 leaves the accounts and all other ids alone. *)
Lemma ledger_changes_quantity_only_witness :
  let db' := snd (purchase_sweet 1 7 Demo.shop) in
  users_table db' = users_table Demo.shop
  ∧ ∀ other, other ≠ 1 → sweets_table db' !! other = sweets_table Demo.shop !! other.
Proof.
  intros db'.
  destruct (@ledger_changes_quantity_only Demo.crypto Demo.shop db' 1 7)
    as (Husers & _ & _ & Hothers & _).
  - left. vm_compute. reflexivity.
  - split; [exact Husers | exact Hothers].
Defined.

(** * Further properties of the store and of the handlers *)

(** ** Listing *)

#[global] Instance id_le_total : Total id_le.
Proof. intros a b. unfold id_le. lia. Qed.

#[global] Instance id_le_trans : Transitive id_le.
Proof. intros a b c. unfold id_le. lia. Qed.

Lemma sorted_entries_strict (l : list (Z * sweets.columns)) :
  StronglySorted id_le l → NoDup l.*1 →
  StronglySorted (λ a b, a.1 < b.1) l.
Proof.
  induction 1 as [|a l Hsorted IH Hall]; intros Hnodup; [constructor|].
  simpl in Hnodup. apply NoDup_cons in Hnodup as [Hnotin Hnodup].
  constructor; [apply IH, Hnodup|].
  apply Forall_forall. intros b Hb.
  rewrite Forall_forall in Hall. specialize (Hall b Hb). unfold id_le in Hall.
  assert (a.1 ≠ b.1); [|lia].
  intros Heq. apply Hnotin. rewrite Heq. apply list_elem_of_fmap. eauto.
Qed.

Lemma sorted_entries (t : gmap Z sweets.columns) :
  StronglySorted (λ a b, a.1 < b.1) (merge_sort id_le (map_to_list t)).
Proof.
  apply sorted_entries_strict.
  - apply StronglySorted_merge_sort; apply _.
  - rewrite merge_sort_Permutation. apply NoDup_fst_map_to_list.
Qed.

Lemma select_order_by_id_sorted (t : gmap Z sweets.columns) :
  StronglySorted (λ a b, SweetResponse.id a < SweetResponse.id b) (select_order_by_id t).
Proof.
  unfold select_order_by_id.
  apply (StronglySorted_fmap _ (λ a b : Z * sweets.columns, a.1 < b.1));
    [|apply sorted_entries].
  intros a b Hlt. exact Hlt.
Qed.

Lemma elem_of_select_order_by_id (t : gmap Z sweets.columns) (row : SweetResponse.t) :
  row ∈ select_order_by_id t
  ↔ ∃ c, t !! SweetResponse.id row = Some c ∧ row = sweet_row (SweetResponse.id row) c.
Proof.
  unfold select_order_by_id. rewrite list_elem_of_fmap. split.
  - intros ([i c] & -> & Hin). rewrite merge_sort_Permutation in Hin.
    apply elem_of_map_to_list in Hin. exists c. simpl. split; [exact Hin|reflexivity].
  - intros (c & Hc & Hrow). exists (SweetResponse.id row, c). split; [exact Hrow|].
    rewrite merge_sort_Permutation. apply elem_of_map_to_list. exact Hc.
Qed.

Lemma length_select_order_by_id (t : gmap Z sweets.columns) :
  length (select_order_by_id t) = size t.
Proof.
  unfold select_order_by_id.
  rewrite length_fmap, merge_sort_Permutation. apply length_map_to_list.
Qed.

(** X1 (listing).  [get_all_sweets] leaves the store as it is and returns
    one row for each stored item and no other row, in strictly ascending
    order of id. *)
Theorem get_all_sweets_lists_each_item_once (db : database) :
  ∃ rows,
    get_all_sweets db = (Return rows, db)
    ∧ StronglySorted (λ a b, SweetResponse.id a < SweetResponse.id b) rows
    ∧ length rows = size (sweets_table db)
    ∧ ∀ sweet_id c, sweets_table db !! sweet_id = Some c ↔ sweet_row sweet_id c ∈ rows.
Proof.
  exists (select_order_by_id (sweets_table db)).
  split; [reflexivity|]. split; [apply select_order_by_id_sorted|].
  split; [apply length_select_order_by_id|].
  intros sweet_id c. rewrite elem_of_select_order_by_id. simpl. split.
  - intros Hc. exists c. split; [exact Hc|reflexivity].
  - intros (c' & Hc' & Heq). rewrite Hc'. f_equal.
    destruct c, c'. unfold sweet_row in Heq. simpl in Heq. congruence.
Qed.

(** ** Search *)

Lemma filter_all_true {A} (f : A → bool) (l : list A) :
  (∀ x, f x = true) → List.filter f l = l.
Proof. intros Hf. induction l as [|x l IH]; simpl; [|rewrite Hf, IH]; reflexivity. Qed.

(** X2 (search without criteria).  A search in which the name and the
    category are absent or empty, and no price bound is given, returns the
    full listing: an empty string is no criterion. *)
Theorem search_without_criteria_is_listing (name category : option string) (db : database) :
  name = None ∨ name = Some "" →
  category = None ∨ category = Some "" →
  search_sweets name category None None db = get_all_sweets db.
Proof.
  intros Hname Hcategory. unfold search_sweets, get_all_sweets. run.
  rewrite filter_all_true; [reflexivity|].
  intros row. unfold search_where.
  destruct Hname as [-> | ->], Hcategory as [-> | ->]; reflexivity.
Qed.

Lemma elem_of_filter_bool {A} (f : A → bool) (l : list A) (x : A) :
  x ∈ List.filter f l ↔ x ∈ l ∧ f x = true.
Proof. rewrite !list_elem_of_In. apply filter_In. Qed.

Lemma filter_sublist {A} (f : A → bool) (l : list A) : List.filter f l `sublist_of` l.
Proof.
  induction l as [|x l IH]; simpl; [constructor|].
  destruct (f x); [apply sublist_skip | apply sublist_cons]; exact IH.
Qed.

(** X3 (search).  [search_sweets] leaves the store as it is and returns
    the rows of the listing, in the order of the listing, that satisfy
    every criterion given: the name pattern when the name is not empty,
    equality of the category (exact, not folded) when the category is not
    empty, and each price bound that is present, 0 included.  The name,
    when given, is assumed short enough for its pattern to be accepted by
    LIKE. *)
Theorem search_sweets_selects_from_listing name category min_price max_price db :
  from_option like_pattern_fits True name →
  ∃ listing rows,
    get_all_sweets db = (Return listing, db)
    ∧ search_sweets name category min_price max_price db = (Return rows, db)
    ∧ rows `sublist_of` listing
    ∧ ∀ row, row ∈ rows ↔
        row ∈ listing
        ∧ (∀ n, name = Some n → n ≠ "" →
             sqlite.like (SweetResponse.name row) ("%" +:+ n +:+ "%") = true)
        ∧ (∀ c, category = Some c → c ≠ "" → SweetResponse.category row = c)
        ∧ (∀ bound, min_price = Some bound →
             PrimFloat.leb bound (SweetResponse.price row) = true)
        ∧ (∀ bound, max_price = Some bound →
             PrimFloat.leb (SweetResponse.price row) bound = true).
Proof.
  intros _. eexists _, _. split; [reflexivity|]. split; [reflexivity|].
  split; [apply filter_sublist|].
  intros row. rewrite elem_of_filter_bool. unfold search_where.
  rewrite !andb_true_iff.
  split.
  - intros (Hin & ((Hname & Hcategory) & Hmin) & Hmax). split; [exact Hin|].
    repeat split.
    + intros n -> Hn. destruct n; [contradiction|]. exact Hname.
    + intros c -> Hc. destruct c; [contradiction|]. simpl in Hcategory.
      apply String.eqb_eq in Hcategory. exact Hcategory.
    + intros bound ->. exact Hmin.
    + intros bound ->. exact Hmax.
  - intros (Hin & Hname & Hcategory & Hmin & Hmax). split; [exact Hin|].
    repeat split.
    + destruct name as [[|c n]|]; simpl; try reflexivity.
      apply (Hname _ eq_refl). discriminate.
    + destruct category as [[|c0 c]|]; simpl; try reflexivity.
      apply String.eqb_eq. apply (Hcategory _ eq_refl). discriminate.
    + destruct min_price; [apply (Hmin _ eq_refl)|reflexivity].
    + destruct max_price; [apply (Hmax _ eq_refl)|reflexivity].
Qed.

(** *** The name pattern *)

(** Unfolds [+:+] on the constant prefixes of its first argument. *)
Ltac unappend H := cbv [String.append] in H; fold String.append in H.

Lemma byte_tolower_ascii (c : ascii) :
  (sqlite.byte c < 128)%N → (sqlite.byte (sqlite.tolower c) < 128)%N.
Proof.
  intros Hc. unfold sqlite.tolower.
  destruct (N.leb 65 (sqlite.byte c) && N.leb (sqlite.byte c) 90)%bool eqn:Hupper;
    [|exact Hc].
  apply andb_true_iff in Hupper as [_ Hle]. apply N.leb_le in Hle.
  unfold sqlite.byte at 1. rewrite N_ascii_embedding; lia.
Qed.

Lemma tolower_not_ascii (c : ascii) :
  (128 ≤ sqlite.byte c)%N → sqlite.tolower c = c.
Proof.
  intros Hc. unfold sqlite.tolower.
  destruct (N.leb 65 (sqlite.byte c) && N.leb (sqlite.byte c) 90)%bool eqn:Hupper;
    [|reflexivity].
  apply andb_true_iff in Hupper as [_ Hle]. apply N.leb_le in Hle. lia.
Qed.

Lemma same_char_fold (p c : ascii) :
  (sqlite.byte c < 128)%N →
  sqlite.same_char p c = true ↔ sqlite.tolower p = sqlite.tolower c.
Proof.
  intros Hc. unfold sqlite.same_char.
  rewrite orb_true_iff, !andb_true_iff, !Ascii.eqb_eq, !N.ltb_lt. split.
  - intros [-> | [_ Heq]]; [reflexivity | exact Heq].
  - intros Heq. right. split; [split; [|exact Hc]|exact Heq].
    destruct (N.lt_ge_cases (sqlite.byte p) 128) as [Hp|Hp]; [exact Hp|].
    pose proof (byte_tolower_ascii c Hc) as Hlow.
    rewrite <- Heq, (tolower_not_ascii p Hp) in Hlow. lia.
Qed.

Lemma all_chars_app (P : ascii → bool) (s1 s2 : string) :
  all_chars P (s1 +:+ s2) = all_chars P s1 && all_chars P s2.
Proof.
  induction s1 as [|c s1 IH]; simpl; [reflexivity|].
  rewrite IH, andb_assoc. reflexivity.
Qed.

Lemma c_str_no_nul (s : string) :
  all_chars (λ c, negb (Ascii.eqb c "000")) s = true → sqlite.c_str s = s.
Proof.
  induction s as [|c s IH]; simpl; [reflexivity|].
  intros Hs. apply andb_true_iff in Hs as [Hc Hs].
  apply negb_true_iff in Hc. rewrite Hc, (IH Hs). reflexivity.
Qed.

Lemma all_chars_impl (P Q : ascii → bool) (s : string) :
  (∀ c, P c = true → Q c = true) → all_chars P s = true → all_chars Q s = true.
Proof.
  intros HPQ. induction s as [|c s IH]; simpl; [reflexivity|].
  intros Hs. apply andb_true_iff in Hs as [Hc Hs].
  rewrite (HPQ c Hc), (IH Hs). reflexivity.
Qed.

Lemma plain_text_no_nul (s : string) :
  plain_text s → all_chars (λ c, negb (Ascii.eqb c "000")) s = true.
Proof.
  apply all_chars_impl. intros c Hc.
  apply negb_true_iff in Hc. apply orb_false_iff in Hc as [_ Hc]. rewrite Hc. reflexivity.
Qed.

Lemma ascii_text_no_nul (s : string) :
  ascii_text s → all_chars (λ c, negb (Ascii.eqb c "000")) s = true.
Proof.
  apply all_chars_impl. intros c Hc.
  apply andb_true_iff in Hc as [Hc _]. apply N.ltb_lt in Hc.
  apply negb_true_iff, Ascii.eqb_neq. intros ->. vm_compute in Hc. discriminate.
Qed.

(** At the end of the text the rest of the pattern is always tried. *)
Lemma match_all_end (rest : string → bool) (inside : bool) (text : string) :
  rest "" = true → sqlite.match_all rest inside text = true.
Proof.
  intros Hrest. revert inside. induction text as [|c text IH]; intros inside; simpl.
  - rewrite andb_false_r, Hrest. reflexivity.
  - rewrite IH. apply orb_true_r.
Qed.

(** On an ASCII text every position is a code point boundary. *)
Lemma match_all_ascii (rest : string → bool) (text : string) :
  ascii_text text →
  sqlite.match_all rest false text = true
  ↔ ∃ skipped tail, text = skipped +:+ tail ∧ rest tail = true.
Proof.
  unfold ascii_text. induction text as [|c text IH]; simpl.
  - intros _. rewrite orb_false_r. split.
    + intros Hrest. exists "", "". split; [reflexivity | exact Hrest].
    + intros (skipped & tail & Heq & Hrest).
      destruct skipped; [|discriminate]. unappend Heq. subst tail. exact Hrest.
  - intros Htext. apply andb_true_iff in Htext as [Hc Htext].
    apply andb_true_iff in Hc as [_ Hc]. apply N.ltb_lt in Hc.
    assert (Hlead : sqlite.is_lead c = false).
    { unfold sqlite.is_lead. apply N.leb_gt. lia. }
    rewrite Hlead, orb_true_iff, (IH Htext). split.
    + intros [Hrest | (skipped & tail & -> & Hrest)].
      * exists "", (String c text). split; [reflexivity | exact Hrest].
      * exists (String c skipped), tail. split; [reflexivity | exact Hrest].
    + intros (skipped & tail & Heq & Hrest). destruct skipped as [|c' skipped].
      * unappend Heq. subst tail. left. exact Hrest.
      * unappend Heq. injection Heq as <- ->. right. eauto.
Qed.

Lemma fold_case_empty (s : string) : fold_case s = "" → s = "".
Proof. destruct s; [reflexivity | discriminate]. Qed.

(** A run of plain characters at the head of the pattern matches a prefix
    of the text of the same length, character by character up to case. *)
Lemma pattern_compare_plain (s rest text : string) :
  plain_text s →
  ascii_text text →
  sqlite.pattern_compare (s +:+ rest) text = true
  ↔ ∃ found tail, text = found +:+ tail
                  ∧ fold_case found = fold_case s
                  ∧ sqlite.pattern_compare rest tail = true.
Proof.
  unfold plain_text, ascii_text. revert text.
  induction s as [|p s IH]; intros text Hs Htext.
  - simpl. split.
    + intros Hrest. exists "", text. repeat split. exact Hrest.
    + intros (found & tail & -> & Hfound & Hrest).
      apply fold_case_empty in Hfound. subst found. exact Hrest.
  - simpl in Hs. apply andb_true_iff in Hs as [Hp Hs].
    apply negb_true_iff in Hp. apply orb_false_iff in Hp as [Hp _].
    apply orb_false_iff in Hp as [Hpercent Hunderscore].
    simpl. rewrite Hpercent.
    destruct text as [|c text].
    + split; [discriminate|].
      intros (found & tail & Heq & Hfound & _).
      destruct found; [discriminate|]. discriminate.
    + rewrite Hunderscore. simpl in Htext.
      apply andb_true_iff in Htext as [Hc Htext].
      apply andb_true_iff in Hc as [_ Hc]. apply N.ltb_lt in Hc.
      rewrite andb_true_iff, (same_char_fold p c Hc), (IH text Hs Htext). split.
      * intros (Hpc & found & tail & -> & Hfound & Hrest).
        exists (String c found), tail. repeat split; [|exact Hrest].
        simpl. rewrite Hfound, Hpc. reflexivity.
      * intros (found & tail & Heq & Hfound & Hrest).
        destruct found as [|c' found]; [discriminate|].
        unappend Heq. simpl in Hfound. injection Heq as <- ->. injection Hfound as Hc' Hfound.
        split; [symmetry; exact Hc'|]. eauto.
Qed.

(** *** Reading U+FFFE and U+FFFF *)

Lemma string_length_ind (P : string → Prop) :
  (∀ s, (∀ t, (String.length t < String.length s)%nat → P t) → P s) → ∀ s, P s.
Proof.
  intros Hstep s. remember (String.length s) as n eqn:Hn. revert s Hn.
  induction n as [n IH] using lt_wf_ind. intros s ->.
  apply Hstep. intros t Ht. exact (IH _ Ht t eq_refl).
Qed.

Lemma read_utf8_eq (a : ascii) (t : string) :
  sqlite.read_utf8 (String a t)
  = match t with
    | String b (String c s') =>
        if (Ascii.eqb a "239" && Ascii.eqb b "191"
            && (Ascii.eqb c "190" || Ascii.eqb c "191"))%bool
        then String a (String b (String "189" (sqlite.read_utf8 s')))
        else String a (sqlite.read_utf8 t)
    | _ => String a (sqlite.read_utf8 t)
    end.
Proof. reflexivity. Qed.

(** Only a character that starts with the byte EF is read differently. *)
Lemma read_utf8_cons (a : ascii) (t : string) :
  a ≠ "239"%char → sqlite.read_utf8 (String a t) = String a (sqlite.read_utf8 t).
Proof.
  intros Ha. rewrite read_utf8_eq. destruct t as [|b [|c s']]; try reflexivity.
  apply Ascii.eqb_neq in Ha. rewrite Ha. reflexivity.
Qed.

Lemma seven_bit_not_239 (a : ascii) : (sqlite.byte a < 128)%N → a ≠ "239"%char.
Proof. intros Ha ->. vm_compute in Ha. discriminate. Qed.

Lemma read_utf8_seven_bit (s : string) : seven_bit s → sqlite.read_utf8 s = s.
Proof.
  unfold seven_bit. induction s as [|a s IH]; [reflexivity|]. simpl all_chars.
  intros Hs. apply andb_true_iff in Hs as [Ha Hs]. apply N.ltb_lt in Ha.
  rewrite (read_utf8_cons a s (seven_bit_not_239 a Ha)), (IH Hs). reflexivity.
Qed.

Lemma seven_bit_read_utf8 (s : string) : seven_bit (sqlite.read_utf8 s) → seven_bit s.
Proof.
  unfold seven_bit. induction s as [|a s IH]; [reflexivity|].
  intros Hs.
  assert (Ha : (sqlite.byte a < 128)%N).
  { rewrite read_utf8_eq in Hs.
    destruct s as [|b [|c s']]; [| |destruct (_ && _)];
      simpl all_chars in Hs; apply andb_true_iff in Hs as [Ha _];
      apply N.ltb_lt in Ha; exact Ha. }
  rewrite (read_utf8_cons a s (seven_bit_not_239 a Ha)) in Hs.
  simpl all_chars in *. apply andb_true_iff in Hs as [Ha' Hs].
  rewrite Ha', (IH Hs). reflexivity.
Qed.

Lemma ascii_text_seven_bit (s : string) : ascii_text s → seven_bit s.
Proof.
  apply all_chars_impl. intros c Hc. apply andb_true_iff in Hc as [_ Hc]. exact Hc.
Qed.

(** Reading stops and starts again at a byte below 128. *)
Lemma read_utf8_app (s : string) (a : ascii) (rest : string) :
  (sqlite.byte a < 128)%N →
  sqlite.read_utf8 (s +:+ String a rest)
  = sqlite.read_utf8 s +:+ sqlite.read_utf8 (String a rest).
Proof.
  intros Ha. induction s as [s IH] using string_length_ind.
  assert (H190 : Ascii.eqb a "190" = false).
  { apply Ascii.eqb_neq. intros ->. vm_compute in Ha. discriminate. }
  assert (H191 : Ascii.eqb a "191" = false).
  { apply Ascii.eqb_neq. intros ->. vm_compute in Ha. discriminate. }
  destruct s as [|x [|y [|z s']]].
  - reflexivity.
  - cbv [String.append]. rewrite (read_utf8_eq x (String a rest)).
    destruct rest as [|c rest]; [reflexivity|].
    rewrite H191, andb_false_r. reflexivity.
  - cbv [String.append]. rewrite (read_utf8_eq x (String y (String a rest))).
    rewrite H190, H191, andb_false_r.
    change (String y (String a rest)) with (String y "" +:+ String a rest).
    rewrite (IH (String y "")) by (simpl; lia). reflexivity.
  - cbv [String.append]. fold String.append.
    rewrite (read_utf8_eq x (String y (String z (s' +:+ String a rest)))).
    rewrite (read_utf8_eq x (String y (String z s'))).
    destruct (_ && _).
    + rewrite (IH s') by (simpl; lia). reflexivity.
    + change (String y (String z (s' +:+ String a rest)))
        with (String y (String z s') +:+ String a rest).
      rewrite (IH (String y (String z s'))) by (simpl; lia). reflexivity.
Qed.

Lemma all_chars_read_utf8 (P : ascii → bool) (s : string) :
  P "189"%char = true → all_chars P s = true → all_chars P (sqlite.read_utf8 s) = true.
Proof.
  intros H189. induction s as [s IH] using string_length_ind.
  destruct s as [|x [|y [|z s']]]; try (intros Hs; exact Hs).
  rewrite read_utf8_eq. intros Hs. simpl all_chars in Hs.
  apply andb_true_iff in Hs as [Hx Hs]. apply andb_true_iff in Hs as [Hy Hs].
  apply andb_true_iff in Hs as [Hz Hs].
  destruct (_ && _).
  - simpl all_chars. rewrite Hx, Hy, H189, (IH s') by (simpl; lia || exact Hs). reflexivity.
  - simpl all_chars. rewrite Hx. apply (IH (String y (String z s'))); [simpl; lia|].
    simpl all_chars. rewrite Hy, Hz, Hs. reflexivity.
Qed.

Lemma plain_text_read_utf8 (s : string) : plain_text s → plain_text (sqlite.read_utf8 s).
Proof. apply all_chars_read_utf8. reflexivity. Qed.

(** A text that folds to the same characters as a text of bytes below 128
    has its bytes below 128 too. *)
Lemma fold_case_seven_bit (found s : string) :
  seven_bit found → fold_case found = fold_case s → seven_bit s.
Proof.
  unfold seven_bit. revert s. induction found as [|c found IH]; intros [|a s]; simpl;
    try discriminate; [reflexivity|].
  intros Hfound [= Hc Hfold]. apply andb_true_iff in Hfound as [Hlt Hfound].
  apply N.ltb_lt in Hlt. rewrite (IH s Hfound Hfold), andb_true_r. apply N.ltb_lt.
  destruct (N.lt_ge_cases (sqlite.byte a) 128) as [Ha|Ha]; [exact Ha|].
  pose proof (byte_tolower_ascii c Hlt) as Hlow.
  rewrite Hc, (tolower_not_ascii a Ha) in Hlow. lia.
Qed.

(** Within a text of bytes below 128, looking for a text and looking for
    the text as LIKE reads it are the same. *)
Lemma fold_case_read_utf8 (found s : string) :
  seven_bit found →
  fold_case found = fold_case (sqlite.read_utf8 s) ↔ fold_case found = fold_case s.
Proof.
  intros Hfound. split; intros Hfold.
  - pose proof (fold_case_seven_bit _ _ Hfound Hfold) as Hread.
    apply seven_bit_read_utf8 in Hread.
    rewrite (read_utf8_seven_bit s Hread) in Hfold. exact Hfold.
  - rewrite (read_utf8_seven_bit s (fold_case_seven_bit _ _ Hfound Hfold)). exact Hfold.
Qed.

Lemma seven_bit_app (s1 s2 : string) : seven_bit (s1 +:+ s2) ↔ seven_bit s1 ∧ seven_bit s2.
Proof. unfold seven_bit. rewrite all_chars_app. apply andb_true_iff. Qed.

Lemma ascii_text_app (s1 s2 : string) : ascii_text (s1 +:+ s2) ↔ ascii_text s1 ∧ ascii_text s2.
Proof. unfold ascii_text. rewrite all_chars_app. apply andb_true_iff. Qed.

(** *** Patterns with one and with two plain parts *)

Lemma pattern_compare_one_part (needle text : string) :
  plain_text needle →
  ascii_text text →
  sqlite.pattern_compare (String "%" (needle +:+ "%")) text = true
  ↔ contains_ignoring_case needle text.
Proof.
  intros Hneedle Htext. unfold contains_ignoring_case.
  simpl sqlite.pattern_compare.
  rewrite (match_all_ascii _ text Htext). split.
  - intros (before & tail & -> & Hmatch).
    apply ascii_text_app in Htext as [_ Htail].
    apply (pattern_compare_plain needle "%" tail Hneedle Htail) in Hmatch
      as (found & after & -> & Hfound & _).
    eauto.
  - intros (before & found & after & -> & Hfound).
    exists before, (found +:+ after). split; [reflexivity|].
    apply ascii_text_app in Htext as [_ Htail].
    apply (pattern_compare_plain needle "%" _ Hneedle Htail).
    exists found, after. repeat split; [exact Hfound|].
    simpl. apply match_all_end. reflexivity.
Qed.

Lemma pattern_compare_two_parts (first second text : string) :
  plain_text first →
  plain_text second →
  ascii_text text →
  sqlite.pattern_compare (String "%" (first +:+ String "%" (second +:+ "%"))) text = true
  ↔ ∃ before found1 between found2 after,
      text = before +:+ found1 +:+ between +:+ found2 +:+ after
      ∧ fold_case found1 = fold_case first
      ∧ fold_case found2 = fold_case second.
Proof.
  intros Hfirst Hsecond Hname.
  simpl sqlite.pattern_compare.
  rewrite (match_all_ascii _ _ Hname). split.
  - intros (before & tail & Heq & Hmatch).
    assert (Htail : ascii_text tail).
    { rewrite Heq in Hname. apply ascii_text_app in Hname as [_ Htail]. exact Htail. }
    apply (pattern_compare_plain first _ tail Hfirst Htail) in Hmatch
      as (found1 & tail1 & -> & Hfound1 & Hmatch).
    apply ascii_text_app in Htail as [_ Htail1].
    simpl sqlite.pattern_compare in Hmatch.
    apply (match_all_ascii _ _ Htail1) in Hmatch as (between & tail2 & -> & Hmatch).
    apply ascii_text_app in Htail1 as [_ Htail2].
    apply (pattern_compare_plain second "%" tail2 Hsecond Htail2) in Hmatch
      as (found2 & after & -> & Hfound2 & _).
    exists before, found1, between, found2, after. repeat split; assumption.
  - intros (before & found1 & between & found2 & after & Heq & Hfound1 & Hfound2).
    exists before, (found1 +:+ between +:+ found2 +:+ after). split; [exact Heq|].
    rewrite Heq in Hname. apply ascii_text_app in Hname as [_ Hname].
    apply (pattern_compare_plain first _ _ Hfirst Hname).
    exists found1, (between +:+ found2 +:+ after). repeat split; [exact Hfound1|].
    apply ascii_text_app in Hname as [_ Hname]. simpl sqlite.pattern_compare.
    apply (match_all_ascii _ _ Hname).
    exists between, (found2 +:+ after). split; [reflexivity|].
    apply ascii_text_app in Hname as [_ Hname].
    apply (pattern_compare_plain second "%" _ Hsecond Hname).
    exists found2, after. repeat split; [exact Hfound2|].
    simpl. apply match_all_end. reflexivity.
Qed.

(** The operands of LIKE as it compares them: an ASCII text as it is, a
    pattern with its plain parts read as UTF-8. *)
Lemma like_text_read (text : string) :
  ascii_text text → sqlite.read_utf8 (sqlite.c_str text) = text.
Proof.
  intros Htext. rewrite (c_str_no_nul text (ascii_text_no_nul text Htext)).
  apply read_utf8_seven_bit, ascii_text_seven_bit, Htext.
Qed.

Lemma percent_seven_bit : (sqlite.byte "%" < 128)%N.
Proof. reflexivity. Qed.

(** For a plain search text and an ASCII name, [name LIKE '%text%'] holds
    exactly when the text occurs in the name up to the case of letters. *)
Lemma like_contains (needle text : string) :
  plain_text needle →
  ascii_text text →
  sqlite.like text ("%" +:+ needle +:+ "%") = true ↔ contains_ignoring_case needle text.
Proof.
  intros Hneedle Htext. unfold sqlite.like.
  rewrite (like_text_read text Htext).
  assert (Hpattern : sqlite.c_str ("%" +:+ needle +:+ "%") = String "%" (needle +:+ "%")).
  { apply c_str_no_nul. simpl. rewrite all_chars_app.
    rewrite (plain_text_no_nul needle Hneedle). reflexivity. }
  rewrite Hpattern.
  rewrite (read_utf8_cons "%" _ (seven_bit_not_239 _ percent_seven_bit)).
  rewrite (read_utf8_app needle "%" "" percent_seven_bit).
  change (sqlite.read_utf8 "%") with "%".
  rewrite (pattern_compare_one_part _ text (plain_text_read_utf8 _ Hneedle) Htext).
  unfold contains_ignoring_case. split.
  - intros (before & found & after & Heq & Hfound).
    exists before, found, after. split; [exact Heq|].
    apply fold_case_read_utf8; [|exact Hfound].
    rewrite Heq in Htext. apply ascii_text_app in Htext as [_ Htext].
    apply ascii_text_app in Htext as [Htext _]. apply ascii_text_seven_bit, Htext.
  - intros (before & found & after & Heq & Hfound).
    exists before, found, after. split; [exact Heq|].
    apply fold_case_read_utf8; [|exact Hfound].
    rewrite Heq in Htext. apply ascii_text_app in Htext as [_ Htext].
    apply ascii_text_app in Htext as [Htext _]. apply ascii_text_seven_bit, Htext.
Qed.

Lemma append_assoc (s1 s2 s3 : string) : (s1 +:+ s2) +:+ s3 = s1 +:+ s2 +:+ s3.
Proof.
  induction s1 as [|c s1 IH]; [reflexivity|].
  cbv [String.append]. fold String.append. rewrite IH. reflexivity.
Qed.

Lemma sweet_row_inj (i j : Z) (c d : sweets.columns) :
  sweet_row i c = sweet_row j d → i = j ∧ c = d.
Proof.
  destruct c, d. unfold sweet_row. simpl. intros [= -> -> -> -> -> ->].
  split; reflexivity.
Qed.

Lemma sweet_row_listed (t : gmap Z sweets.columns) (i : Z) (c : sweets.columns) :
  sweet_row i c ∈ select_order_by_id t ↔ t !! i = Some c.
Proof.
  rewrite elem_of_select_order_by_id. simpl. split.
  - intros (c' & Hc' & Heq). apply sweet_row_inj in Heq as [_ ->]. exact Hc'.
  - intros Hc. exists c. split; [exact Hc | reflexivity].
Qed.

(** X4 (search by name).  For a search text that is not empty, holds no
    [%], no [_] and no NUL and is short enough for LIKE, the search by name
    returns, among the items with an ASCII name, exactly those whose name
    contains the text, the case of the letters A-Z being ignored. *)
Theorem search_by_name_finds_substrings (db : database) (needle : string) :
  needle ≠ "" →
  plain_text needle →
  like_pattern_fits needle →
  ∃ rows,
    search_sweets (Some needle) None None None db = (Return rows, db)
    ∧ ∀ sweet_id c,
        ascii_text (sweets.name c) →
        sweet_row sweet_id c ∈ rows
        ↔ sweets_table db !! sweet_id = Some c
          ∧ contains_ignoring_case needle (sweets.name c).
Proof.
  intros Hne Hplain _. eexists. split; [reflexivity|].
  intros sweet_id c Hname.
  rewrite elem_of_filter_bool, sweet_row_listed. unfold search_where.
  destruct needle as [|n needle]; [contradiction|].
  simpl truthy_str. cbv iota. rewrite !andb_true_r.
  change (default "" (Some (String n needle))) with (String n needle).
  change (SweetResponse.name (sweet_row sweet_id c)) with (sweets.name c).
  rewrite <- (like_contains (String n needle) (sweets.name c) Hplain Hname).
  reflexivity.
Qed.

Lemma search_by_name_finds_substrings_witness :
  ∃ rows,
    search_sweets (Some "CHOCO") None None None Catalog.store = (Return rows, Catalog.store)
    ∧ (Catalog.barfi_row ∈ rows
       ↔ sweets_table Catalog.store !! 2 = Some Catalog.barfi_columns
         ∧ contains_ignoring_case "CHOCO" "Chocolate Barfi").
Proof.
  destruct (search_by_name_finds_substrings Catalog.store "CHOCO") as (rows & Hrows & Hiff).
  - discriminate.
  - vm_compute. reflexivity.
  - vm_compute. discriminate.
  - exists rows. split; [exact Hrows|].
    apply (Hiff 2 Catalog.barfi_columns). vm_compute. reflexivity.
Defined.

Example search_by_name_on_catalog :
  fst (search_sweets (Some "CHOCO") None None None Catalog.store)
  = Return [Catalog.barfi_row; Catalog.fudge_row]
  ∧ fst (search_sweets (Some "") (Some "Indian") None None Catalog.store)
    = Return [Catalog.ladoo_row; Catalog.barfi_row]
  ∧ fst (search_sweets None (Some "indian") None None Catalog.store) = Return []
  ∧ fst (search_sweets None None (Some 3%float) (Some 4%float) Catalog.store)
    = Return [Catalog.barfi_row]
  ∧ fst (get_all_sweets Catalog.store)
    = Return [Catalog.ladoo_row; Catalog.barfi_row; Catalog.fudge_row].
Proof. repeat split; vm_compute; reflexivity. Qed.

(** X5 (wildcards in the search text).  A [%] inside the search text is
    not looked up literally: the search for [first%second], with [first]
    and [second] plain and the whole short enough for LIKE, returns among
    the items with an ASCII name exactly those whose name contains [first]
    and, anywhere after it, [second]. *)
Theorem search_text_percent_is_a_wildcard (db : database) (first second : string) :
  plain_text first →
  plain_text second →
  like_pattern_fits (first +:+ "%" +:+ second) →
  ∃ rows,
    search_sweets (Some (first +:+ "%" +:+ second)) None None None db = (Return rows, db)
    ∧ ∀ sweet_id c,
        ascii_text (sweets.name c) →
        sweet_row sweet_id c ∈ rows
        ↔ sweets_table db !! sweet_id = Some c
          ∧ ∃ before found1 between found2 after,
              sweets.name c = before +:+ found1 +:+ between +:+ found2 +:+ after
              ∧ fold_case found1 = fold_case first
              ∧ fold_case found2 = fold_case second.
Proof.
  intros Hfirst Hsecond _. eexists. split; [reflexivity|].
  intros sweet_id c Hname.
  rewrite elem_of_filter_bool, sweet_row_listed. unfold search_where.
  assert (Htruthy : truthy_str (Some (first +:+ "%" +:+ second)) = true).
  { destruct first; reflexivity. }
  rewrite Htruthy, !andb_true_r.
  change (default "" (Some (first +:+ "%" +:+ second))) with (first +:+ "%" +:+ second).
  change (SweetResponse.name (sweet_row sweet_id c)) with (sweets.name c).
  assert (Hlike : sqlite.like (sweets.name c) (String "%" ((first +:+ "%" +:+ second) +:+ "%"))
                  = true
                  ↔ ∃ before found1 between found2 after,
                      sweets.name c = before +:+ found1 +:+ between +:+ found2 +:+ after
                      ∧ fold_case found1 = fold_case first
                      ∧ fold_case found2 = fold_case second);
    [|rewrite Hlike; reflexivity].
  unfold sqlite.like.
  rewrite (like_text_read _ Hname).
  assert (Hpattern : String "%" ((first +:+ "%" +:+ second) +:+ "%")
                     = String "%" (first +:+ String "%" (second +:+ "%"))).
  { rewrite !append_assoc. reflexivity. }
  rewrite Hpattern.
  assert (Hnul : sqlite.c_str (String "%" (first +:+ String "%" (second +:+ "%")))
                 = String "%" (first +:+ String "%" (second +:+ "%"))).
  { apply c_str_no_nul. simpl. rewrite all_chars_app. simpl. rewrite all_chars_app.
    rewrite (plain_text_no_nul first Hfirst), (plain_text_no_nul second Hsecond).
    reflexivity. }
  rewrite Hnul.
  rewrite (read_utf8_cons "%" _ (seven_bit_not_239 _ percent_seven_bit)).
  rewrite (read_utf8_app first "%" _ percent_seven_bit).
  rewrite (read_utf8_cons "%" _ (seven_bit_not_239 _ percent_seven_bit)).
  rewrite (read_utf8_app second "%" "" percent_seven_bit).
  change (sqlite.read_utf8 "%") with "%".
  rewrite (pattern_compare_two_parts _ _ _ (plain_text_read_utf8 _ Hfirst)
             (plain_text_read_utf8 _ Hsecond) Hname).
  assert (Hparts : ∀ before found1 between found2 after,
            sweets.name c = before +:+ found1 +:+ between +:+ found2 +:+ after →
            seven_bit found1 ∧ seven_bit found2).
  { intros before found1 between found2 after Heq.
    apply ascii_text_seven_bit in Hname. rewrite Heq in Hname.
    apply seven_bit_app in Hname as [_ Hname]. apply seven_bit_app in Hname as [H1 Hname].
    apply seven_bit_app in Hname as [_ Hname]. apply seven_bit_app in Hname as [H2 _].
    split; assumption. }
  split; intros (before & found1 & between & found2 & after & Heq & Hfound1 & Hfound2);
    destruct (Hparts _ _ _ _ _ Heq) as [H1 H2];
    exists before, found1, between, found2, after;
    (split; [exact Heq|]); split; apply fold_case_read_utf8; assumption.
Qed.

Lemma search_text_percent_is_a_wildcard_witness :
  ∃ rows,
    search_sweets (Some "c%fudge") None None None Catalog.store = (Return rows, Catalog.store)
    ∧ Catalog.fudge_row ∈ rows.
Proof.
  destruct (search_text_percent_is_a_wildcard Catalog.store "c" "fudge")
    as (rows & Hrows & Hiff);
    [vm_compute; reflexivity | vm_compute; reflexivity | vm_compute; discriminate |].
  exists rows. split; [exact Hrows|].
  apply (Hiff 3 Catalog.fudge_columns); [vm_compute; reflexivity|].
  split; [vm_compute; reflexivity|].
  exists "", "C", "hoco-Mint ", "Fudge", "". repeat split.
Defined.

(** ** The handlers that write, past the gate *)

Lemma apply_updates_patched (sweet_update : SweetUpdate.t) (c : sweets.columns) :
  apply_updates (SweetUpdate.name sweet_update) (SweetUpdate.category sweet_update)
    (SweetUpdate.price sweet_update) (SweetUpdate.quantity sweet_update) c
  = patched sweet_update c.
Proof.
  destruct sweet_update as [[name|] [category|] [price|] [quantity|]], c; reflexivity.
Qed.

Lemma no_updates_patched (sweet_update : SweetUpdate.t) (c : sweets.columns) :
  no_updates (SweetUpdate.name sweet_update) (SweetUpdate.category sweet_update)
    (SweetUpdate.price sweet_update) (SweetUpdate.quantity sweet_update) = true →
  patched sweet_update c = c.
Proof.
  destruct sweet_update as [[name|] [category|] [price|] [quantity|]], c;
    simpl; intros Hno; try discriminate. reflexivity.
Qed.

Section WriteHandlerFacts.
Context `{Crypto}.

Lemma add_sweet_run clk authorization user sweet db :
  fst (get_current_user clk authorization db) = Return user →
  let c := sweets.mk (SweetCreate.name sweet) (SweetCreate.category sweet)
             (sqlite3.REAL (SweetCreate.price sweet)) (SweetCreate.quantity sweet)
             (now_iso clk) in
  add_sweet clk authorization sweet db
  = if bool_decide (int64 (SweetCreate.quantity sweet))
    then if PrimFloat.is_nan (SweetCreate.price sweet)
         then (Raise sqlite3.price_is_NULL, db)
         else (Return (sweet_row (sweets_seq db + 1) c),
               mkdb (users_table db) (users_seq db)
                    (<[sweets_seq db + 1 := c]> (sweets_table db)) (sweets_seq db + 1))
    else (Raise sqlite3.too_large, db).
Proof.
  intros Hu c. unfold add_sweet. unfold bind at 1.
  rewrite (get_current_user_run clk authorization db), Hu.
  unfold bind at 1. rewrite create_sweet_run.
  destruct (bool_decide (int64 (SweetCreate.quantity sweet))); [|reflexivity].
  destruct (PrimFloat.is_nan (SweetCreate.price sweet)); [reflexivity|].
  unfold get_sweet_by_id. run.
  rewrite lookup_insert_eq. reflexivity.
Qed.

Lemma update_sweet_endpoint_run clk authorization user sweet_id sweet_update db :
  fst (get_current_user clk authorization db) = Return user →
  update_sweet_endpoint clk authorization sweet_id sweet_update db
  = match sweets_table db !! sweet_id with
    | None => (Raise (HTTPException status.HTTP_404_NOT_FOUND "Sweet not found"), db)
    | Some c =>
        if no_updates (SweetUpdate.name sweet_update) (SweetUpdate.category sweet_update)
             (SweetUpdate.price sweet_update) (SweetUpdate.quantity sweet_update)
        then (Return (sweet_row sweet_id c), db)
        else if from_option (λ q, bool_decide (int64 q)) true
                  (SweetUpdate.quantity sweet_update)
                && bool_decide (int64 sweet_id)
        then if from_option PrimFloat.is_nan false (SweetUpdate.price sweet_update)
             then (Raise sqlite3.price_is_NULL, db)
             else (Return (sweet_row sweet_id (patched sweet_update c)),
                   mkdb (users_table db) (users_seq db)
                        (alter (patched sweet_update) sweet_id (sweets_table db))
                        (sweets_seq db))
        else (Raise sqlite3.too_large, db)
    end.
Proof.
  intros Hu. unfold update_sweet_endpoint. unfold bind at 1.
  rewrite (get_current_user_run clk authorization db), Hu.
  unfold bind at 1. unfold get_sweet_by_id at 1. run.
  destruct (sweets_table db !! sweet_id) as [c|] eqn:Hc; simpl; [|reflexivity].
  rewrite update_sweet_run, Hc.
  destruct (no_updates _ _ _ _) eqn:Hno; simpl.
  - unfold get_sweet_by_id. run. rewrite Hc. reflexivity.
  - destruct (_ && _); simpl; [|reflexivity].
    destruct (from_option PrimFloat.is_nan false _); simpl; [reflexivity|].
    unfold get_sweet_by_id. run. simpl.
    assert (Halter : alter (apply_updates (SweetUpdate.name sweet_update)
                              (SweetUpdate.category sweet_update)
                              (SweetUpdate.price sweet_update)
                              (SweetUpdate.quantity sweet_update)) sweet_id (sweets_table db)
                     = alter (patched sweet_update) sweet_id (sweets_table db)).
    { apply map_eq. intros j. rewrite !lookup_alter.
      case_decide; [|reflexivity].
      destruct (sweets_table db !! sweet_id); simpl; [|reflexivity].
      rewrite apply_updates_patched. reflexivity. }
    rewrite Halter, lookup_alter_eq, Hc. reflexivity.
Qed.

(** A handler behind [get_current_user] or [get_admin_user] that is
    stopped at the gate leaves the store as it is. *)
Lemma handler_stopped_at_gate clk authorization e db :
  fst (get_current_user clk authorization db) = Raise e →
  (∀ sweet, snd (add_sweet clk authorization sweet db) = db)
  ∧ (∀ sweet_id sweet_update,
       snd (update_sweet_endpoint clk authorization sweet_id sweet_update db) = db)
  ∧ (∀ sweet_id, snd (delete_sweet_endpoint clk authorization sweet_id db) = db)
  ∧ (∀ sweet_id purchase,
       snd (purchase_sweet_endpoint clk authorization sweet_id purchase db) = db)
  ∧ (∀ sweet_id restock,
       snd (restock_sweet_endpoint clk authorization sweet_id restock db) = db).
Proof.
  intros Hu.
  assert (Hgate : get_current_user clk authorization db = (Raise e, db)).
  { rewrite (get_current_user_run clk authorization db), Hu. reflexivity. }
  assert (Hadmin : get_admin_user clk authorization db = (Raise e, db)).
  { rewrite get_admin_user_run, Hu. reflexivity. }
  repeat split; intros.
  - unfold add_sweet, bind. rewrite Hgate. reflexivity.
  - unfold update_sweet_endpoint, bind. rewrite Hgate. reflexivity.
  - rewrite (delete_sweet_endpoint_gate _ _ _ _ _ Hadmin). reflexivity.
  - unfold purchase_sweet_endpoint, bind. rewrite Hgate. reflexivity.
  - rewrite (restock_sweet_endpoint_gate _ _ _ _ _ _ Hadmin). reflexivity.
Qed.

Lemma handler_stopped_not_admin clk authorization user db :
  fst (get_current_user clk authorization db) = Return user →
  admin user = false →
  (∀ sweet_id, snd (delete_sweet_endpoint clk authorization sweet_id db) = db)
  ∧ (∀ sweet_id restock,
       snd (restock_sweet_endpoint clk authorization sweet_id restock db) = db).
Proof.
  intros Hu Hflag.
  assert (Hadmin : get_admin_user clk authorization db
                   = (Raise (HTTPException status.HTTP_403_FORBIDDEN "Admin access required"),
                      db)).
  { rewrite get_admin_user_run, Hu, Hflag. reflexivity. }
  split; intros.
  - rewrite (delete_sweet_endpoint_gate _ _ _ _ _ Hadmin). reflexivity.
  - rewrite (restock_sweet_endpoint_gate _ _ _ _ _ _ Hadmin). reflexivity.
Qed.
End WriteHandlerFacts.

(** ** What one request can do to the store *)

Section StepFacts.
Context `{Crypto}.

(** The five effects a request can have: none, one more account, one more
    item under the next id, a change to the row of an existing item, the
    removal of an item. *)
Lemma serve_cases clk req db :
  serve clk req db = db
  ∨ (∃ u c,
       users_table db !! u = None
       ∧ users.id c = users_seq db + 1
       ∧ (size (users_table db) = 0%nat → users.is_admin c = 1)
       ∧ (users.is_admin c = 0 ∨ users.is_admin c = 1)
       ∧ serve clk req db
         = mkdb (<[u := c]> (users_table db)) (users_seq db + 1)
                (sweets_table db) (sweets_seq db))
  ∨ (∃ c, serve clk req db
          = mkdb (users_table db) (users_seq db)
                 (<[sweets_seq db + 1 := c]> (sweets_table db)) (sweets_seq db + 1))
  ∨ (∃ f sweet_id,
       is_Some (sweets_table db !! sweet_id)
       ∧ serve clk req db
         = mkdb (users_table db) (users_seq db)
                (alter f sweet_id (sweets_table db)) (sweets_seq db))
  ∨ (∃ sweet_id,
       serve clk req db
       = mkdb (users_table db) (users_seq db)
              (delete sweet_id (sweets_table db)) (sweets_seq db)).
Proof.
  destruct req as [user_data|authorization sweet|authorization sweet_id sweet_update
                  |authorization sweet_id|authorization sweet_id [quantity]
                  |authorization sweet_id [quantity]]; simpl.
  - rewrite register_run. cbv zeta.
    destruct (users_table db !! UserRegister.username user_data) eqn:Hu; simpl;
      [left; reflexivity|].
    right. left.
    exists (UserRegister.username user_data),
           (users.mk (users_seq db + 1) (hash_password (UserRegister.password user_data))
              (if (Z.of_nat (size (users_table db)) =? 0)
                  || bool_decide (UserRegister.admin_key user_data = Some ADMIN_KEY)
               then 1 else 0) (now_iso clk)).
    split; [exact Hu|]. split; [reflexivity|].
    split; [|split; [|reflexivity]]; simpl.
    + intros ->. reflexivity.
    + destruct (_ || _); [right | left]; reflexivity.
  - destruct (fst (get_current_user clk authorization db)) as [user|e] eqn:Hu.
    + rewrite (add_sweet_run _ _ _ _ _ Hu). simpl.
      destruct (bool_decide _); [|left; reflexivity].
      destruct (PrimFloat.is_nan _); [left; reflexivity|].
      right. right. left. eauto.
    + destruct (handler_stopped_at_gate _ _ _ _ Hu) as (Hadd & _).
      rewrite Hadd. left. reflexivity.
  - destruct (fst (get_current_user clk authorization db)) as [user|e] eqn:Hu.
    + rewrite (update_sweet_endpoint_run _ _ _ _ _ _ Hu).
      destruct (sweets_table db !! sweet_id) as [c|] eqn:Hc; [|left; reflexivity].
      simpl. destruct (no_updates _ _ _ _); [left; reflexivity|].
      destruct (_ && _); [|left; reflexivity].
      destruct (from_option PrimFloat.is_nan false _); [left; reflexivity|].
      right. right. right. left. eexists _, sweet_id.
      split; [rewrite Hc; eauto | reflexivity].
    + destruct (handler_stopped_at_gate _ _ _ _ Hu) as (_ & Hupdate & _).
      rewrite Hupdate. left. reflexivity.
  - destruct (fst (get_current_user clk authorization db)) as [user|e] eqn:Hu;
      [destruct (admin user) eqn:Hadmin|].
    + rewrite (delete_sweet_endpoint_run _ _ _ _ _ Hu Hadmin).
      destruct (sweets_table db !! sweet_id); [|left; reflexivity].
      right. right. right. right. exists sweet_id. reflexivity.
    + destruct (handler_stopped_not_admin _ _ _ _ Hu Hadmin) as (Hdelete & _).
      rewrite Hdelete. left. reflexivity.
    + destruct (handler_stopped_at_gate _ _ _ _ Hu) as (_ & _ & Hdelete & _).
      rewrite Hdelete. left. reflexivity.
  - destruct (fst (get_current_user clk authorization db)) as [user|e] eqn:Hu.
    + rewrite (purchase_sweet_endpoint_run _ _ _ _ _ _ Hu), purchase_sweet_run.
      destruct (sweets_table db !! sweet_id) as [c|] eqn:Hc; [|left; reflexivity].
      destruct (_ <? _); [left; reflexivity|].
      right. right. right. left. eexists _, sweet_id.
      split; [rewrite Hc; eauto | reflexivity].
    + destruct (handler_stopped_at_gate _ _ _ _ Hu) as (_ & _ & _ & Hpurchase & _).
      rewrite Hpurchase. left. reflexivity.
  - destruct (fst (get_current_user clk authorization db)) as [user|e] eqn:Hu;
      [destruct (admin user) eqn:Hadmin|].
    + rewrite (restock_sweet_endpoint_run _ _ _ _ _ _ Hu Hadmin).
      destruct (sweets_table db !! sweet_id) as [c|] eqn:Hc; [|left; reflexivity].
      destruct (bool_decide (int64 sweet_id)) eqn:Hid; [|left; reflexivity].
      destruct (bool_decide (int64 (sweets.quantity c + quantity))) eqn:Hsum;
        [|left; reflexivity].
      apply bool_decide_eq_true_1 in Hid, Hsum.
      simpl. rewrite (restock_sweet_fits _ _ _ _ Hc Hid Hsum).
      right. right. right. left. eexists _, sweet_id.
      split; [rewrite Hc; eauto | reflexivity].
    + destruct (handler_stopped_not_admin _ _ _ _ Hu Hadmin) as (_ & Hrestock).
      rewrite Hrestock. left. reflexivity.
    + destruct (handler_stopped_at_gate _ _ _ _ Hu) as (_ & _ & _ & _ & Hrestock).
      rewrite Hrestock. left. reflexivity.
Qed.
End StepFacts.

(** ** Ids and accounts over sequences of requests *)

Section StoreInvariants.
Context `{Crypto}.

Lemma sweet_ids_assigned_step clk req db :
  0 ≤ sweets_seq db ∧ sweet_ids_assigned db →
  0 ≤ sweets_seq (serve clk req db) ∧ sweet_ids_assigned (serve clk req db).
Proof.
  unfold sweet_ids_assigned. intros [Hseq Hids].
  destruct (serve_cases clk req db)
    as [-> | [(u & c & _ & _ & _ & _ & ->) | [(c & ->) | [(f & i & _ & ->) | (i & ->)]]]];
    simpl; (split; [lia|]).
  - exact Hids.
  - exact Hids.
  - apply map_Forall_insert_2; [lia|].
    intros j cj Hj. specialize (Hids j cj Hj). simpl in Hids. lia.
  - intros j cj Hj. rewrite lookup_alter in Hj. case_decide.
    + subst j. destruct (sweets_table db !! i) as [c0|] eqn:Hc0; [|discriminate].
      exact (Hids i c0 Hc0).
    + exact (Hids j cj Hj).
  - apply map_Forall_delete. exact Hids.
Qed.

Lemma sweet_ids_assigned_reachable accept db :
  reachable_by accept db → 0 ≤ sweets_seq db ∧ sweet_ids_assigned db.
Proof.
  induction 1 as [|clk req db Hreach IH Hreq].
  - split; [simpl; lia|]. unfold sweet_ids_assigned. simpl. apply map_Forall_empty.
  - apply sweet_ids_assigned_step, IH.
Qed.

Lemma select_order_by_id_insert_last (t : gmap Z sweets.columns) (k : Z) (c : sweets.columns) :
  map_Forall (λ i _, i < k) t →
  select_order_by_id (<[k := c]> t) = (select_order_by_id t ++ [sweet_row k c])%list.
Proof.
  intros Hbelow.
  assert (Hfresh : t !! k = None).
  { destruct (t !! k) as [c0|] eqn:Hk; [|reflexivity].
    specialize (Hbelow k c0 Hk). simpl in Hbelow. lia. }
  apply (StronglySorted_unique_strong
           (λ a b, SweetResponse.id a < SweetResponse.id b)).
  - intros x1 x2 _ _ H12 H21. lia.
  - apply select_order_by_id_sorted.
  - apply StronglySorted_app. split; [|split].
    + intros x1 x2 Hx1 Hx2. apply list_elem_of_singleton in Hx2 as ->.
      apply elem_of_select_order_by_id in Hx1 as (c1 & Hc1 & _).
      exact (Hbelow _ _ Hc1).
    + apply select_order_by_id_sorted.
    + repeat constructor.
  - unfold select_order_by_id.
    rewrite !merge_sort_Permutation, (map_to_list_insert _ _ _ Hfresh).
    rewrite fmap_cons. simpl. rewrite Permutation_app_comm. reflexivity.
Qed.

(** X6 (adding an item).  In a store reached from the initial one, an
    authenticated add-item request whose price is not a NaN and whose
    quantity is a 64-bit integer is answered with the row it creates: the
    name, the category and the quantity are those of the request, the price
    is the price of the request as the REAL column gives it back (0.0 for
    the zero with a sign, the same float otherwise), the creation time is
    the reading of the clock, and the id is one more than every id handed
    out before.  No existing item is overwritten, the accounts are
    untouched, and the listing afterwards is the listing before followed by
    the new row.  A request whose quantity is not a 64-bit integer, or
    whose price is a NaN, raises and leaves the store as it is. *)
Theorem add_sweet_appends_a_fresh_item clk authorization user sweet db :
  reachable db →
  fst (get_current_user clk authorization db) = Return user →
  (storable_price (SweetCreate.price sweet) →
   int64 (SweetCreate.quantity sweet) →
   ∃ db' listing,
     let row := SweetResponse.mk (sweets_seq db + 1) (SweetCreate.name sweet)
                  (SweetCreate.category sweet) (sqlite3.REAL (SweetCreate.price sweet))
                  (SweetCreate.quantity sweet) (now_iso clk) in
     add_sweet clk authorization sweet db = (Return row, db')
     ∧ sweets_table db !! (sweets_seq db + 1) = None
     ∧ (∀ sweet_id c, sweets_table db !! sweet_id = Some c →
          sweet_id < sweets_seq db + 1 ∧ sweets_table db' !! sweet_id = Some c)
     ∧ users_table db' = users_table db
     ∧ get_all_sweets db = (Return listing, db)
     ∧ get_all_sweets db' = (Return (listing ++ [row])%list, db'))
  ∧ (¬ int64 (SweetCreate.quantity sweet) →
     add_sweet clk authorization sweet db = (Raise sqlite3.too_large, db))
  ∧ (int64 (SweetCreate.quantity sweet) →
     PrimFloat.is_nan (SweetCreate.price sweet) = true →
     add_sweet clk authorization sweet db = (Raise sqlite3.price_is_NULL, db)).
Proof.
  intros Hreach Hu.
  pose proof (add_sweet_run clk authorization user sweet db Hu) as Hrun. cbv zeta in Hrun.
  split; [|split].
  2: { intros Hq. rewrite Hrun, (bool_decide_eq_false_2 _ Hq). reflexivity. }
  2: { intros Hq Hnan. rewrite Hrun, (bool_decide_eq_true_2 _ Hq), Hnan. reflexivity. }
  intros Hprice Hq. unfold storable_price in Hprice.
  rewrite (bool_decide_eq_true_2 _ Hq), Hprice in Hrun.
  destruct (sweet_ids_assigned_reachable _ db Hreach) as [Hseq Hids].
  assert (Hbelow : map_Forall (λ i _, i < sweets_seq db + 1) (sweets_table db)).
  { intros i c Hc. specialize (Hids i c Hc). simpl in *. lia. }
  assert (Hfresh : sweets_table db !! (sweets_seq db + 1) = None).
  { destruct (sweets_table db !! (sweets_seq db + 1)) as [c0|] eqn:Hk; [|reflexivity].
    specialize (Hbelow _ c0 Hk). simpl in Hbelow. lia. }
  eexists _, _. cbv zeta.
  split; [exact Hrun|].
  split; [exact Hfresh|]. split; [|split; [reflexivity|split; [reflexivity|]]].
  - intros sweet_id c Hc. pose proof (Hbelow _ _ Hc) as Hlt. simpl in Hlt.
    split; [exact Hlt|]. simpl. rewrite lookup_insert_ne by lia. exact Hc.
  - unfold get_all_sweets. run.
    rewrite (select_order_by_id_insert_last _ _ _ Hbelow). reflexivity.
Qed.

Lemma reachable_shop : @reachable Demo.crypto Demo.shop.
Proof. apply shop_reachable_by. intros req _. exact I. Qed.

(** X7 (ids are not reused).  An id that has been handed out and has no
    row, because its item was deleted, never gets a row again, whatever
    requests follow. *)
Theorem deleted_id_is_never_reused (requests : list (clock * request)) db sweet_id :
  sweet_id ≤ sweets_seq db →
  sweets_table db !! sweet_id = None →
  sweets_table (serve_all requests db) !! sweet_id = None.
Proof.
  unfold serve_all. revert db.
  induction requests as [|[clk req] requests IH]; intros db Hle Hnone; [exact Hnone|].
  simpl. apply IH;
    destruct (serve_cases clk req db)
      as [-> | [(u & c & _ & _ & _ & _ & ->) | [(c & ->) | [(f & i & _ & ->) | (i & ->)]]]];
    simpl; try lia; try exact Hnone.
  - rewrite lookup_insert_ne by lia. exact Hnone.
  - rewrite lookup_alter. case_decide; [subst; rewrite Hnone|]; [reflexivity | exact Hnone].
  - rewrite lookup_delete. case_decide; [reflexivity | exact Hnone].
Qed.

(** X8 (accounts are immutable).  No sequence of requests changes or
    removes an existing account: its id, password hash, admin flag and
    creation time stay what registration stored. *)
Theorem accounts_are_never_modified (requests : list (clock * request)) db username c :
  users_table db !! username = Some c →
  users_table (serve_all requests db) !! username = Some c.
Proof.
  unfold serve_all. revert db.
  induction requests as [|[clk req] requests IH]; intros db Hc; [exact Hc|].
  simpl. apply IH.
  destruct (serve_cases clk req db)
    as [-> | [(u & c' & Hu & _ & _ & _ & ->) | [(c' & ->) | [(f & i & _ & ->) | (i & ->)]]]];
    simpl; try exact Hc.
  rewrite lookup_insert_ne; [exact Hc|]. intros ->. congruence.
Qed.

Lemma accounts_step clk req db :
  accounts_consistent db
  ∧ (users_table db = ∅
     ∨ ∃ u c, users_table db !! u = Some c ∧ users.id c = 1 ∧ users.is_admin c = 1) →
  accounts_consistent (serve clk req db)
  ∧ (users_table (serve clk req db) = ∅
     ∨ ∃ u c, users_table (serve clk req db) !! u = Some c
              ∧ users.id c = 1 ∧ users.is_admin c = 1).
Proof.
  intros [(Hseq & Hrows & Hinj) Hfirst].
  destruct (serve_cases clk req db)
    as [-> | [(u & c & Hu & Hid & Hzero & Hflag & ->)
             | [(c & ->) | [(f & i & _ & ->) | (i & ->)]]]];
    try (split; [split; [exact Hseq | split; [exact Hrows | exact Hinj]] | exact Hfirst]).
  unfold accounts_consistent. simpl.
  assert (Hsize : size (<[u:=c]> (users_table db)) = S (size (users_table db))).
  { apply map_size_insert_None, Hu. }
  split; [split; [|split]|].
  - rewrite Hsize, Hseq. lia.
  - apply map_Forall_insert_2; [split; [lia | exact Hflag]|].
    intros u0 c0 Hc0. destruct (Hrows u0 c0 Hc0) as [Hrange Hflag0].
    simpl in *. split; [lia | exact Hflag0].
  - intros u1 u2 c1 c2 H1 H2 Heq.
    rewrite lookup_insert in H1, H2.
    destruct (decide (u = u1)) as [<-|Hne1], (decide (u = u2)) as [<-|Hne2].
    + reflexivity.
    + injection H1 as <-.
      destruct (Hrows u2 c2 H2) as [Hrange _]. simpl in Hrange. lia.
    + injection H2 as <-.
      destruct (Hrows u1 c1 H1) as [Hrange _]. simpl in Hrange. lia.
    + exact (Hinj u1 u2 c1 c2 H1 H2 Heq).
  - right. destruct Hfirst as [Hempty | (u0 & c0 & Hc0 & Hid0 & Hadmin0)].
    + exists u, c. rewrite lookup_insert_eq. split; [reflexivity|].
      assert (Hzero' : size (users_table db) = 0%nat) by (rewrite Hempty; apply map_size_empty).
      split; [rewrite Hid, Hseq, Hzero'; reflexivity | exact (Hzero Hzero')].
    + exists u0, c0. split; [|split; assumption].
      rewrite lookup_insert_ne; [exact Hc0|]. intros ->. congruence.
Qed.

(** X9 (accounts).  In every store reached from the initial one the
    accounts are numbered 1, 2, ... in order of registration without gaps
    or repeats, every stored admin flag is 0 or 1, and as soon as one
    account exists the account with id 1 is an admin. *)
Theorem accounts_numbered_and_first_is_admin db :
  reachable db →
  accounts_consistent db
  ∧ (users_table db ≠ ∅ →
     ∃ username c, users_table db !! username = Some c
                   ∧ users.id c = 1 ∧ users.is_admin c = 1).
Proof.
  intros Hreach.
  assert (Hinv : accounts_consistent db
                 ∧ (users_table db = ∅
                    ∨ ∃ u c, users_table db !! u = Some c
                             ∧ users.id c = 1 ∧ users.is_admin c = 1)).
  { induction Hreach as [|clk req db Hreach IH Hreq].
    - split; [|left; reflexivity]. unfold accounts_consistent. simpl.
      split; [reflexivity|]. split; [apply map_Forall_empty|].
      intros u1 u2 c1 c2 H1. rewrite lookup_empty in H1. discriminate.
    - apply accounts_step, IH. }
  destruct Hinv as [Hconsistent Hfirst]. split; [exact Hconsistent|].
  intros Hne. destruct Hfirst as [Hempty | Hfirst]; [contradiction | exact Hfirst].
Qed.
End StoreInvariants.

(** bob adds an item to the demo shop: it gets the next id and closes the
    listing. *)
Lemma add_sweet_appends_a_fresh_item_witness :
  ∃ db' listing,
    let row := SweetResponse.mk (sweets_seq Demo.shop + 1) "Lemon Sorbet" "Frozen"
                 0%float 5 "2025-01-01T00:00:00" in
    @add_sweet Demo.crypto Demo.t0 Demo.bob_token Catalog.sorbet Demo.shop = (Return row, db')
    ∧ get_all_sweets Demo.shop = (Return listing, Demo.shop)
    ∧ get_all_sweets db' = (Return (listing ++ [row])%list, db').
Proof.
  destruct (@add_sweet_appends_a_fresh_item Demo.crypto Demo.t0 Demo.bob_token
              Demo.bob_identity Catalog.sorbet Demo.shop) as (Hadded & _ & _).
  - exact reachable_shop.
  - vm_compute. reflexivity.
  - destruct Hadded as (db' & listing & Hadd & _ & _ & _ & Hbefore & Hafter).
    + vm_compute. reflexivity.
    + unfold int64. simpl. lia.
    + exists db', listing. split; [exact Hadd|]. split; [exact Hbefore | exact Hafter].
Defined.

(** The price -0.0 of the request is not the price of the row, and a
    quantity of 2^63 or a price that is not a number is refused. *)
Example add_sweet_at_the_limits_of_the_storage :
  sweets.price <$>
    sweets_table (snd (@add_sweet Demo.crypto Demo.t0 Demo.bob_token Catalog.sorbet
                         Demo.shop)) !! 2
  = Some 0%float
  ∧ PrimFloat.div 1 (SweetCreate.price Catalog.sorbet) = neg_infinity
  ∧ @add_sweet Demo.crypto Demo.t0 Demo.bob_token
      (SweetCreate.mk "Ladoo" "Indian" 2.5%float (2 ^ 63)) Demo.shop
    = (Raise sqlite3.too_large, Demo.shop)
  ∧ @add_sweet Demo.crypto Demo.t0 Demo.bob_token
      (SweetCreate.mk "Ladoo" "Indian" nan 1) Demo.shop
    = (Raise sqlite3.price_is_NULL, Demo.shop).
Proof. repeat split; vm_compute; reflexivity. Qed.

(** After the deletion of item 1, a new item does not take id 1. *)
Lemma deleted_id_is_never_reused_witness :
  sweets_table
    (@serve_all Demo.crypto [(Demo.t0, POST_sweets Demo.bob_token Demo.ladoo)]
       Catalog.without_ladoo) !! 1 = None.
Proof.
  apply (@deleted_id_is_never_reused Demo.crypto).
  - vm_compute. discriminate.
  - vm_compute. reflexivity.
Defined.

(** alice's account is the same after a registration under her name, a
    field update and a deletion. *)
Lemma accounts_are_never_modified_witness :
  users_table
    (@serve_all Demo.crypto
       [(Demo.t0, POST_register (UserRegister.mk "alice" "other" (Some "aswd")));
        (Demo.t0, PUT_sweet Demo.bob_token 1 (SweetUpdate.mk None None None (Some 0)));
        (Demo.t0, DELETE_sweet Demo.alice_token 1)]
       Demo.shop) !! "alice"
  = Some (users.mk 1 "$2b$wonderland" 1 "2025-01-01T00:00:00").
Proof.
  apply (@accounts_are_never_modified Demo.crypto). vm_compute. reflexivity.
Defined.

Lemma accounts_numbered_and_first_is_admin_witness :
  accounts_consistent Demo.shop
  ∧ ∃ username c, users_table Demo.shop !! username = Some c
                  ∧ users.id c = 1 ∧ users.is_admin c = 1.
Proof.
  destruct (@accounts_numbered_and_first_is_admin Demo.crypto Demo.shop reachable_shop)
    as [Hconsistent Hfirst].
  split; [exact Hconsistent|]. apply Hfirst.
  intros Hempty.
  assert (Halice : users_table Demo.shop !! "alice" = None)
    by (rewrite Hempty; apply lookup_empty).
  vm_compute in Halice. discriminate.
Defined.

(** ** Composition of purchases and restocks *)

(** X10 (two purchases).  Two purchases in a row of the same item, of
    quantities that are not negative, both succeed exactly when the stock
    covers the sum of the two quantities, and then they leave the store that
    a single purchase of the sum leaves. *)
Theorem two_purchases_are_one_purchase_of_the_sum db sweet_id c q1 q2 :
  sweets_table db !! sweet_id = Some c →
  0 ≤ q1 →
  0 ≤ q2 →
  let db1 := snd (purchase_sweet sweet_id q1 db) in
  (fst (purchase_sweet sweet_id q1 db) = Return true
   ∧ fst (purchase_sweet sweet_id q2 db1) = Return true
   ↔ q1 + q2 ≤ sweets.quantity c)
  ∧ (q1 + q2 ≤ sweets.quantity c →
     purchase_sweet sweet_id q2 db1 = purchase_sweet sweet_id (q1 + q2) db).
Proof.
  intros Hc _ Hq2 db1. subst db1.
  rewrite !(purchase_sweet_run sweet_id _ db), Hc.
  destruct (sweets.quantity c <? q1) eqn:H1;
    [apply Z.ltb_lt in H1 | apply Z.ltb_ge in H1]; simpl.
  - split; [split; [intros [[=] _] | lia]|lia].
  - rewrite purchase_sweet_run. simpl. rewrite lookup_alter_eq, Hc. simpl.
    destruct (sweets.quantity c - q1 <? q2) eqn:H2;
      [apply Z.ltb_lt in H2 | apply Z.ltb_ge in H2]; simpl.
    + split; [split; [intros [_ [=]] | lia]|lia].
    + split; [split; [lia | auto]|]. intros _.
      replace (sweets.quantity c <? q1 + q2) with false by (symmetry; apply Z.ltb_ge; lia).
      rewrite alter_set_quantity_twice.
      replace (sweets.quantity c - (q1 + q2)) with (sweets.quantity c - q1 - q2) by lia.
      reflexivity.
Qed.

Lemma two_purchases_are_one_purchase_of_the_sum_witness :
  let db1 := snd (purchase_sweet 1 7 Demo.shop) in
  purchase_sweet 1 3 db1 = purchase_sweet 1 10 Demo.shop
  ∧ stock (snd (purchase_sweet 1 3 db1)) 1 = Some 0.
Proof.
  intros db1.
  destruct (two_purchases_are_one_purchase_of_the_sum Demo.shop 1 Demo.ladoo_columns 7 3)
    as [_ Hsum]; [vm_compute; reflexivity | lia | lia |].
  split; [apply Hsum; simpl; lia | vm_compute; reflexivity].
Defined.

(** X11 (a purchase undone).  On a row of the store, whose id and stock
    are 64-bit integers: a purchase of a quantity that is not negative and
    that the stock covers, followed by a restock of the same quantity, gives
    back the store as it was before the purchase. *)
Theorem purchase_then_restock_round_trip db sweet_id c q :
  sweets_table db !! sweet_id = Some c →
  int64 sweet_id →
  int64 (sweets.quantity c) →
  0 ≤ q →
  q ≤ sweets.quantity c →
  ∃ db1,
    purchase_sweet sweet_id q db = (Return true, db1)
    ∧ stock db1 sweet_id = Some (sweets.quantity c - q)
    ∧ restock_sweet sweet_id q db1 = (Return true, db).
Proof.
  intros Hc Hid Hstock _ Hq. rewrite purchase_sweet_run, Hc.
  replace (sweets.quantity c <? q) with false by (symmetry; apply Z.ltb_ge; lia).
  eexists. split; [reflexivity|]. split.
  - unfold stock. simpl. rewrite lookup_alter_eq, Hc. reflexivity.
  - erewrite restock_sweet_fits;
      [|simpl; rewrite lookup_alter_eq, Hc; reflexivity | exact Hid
       |simpl; replace (sweets.quantity c - q + q) with (sweets.quantity c) by lia;
        exact Hstock].
    simpl.
    rewrite alter_set_quantity_twice.
    replace (sweets.quantity c - q + q) with (sweets.quantity c) by lia.
    rewrite (alter_set_quantity_id _ _ _ Hc). destruct db; reflexivity.
Qed.

Lemma purchase_then_restock_round_trip_witness :
  ∃ db1, purchase_sweet 1 4 Demo.shop = (Return true, db1)
         ∧ restock_sweet 1 4 db1 = (Return true, Demo.shop).
Proof.
  destruct (purchase_then_restock_round_trip Demo.shop 1 Demo.ladoo_columns 4)
    as (db1 & Hpurchase & _ & Hrestock);
    [vm_compute; reflexivity | unfold int64; lia | unfold int64; simpl; lia | lia
    | simpl; lia |].
  exists db1. split; [exact Hpurchase | exact Hrestock].
Defined.

(** ** Deletion and field update *)

Section DeleteUpdate.
Context `{Crypto}.

(** X12 (deletion).  An admin's deletion of an existing item removes that
    item and nothing else: every other item, the accounts and the id
    counters are as before and the table has one row less.  From then on
    the id answers 404 to a second deletion, to a field update and to a
    purchase, and these leave the store as it is. *)
Theorem delete_removes_exactly_that_item clk authorization user db sweet_id c :
  fst (get_current_user clk authorization db) = Return user →
  admin user = true →
  sweets_table db !! sweet_id = Some c →
  ∃ db',
    delete_sweet_endpoint clk authorization sweet_id db = (Return tt, db')
    ∧ sweets_table db' !! sweet_id = None
    ∧ (∀ other, other ≠ sweet_id → sweets_table db' !! other = sweets_table db !! other)
    ∧ S (size (sweets_table db')) = size (sweets_table db)
    ∧ users_table db' = users_table db
    ∧ users_seq db' = users_seq db
    ∧ sweets_seq db' = sweets_seq db
    ∧ rejected_with 404 (delete_sweet_endpoint clk authorization sweet_id) db'
    ∧ (∀ sweet_update,
         rejected_with 404 (update_sweet_endpoint clk authorization sweet_id sweet_update) db')
    ∧ (∀ quantity,
         rejected_with 404
           (purchase_sweet_endpoint clk authorization sweet_id (PurchaseRequest.mk quantity))
           db').
Proof.
  intros Hu Hadmin Hc.
  rewrite (delete_sweet_endpoint_run _ _ _ _ _ Hu Hadmin), Hc.
  unfold delete_sweet. run. eexists. split; [reflexivity|]. simpl.
  set (db' := mkdb (users_table db) (users_seq db) (delete sweet_id (sweets_table db))
                   (sweets_seq db)).
  assert (Hu' : fst (get_current_user clk authorization db') = Return user).
  { rewrite <- Hu. apply get_current_user_users. reflexivity. }
  assert (Hgone : sweets_table db' !! sweet_id = None) by apply lookup_delete_eq.
  split; [exact Hgone|]. split; [|split; [|repeat split]].
  - intros other Hne. simpl. apply lookup_delete_ne. congruence.
  - simpl. rewrite <- (insert_delete_id (sweets_table db) sweet_id c Hc) at 2.
    rewrite map_size_insert_None; [reflexivity | apply lookup_delete_eq].
  - unfold rejected_with.
    rewrite (delete_sweet_endpoint_run _ _ _ _ _ Hu' Hadmin), Hgone. eauto.
  - intros sweet_update. unfold rejected_with.
    rewrite (update_sweet_endpoint_run _ _ _ _ _ _ Hu'), Hgone. eauto.
  - intros quantity. unfold rejected_with.
    rewrite (purchase_sweet_endpoint_run _ _ _ _ _ _ Hu'), Hgone. eauto.
Qed.

(** X13 (field update).  The id and the quantity of the request are
    64-bit integers and its price is not a NaN, so that the statement is
    accepted.  For an authenticated caller, a field update of a missing id
    is answered 404 and changes nothing.  On an existing item it is
    answered with the updated row: the name, the category and the quantity
    present in the request have the requested value, a negative quantity
    included, a price present in the request is that price as the REAL
    column gives it back (0.0 for the zero with a sign, the same float
    otherwise), and each absent field and the creation time have their old
    value; the id, every other item and the accounts are unchanged.  A
    request without any field is answered with the current row and leaves
    the store as it is. *)
Theorem update_sets_the_given_fields_only clk authorization user db sweet_id sweet_update :
  fst (get_current_user clk authorization db) = Return user →
  int64 sweet_id →
  from_option storable_price True (SweetUpdate.price sweet_update) →
  from_option int64 True (SweetUpdate.quantity sweet_update) →
  match sweets_table db !! sweet_id with
  | None =>
      update_sweet_endpoint clk authorization sweet_id sweet_update db
      = (Raise (HTTPException 404 "Sweet not found"), db)
  | Some c =>
      let row := SweetResponse.mk sweet_id
                   (default (sweets.name c) (SweetUpdate.name sweet_update))
                   (default (sweets.category c) (SweetUpdate.category sweet_update))
                   (default (sweets.price c) (sqlite3.REAL <$> SweetUpdate.price sweet_update))
                   (default (sweets.quantity c) (SweetUpdate.quantity sweet_update))
                   (sweets.created_at c) in
      ∃ db',
        update_sweet_endpoint clk authorization sweet_id sweet_update db = (Return row, db')
        ∧ get_sweet_by_id sweet_id db' = (Return (Some row), db')
        ∧ (∀ other, other ≠ sweet_id → sweets_table db' !! other = sweets_table db !! other)
        ∧ users_table db' = users_table db
        ∧ users_seq db' = users_seq db
        ∧ sweets_seq db' = sweets_seq db
        ∧ (sweet_update = SweetUpdate.mk None None None None → db' = db)
  end.
Proof.
  intros Hu Hid Hprice Hquantity. rewrite (update_sweet_endpoint_run _ _ _ _ _ _ Hu).
  destruct (sweets_table db !! sweet_id) as [c|] eqn:Hc; [|reflexivity].
  cbv zeta.
  change (SweetResponse.mk sweet_id _ _ _ _ _) with (sweet_row sweet_id (patched sweet_update c)).
  destruct (no_updates _ _ _ _) eqn:Hno.
  - rewrite (no_updates_patched sweet_update c Hno).
    exists db. split; [reflexivity|]. split; [|repeat split].
    unfold get_sweet_by_id. run. rewrite Hc. reflexivity.
  - assert (Hfits : from_option (λ q, bool_decide (int64 q)) true
                      (SweetUpdate.quantity sweet_update)
                    && bool_decide (int64 sweet_id) = true).
    { rewrite (bool_decide_eq_true_2 _ Hid), andb_true_r.
      destruct (SweetUpdate.quantity sweet_update) as [q|]; simpl in *;
        [apply bool_decide_eq_true_2; exact Hquantity | reflexivity]. }
    assert (Hreal : from_option PrimFloat.is_nan false (SweetUpdate.price sweet_update)
                    = false).
    { destruct (SweetUpdate.price sweet_update) as [p|]; simpl in *;
        [exact Hprice | reflexivity]. }
    rewrite Hfits, Hreal.
    eexists. split; [reflexivity|]. simpl. split; [|repeat split].
    + unfold get_sweet_by_id. run. rewrite lookup_alter_eq, Hc. reflexivity.
    + intros other Hne. simpl. apply lookup_alter_other, Hne.
    + intros ->. discriminate.
Qed.
End DeleteUpdate.

(** alice deletes item 1 of the catalogue; a second deletion is answered 404. *)
Lemma delete_removes_exactly_that_item_witness :
  ∃ db',
    @delete_sweet_endpoint Demo.crypto Demo.t0 Demo.alice_token 1 Catalog.store
    = (Return tt, db')
    ∧ sweets_table db' !! 1 = None
    ∧ sweets_table db' !! 2 = sweets_table Catalog.store !! 2
    ∧ rejected_with 404 (@delete_sweet_endpoint Demo.crypto Demo.t0 Demo.alice_token 1) db'.
Proof.
  destruct (@delete_removes_exactly_that_item Demo.crypto Demo.t0 Demo.alice_token
              Demo.alice_identity Catalog.store 1 Demo.ladoo_columns)
    as (db' & Hdelete & Hgone & Hothers & _ & _ & _ & _ & Hagain & _).
  - vm_compute. reflexivity.
  - reflexivity.
  - vm_compute. reflexivity.
  - exists db'. split; [exact Hdelete|]. split; [exact Hgone|].
    split; [apply Hothers; lia | exact Hagain].
Defined.

(** bob sets the price of item 1 of the demo shop to the zero with a sign:
    the row comes back with the price 0.0 and nothing else is changed. *)
Lemma update_sets_the_given_fields_only_witness :
  ∃ db',
    @update_sweet_endpoint Demo.crypto Demo.t0 Demo.bob_token 1
      (SweetUpdate.mk None None (Some (-0)%float) None) Demo.shop
    = (Return (SweetResponse.mk 1 "Ladoo" "Indian" 0%float 10 "2025-01-01T00:00:00"), db')
    ∧ users_table db' = users_table Demo.shop.
Proof.
  pose proof (@update_sets_the_given_fields_only Demo.crypto Demo.t0 Demo.bob_token
                Demo.bob_identity Demo.shop 1
                (SweetUpdate.mk None None (Some (-0)%float) None)) as Hupdate.
  assert (Hrow : sweets_table Demo.shop !! 1 = Some Demo.ladoo_columns)
    by (vm_compute; reflexivity).
  rewrite Hrow in Hupdate.
  destruct Hupdate as (db' & Hrun & _ & _ & Husers & _);
    [vm_compute; reflexivity | unfold int64; lia | vm_compute; reflexivity | exact I |].
  exists db'. split; [exact Hrun | exact Husers].
Defined.

(** A field update that the storage refuses leaves the store as it is: a
    quantity of 2^63 cannot be bound, a price that is not a number violates
    NOT NULL. *)
Example update_at_the_limits_of_the_storage :
  @update_sweet_endpoint Demo.crypto Demo.t0 Demo.bob_token 1
    (SweetUpdate.mk None None None (Some (2 ^ 63))) Demo.shop
  = (Raise sqlite3.too_large, Demo.shop)
  ∧ @update_sweet_endpoint Demo.crypto Demo.t0 Demo.bob_token 1
      (SweetUpdate.mk None None (Some nan) (Some 3)) Demo.shop
    = (Raise sqlite3.price_is_NULL, Demo.shop)
  ∧ update_sweet 7 None None (Some nan) None Demo.shop = (Return false, Demo.shop).
Proof. repeat split; vm_compute; reflexivity. Qed.

(** ** The identity behind a token, and the routes that only read *)

Section GateAndReadRoutes.
Context `{Crypto}.

(** X14 (the admin flag is the stored one).  When the gate lets a token
    through, the identity it attaches names the subject of the token and
    carries the admin flag stored for that account; the flag written in the
    token is not consulted.  So a token that claims the flag for an account
    stored without it is still answered 403 on the admin-only routes. *)
Theorem admin_flag_is_read_from_the_store clk db body signature user :
  fst (get_current_user clk (Some (Signed body signature)) db) = Return user →
  username user = sub body
  ∧ admin_flag db (sub body) = Some (admin user)
  ∧ (admin user = false →
     ∀ sweet_id restock,
       rejected_with 403
         (delete_sweet_endpoint clk (Some (Signed body signature)) sweet_id) db
       ∧ rejected_with 403
           (restock_sweet_endpoint clk (Some (Signed body signature)) sweet_id restock) db).
Proof.
  intros Hu.
  destruct (get_current_user_Return _ _ _ _ Hu) as (body' & c & Hauth & _ & Hc & ->).
  injection Hauth as <- _. simpl.
  split; [reflexivity|]. split.
  - unfold admin_flag. rewrite Hc. reflexivity.
  - intros Hflag sweet_id restock.
    assert (Hadmin : get_admin_user clk (Some (Signed body signature)) db
                     = (Raise (HTTPException 403 "Admin access required"), db)).
    { rewrite get_admin_user_run, Hu. simpl. rewrite Hflag. reflexivity. }
    split; unfold rejected_with.
    + rewrite (delete_sweet_endpoint_gate _ _ _ _ _ Hadmin). eauto.
    + rewrite (restock_sweet_endpoint_gate _ _ _ _ _ _ Hadmin). eauto.
Qed.

Lemma get_sweets_run clk authorization db :
  get_sweets clk authorization db
  = match fst (get_current_user clk authorization db) with
    | Return _ => get_all_sweets db
    | Raise e => (Raise e, db)
    end.
Proof.
  unfold get_sweets. unfold bind at 1.
  rewrite (get_current_user_run clk authorization db).
  destruct (fst (get_current_user clk authorization db)); reflexivity.
Qed.

Lemma search_sweets_endpoint_run clk authorization name category min_price max_price db :
  search_sweets_endpoint clk authorization name category min_price max_price db
  = match fst (get_current_user clk authorization db) with
    | Return _ => search_sweets name category min_price max_price db
    | Raise e => (Raise e, db)
    end.
Proof.
  unfold search_sweets_endpoint. unfold bind at 1.
  rewrite (get_current_user_run clk authorization db).
  destruct (fst (get_current_user clk authorization db)); reflexivity.
Qed.

(** X15 (listing and search routes).  The two routes never change the
    store.  A credential fault is answered 401; any caller the gate lets
    through, admin or not, gets the full listing, respectively the result
    of the search. *)
Theorem listing_and_search_routes_only_read clk authorization db :
  (∀ name category min_price max_price,
     snd (get_sweets clk authorization db) = db
     ∧ snd (search_sweets_endpoint clk authorization name category min_price max_price db)
       = db)
  ∧ (credential_fault clk db authorization →
     ∀ name category min_price max_price,
       rejected_with 401 (get_sweets clk authorization) db
       ∧ rejected_with 401
           (search_sweets_endpoint clk authorization name category min_price max_price) db)
  ∧ (∀ user,
       fst (get_current_user clk authorization db) = Return user →
       ∀ name category min_price max_price,
         get_sweets clk authorization db = get_all_sweets db
         ∧ search_sweets_endpoint clk authorization name category min_price max_price db
           = search_sweets name category min_price max_price db).
Proof.
  split; [|split].
  - intros name category min_price max_price.
    rewrite get_sweets_run, search_sweets_endpoint_run.
    destruct (fst (get_current_user clk authorization db)); split; reflexivity.
  - intros Hfault name category min_price max_price.
    destruct (get_current_user_fault clk authorization db Hfault) as [detail Hgate].
    unfold rejected_with. rewrite get_sweets_run, search_sweets_endpoint_run, Hgate.
    simpl. eauto.
  - intros user Hu name category min_price max_price.
    rewrite get_sweets_run, search_sweets_endpoint_run, Hu. split; reflexivity.
Qed.
End GateAndReadRoutes.

(** A token signed for bob that claims the admin flag: the gate attaches
    bob's stored flag, and the deletion is answered 403. *)
Lemma admin_flag_is_read_from_the_store_witness :
  admin_flag Demo.shop "bob" = Some false
  ∧ rejected_with 403
      (@delete_sweet_endpoint Demo.crypto Demo.t0 Catalog.bob_claiming_admin 1) Demo.shop.
Proof.
  destruct (@admin_flag_is_read_from_the_store Demo.crypto Demo.t0 Demo.shop
              (mkpayload "bob" true 87400)
              (@sign Demo.crypto (@SECRET_KEY Demo.crypto) (mkpayload "bob" true 87400))
              Demo.bob_identity)
    as (_ & Hflag & Hforbidden); [vm_compute; reflexivity|].
  split; [exact Hflag|].
  apply (Hforbidden eq_refl 1 (RestockRequest.mk 1)).
Defined.

(** bob, who is not an admin, lists the catalogue; without a credential the
    listing is refused. *)
Lemma listing_and_search_routes_only_read_witness :
  @get_sweets Demo.crypto Demo.t0 Demo.bob_token Catalog.store
  = get_all_sweets Catalog.store
  ∧ rejected_with 401 (@get_sweets Demo.crypto Demo.t0 None) Catalog.store.
Proof.
  destruct (@listing_and_search_routes_only_read Demo.crypto Demo.t0 Demo.bob_token
              Catalog.store) as (_ & _ & Hthrough).
  destruct (@listing_and_search_routes_only_read Demo.crypto Demo.t0 None Catalog.store)
    as (_ & Hfault & _).
  split.
  - apply (Hthrough Demo.bob_identity); [vm_compute; reflexivity | exact None ..].
  - apply (Hfault (@fault_missing Demo.crypto Demo.t0 Catalog.store) None None None None).
Defined.

(** A search whose only criterion is an empty name is the listing. *)
Lemma search_without_criteria_is_listing_witness :
  search_sweets (Some "") None None None Catalog.store = get_all_sweets Catalog.store.
Proof.
  apply search_without_criteria_is_listing; [right | left]; reflexivity.
Defined.

(** ** The command-line menu *)

(** Runs the statements of the interface on a world whose input is given. *)
Ltac cli_run :=
  unfold cli_bind, print, write, input, cli_ret, cli_raise, call, call_now,
    try_except_ValueError, int_of, float_of;
  simpl.

Section MenuFacts.
Context `{Builtins}.

Lemma menu_header_run current_user db lines out reads :
  ∃ out', menu_header current_user (mkworld db lines out reads)
          = (Normal tt, mkworld db lines out' reads).
Proof. unfold menu_header. cli_run. destruct (admin current_user); cli_run; eauto. Qed.

Lemma menu_turn_run current_user db choice_line lines out reads :
  ∃ out', menu_turn current_user (mkworld db (choice_line :: lines) out reads)
          = menu_choice (admin current_user) (strip choice_line)
              (mkworld db lines out' reads).
Proof.
  unfold menu_turn. unfold cli_bind at 1.
  destruct (menu_header_run current_user db (choice_line :: lines) out reads) as [out' ->].
  cli_run. eauto.
Qed.

(** X16 (purchase at the menu).  A turn of the menu with choice 6, an id
    and a quantity that are 64-bit integers, goes on to the next turn.  A
    quantity of 0 or less is refused with "Quantity must be positive!"
    before the store is read; a positive quantity is passed to
    [purchase_sweet], whose effect on the store is the effect of the turn. *)
Theorem menu_purchase_requires_positive_quantity
    current_user db choice_line id_line quantity_line lines out reads sweet_id q :
  strip choice_line = "6" →
  parse_int (strip id_line) = Some sweet_id →
  parse_int (strip quantity_line) = Some q →
  int64 sweet_id →
  int64 q →
  ∃ out',
    menu_turn current_user
      (mkworld db (choice_line :: id_line :: quantity_line :: lines) out reads)
    = (Normal Continue,
       mkworld (if 0 <? q then snd (purchase_sweet sweet_id q db) else db) lines out' reads)
    ∧ (q ≤ 0 → last out' = Some ("Error: Quantity must be positive!" +:+ NL)).
Proof.
  intros Hchoice Hid Hq _ _.
  destruct (menu_turn_run current_user db choice_line (id_line :: quantity_line :: lines)
              out reads) as [out1 ->].
  rewrite Hchoice. unfold menu_choice. simpl. unfold menu_purchase.
  cli_run. rewrite Hid. cli_run. rewrite Hq. cli_run.
  destruct (q <=? 0) eqn:Hpos; [apply Z.leb_le in Hpos | apply Z.leb_gt in Hpos].
  - replace (0 <? q) with false by (symmetry; apply Z.ltb_ge; lia).
    cli_run. eexists. split; [reflexivity|]. intros _. apply last_snoc.
  - replace (0 <? q) with true by (symmetry; apply Z.ltb_lt; lia).
    cli_run. rewrite purchase_sweet_run.
    destruct (sweets_table db !! sweet_id) as [c|] eqn:Hc; simpl;
      rewrite ?purchase_sweet_run, ?Hc.
    + destruct (sweets.quantity c <? q); simpl.
      * eexists. split; [reflexivity | lia].
      * rewrite lookup_alter_eq, Hc. simpl.
        eexists. split; [reflexivity | lia].
    + eexists. split; [reflexivity | lia].
Qed.

(** X17 (admin-only choices of the menu).  For a user without the admin
    flag, the choices 5 (delete) and 7 (restock) print the refusal and go on
    to the next turn: nothing but the choice is read from the input and the
    store is the one before. *)
Theorem menu_refuses_delete_and_restock_to_non_admins
    current_user db choice_line lines out reads :
  admin current_user = false →
  strip choice_line = "5" ∨ strip choice_line = "7" →
  ∃ out',
    menu_turn current_user (mkworld db (choice_line :: lines) out reads)
    = (Normal Continue, mkworld db lines out' reads).
Proof.
  intros Hadmin Hchoice.
  destruct (menu_turn_run current_user db choice_line lines out reads) as [out1 ->].
  rewrite Hadmin. unfold menu_choice, menu_delete, menu_restock.
  destruct Hchoice as [-> | ->]; cli_run; eauto.
Qed.

(** X18 (restock at the menu).  For an admin, a turn with choice 7, an id
    that is a 64-bit integer and a quantity that is an integer.  A quantity
    of 0 or less is
    refused with "Quantity must be positive!" and the menu goes on.  A
    positive quantity is passed to [restock_sweet] when the item exists, and
    the turn ends as that call does: the menu goes on with the stock
    increased when the new stock is a 64-bit integer, and when it is not,
    the [OverflowError] of the call, which is not a [ValueError], leaves
    the menu with the store as it was. *)
Theorem menu_restock_requires_positive_quantity
    current_user db choice_line id_line quantity_line lines out reads sweet_id q :
  admin current_user = true →
  strip choice_line = "7" →
  parse_int (strip id_line) = Some sweet_id →
  parse_int (strip quantity_line) = Some q →
  int64 sweet_id →
  ∃ out',
    menu_turn current_user
      (mkworld db (choice_line :: id_line :: quantity_line :: lines) out reads)
    = (match (if 0 <? q then fst (restock_sweet sweet_id q db) else Return false) with
       | Return _ => Normal Continue
       | Raise e => Abrupt (DatabaseError e)
       end,
       mkworld (if 0 <? q then snd (restock_sweet sweet_id q db) else db) lines out' reads)
    ∧ (q ≤ 0 → last out' = Some ("Error: Quantity must be positive!" +:+ NL))
    ∧ (0 < q →
       ∀ c, sweets_table db !! sweet_id = Some c →
            if bool_decide (int64 (sweets.quantity c + q))
            then fst (restock_sweet sweet_id q db) = Return true
                 ∧ stock (snd (restock_sweet sweet_id q db)) sweet_id
                   = Some (sweets.quantity c + q)
            else restock_sweet sweet_id q db = (Raise sqlite3.too_large, db)).
Proof.
  intros Hadmin Hchoice Hid Hq Hfits.
  destruct (menu_turn_run current_user db choice_line (id_line :: quantity_line :: lines)
              out reads) as [out1 ->].
  rewrite Hchoice, Hadmin. unfold menu_choice. simpl. unfold menu_restock.
  cli_run. rewrite Hid. cli_run. rewrite Hq. cli_run.
  assert (Hrun : restock_sweet sweet_id q db
                 = match sweets_table db !! sweet_id with
                   | None => (Return false, db)
                   | Some c =>
                       if bool_decide (int64 (sweets.quantity c + q))
                       then (Return true,
                             mkdb (users_table db) (users_seq db)
                                  (alter (sweets.set_quantity (sweets.quantity c + q))
                                         sweet_id (sweets_table db))
                                  (sweets_seq db))
                       else (Raise sqlite3.too_large, db)
                   end).
  { rewrite restock_sweet_run, (bool_decide_eq_true_2 _ Hfits). reflexivity. }
  destruct (q <=? 0) eqn:Hpos; [apply Z.leb_le in Hpos | apply Z.leb_gt in Hpos].
  - replace (0 <? q) with false by (symmetry; apply Z.ltb_ge; lia).
    cli_run. eexists. split; [reflexivity|]. split; [|lia]. intros _. apply last_snoc.
  - replace (0 <? q) with true by (symmetry; apply Z.ltb_lt; lia).
    cli_run. rewrite Hrun.
    destruct (sweets_table db !! sweet_id) as [c|] eqn:Hc; simpl.
    + destruct (bool_decide (int64 (sweets.quantity c + q))) eqn:Hsum; simpl;
        rewrite ?Hrun; simpl.
      * rewrite lookup_alter_eq, Hc. simpl. eexists. split; [reflexivity|].
        split; [lia|]. intros _ c' [= <-]. rewrite Hsum. split; [reflexivity|].
        unfold stock. simpl. rewrite lookup_alter_eq, Hc. reflexivity.
      * eexists. split; [reflexivity|].
        split; [lia|]. intros _ c' [= <-]. rewrite Hsum. reflexivity.
    + eexists. split; [reflexivity|]. split; [lia|]. intros _ c' [=].
Qed.

End MenuFacts.

(** *** What every statement of the menu respects *)

Section Respects.
Context `{Builtins} (P : database → Prop).

Lemma respects_ret {A} (a : A) : respects P (cli_ret a).
Proof. intros w. split; [auto | reflexivity]. Qed.

Lemma respects_raise {A} (r : raised) : respects P (@cli_raise A r).
Proof. intros w. split; [auto | reflexivity]. Qed.

Lemma respects_bind {A B} (m : cli A) (k : A → cli B) :
  respects P m → (∀ a, respects P (k a)) → respects P (cli_bind m k).
Proof.
  intros Hm Hk w. unfold cli_bind. specialize (Hm w).
  destruct (m w) as [[a|r] w1]; simpl in *; [|exact Hm].
  specialize (Hk a w1). destruct Hm as [Hm1 Hm2], Hk as [Hk1 Hk2].
  split; [auto | lia].
Qed.

Lemma respects_write (text : string) : respects P (write text).
Proof. intros w. split; [auto | reflexivity]. Qed.

Lemma respects_print (text : string) : respects P (print text).
Proof. apply respects_write. Qed.

Lemma respects_input (prompt : string) : respects P (input prompt).
Proof.
  intros w. unfold input. cli_run.
  destruct (stdin w) as [|line lines]; simpl; split; auto; lia.
Qed.

Lemma respects_try {A} (body handler : cli A) :
  respects P body → respects P handler → respects P (try_except_ValueError body handler).
Proof.
  intros Hbody Hhandler w. unfold try_except_ValueError. specialize (Hbody w).
  destruct (body w) as [[a|[| | |]] w1]; simpl in *; try exact Hbody.
  specialize (Hhandler w1). destruct Hbody as [Hb1 Hb2], Hhandler as [Hh1 Hh2].
  split; [auto | lia].
Qed.

Lemma respects_int_of (text : string) : respects P (int_of text).
Proof. unfold int_of. destruct (parse_int text); [apply respects_ret | apply respects_raise]. Qed.

Lemma respects_float_of (text : string) : respects P (float_of text).
Proof.
  unfold float_of. destruct (parse_float text); [apply respects_ret | apply respects_raise].
Qed.

Lemma respects_call {A} (m : io A) :
  (∀ db, P db → P (snd (m db))) → respects P (call m).
Proof.
  intros Hm w. unfold call. specialize (Hm (store w)).
  destruct (m (store w)) as [[a|e] db']; simpl in *; split; auto.
Qed.

Lemma respects_call_now {A} (m : string → io A) :
  (∀ now db, P db → P (snd (m now db))) → respects P (call_now m).
Proof.
  intros Hm w. unfold call_now, call. simpl.
  specialize (Hm (datetime_now (clock_reads w)) (store w)).
  destruct (m (datetime_now (clock_reads w)) (store w)) as [[a|e] db']; simpl in *;
    split; auto.
Qed.
End Respects.

Ltac respects_step :=
  match goal with
  | |- respects _ (let _ := _ in _) => cbv zeta
  | |- respects _ (cli_bind _ _) => apply respects_bind; [|intros ?]
  | |- respects _ (print _) => apply respects_print
  | |- respects _ (input _) => apply respects_input
  | |- respects _ (cli_ret _) => apply respects_ret
  | |- respects _ (cli_raise _) => apply respects_raise
  | |- respects _ (try_except_ValueError _ _) => apply respects_try
  | |- respects _ (int_of _) => apply respects_int_of
  | |- respects _ (float_of _) => apply respects_float_of
  | |- respects _ (call _) => apply respects_call; intros ? ?
  | |- respects _ (call_now _) => apply respects_call_now; intros ? ? ?
  | |- respects _ (if ?b then _ else _) => destruct b eqn:?
  | |- respects _ (match ?x with _ => _ end) => destruct x eqn:?
  end.

Section RespectsMenu.
Context `{Builtins} (P : database → Prop).

Lemma respects_display_sweets sweets_list : respects P (display_sweets sweets_list).
Proof.
  unfold display_sweets. destruct sweets_list as [|sweet sweets_list];
    [apply respects_print|].
  repeat respects_step.
  generalize (sweet :: sweets_list). intros rows.
  induction rows as [|row rows IH]; simpl; [apply respects_print|].
  repeat respects_step. exact IH.
Qed.

Lemma respects_print_details sweet : respects P (print_details sweet).
Proof. unfold print_details. repeat respects_step. Qed.

Lemma respects_optional_float text warning : respects P (optional_float text warning).
Proof. unfold optional_float. repeat respects_step. Qed.

Lemma respects_optional_int text warning : respects P (optional_int text warning).
Proof. unfold optional_int. repeat respects_step. Qed.

Lemma respects_menu_view_all : respects P menu_view_all.
Proof.
  unfold menu_view_all. repeat respects_step; try assumption.
  apply respects_display_sweets.
Qed.

Lemma respects_menu_search : respects P menu_search.
Proof.
  unfold menu_search.
  repeat first [apply respects_optional_float | apply respects_display_sweets
               | respects_step]; assumption.
Qed.
End RespectsMenu.

Section RespectsBranches.
Context `{Builtins} (P : database → Prop).

Ltac branch :=
  repeat first [apply respects_optional_float | apply respects_optional_int
               | apply respects_display_sweets | apply respects_print_details
               | respects_step];
  try assumption.

Lemma respects_menu_add :
  (∀ now name category price quantity db,
     0 ≤ quantity → P db → P (snd (create_sweet now name category price quantity db))) →
  respects P menu_add.
Proof.
  intros Hcreate. unfold menu_add. branch.
  apply Hcreate; [|assumption].
  match goal with Hguard : (_ || (_ <? 0)) = false |- _ =>
    apply orb_false_iff in Hguard as [_ Hguard]; apply Z.ltb_ge in Hguard; exact Hguard
  end.
Qed.


Lemma respects_menu_delete is_admin :
  (∀ sweet_id db, P db → P (snd (delete_sweet sweet_id db))) →
  respects P (menu_delete is_admin).
Proof. intros Hdelete. unfold menu_delete. branch. apply Hdelete. assumption. Qed.

Lemma respects_menu_purchase :
  (∀ sweet_id quantity db, P db → P (snd (purchase_sweet sweet_id quantity db))) →
  respects P menu_purchase.
Proof. intros Hpurchase. unfold menu_purchase. branch. apply Hpurchase. assumption. Qed.

Lemma respects_menu_restock is_admin :
  (∀ sweet_id quantity db,
     0 < quantity → P db → P (snd (restock_sweet sweet_id quantity db))) →
  respects P (menu_restock is_admin).
Proof.
  intros Hrestock. unfold menu_restock. branch.
  apply Hrestock; [|assumption].
  match goal with Hguard : (_ <=? 0) = false |- _ => apply Z.leb_gt in Hguard; exact Hguard end.
Qed.

(** The choices other than the field update. *)
Lemma respects_menu_choice_but_update is_admin choice :
  choice ≠ "4" →
  (∀ now name category price quantity db,
     0 ≤ quantity → P db → P (snd (create_sweet now name category price quantity db))) →
  (∀ sweet_id db, P db → P (snd (delete_sweet sweet_id db))) →
  (∀ sweet_id quantity db, P db → P (snd (purchase_sweet sweet_id quantity db))) →
  (∀ sweet_id quantity db,
     0 < quantity → P db → P (snd (restock_sweet sweet_id quantity db))) →
  respects P (menu_choice is_admin choice).
Proof.
  intros Hchoice Hcreate Hdelete Hpurchase Hrestock. unfold menu_choice.
  destruct (String.eqb choice "1"); [apply respects_menu_view_all|].
  destruct (String.eqb choice "2"); [apply respects_menu_add, Hcreate|].
  destruct (String.eqb choice "3"); [apply respects_menu_search|].
  destruct (String.eqb choice "4") eqn:Hfour;
    [apply String.eqb_eq in Hfour; contradiction|].
  destruct (String.eqb choice "5"); [apply respects_menu_delete, Hdelete|].
  destruct (String.eqb choice "6"); [apply respects_menu_purchase, Hpurchase|].
  destruct (String.eqb choice "7"); [apply respects_menu_restock, Hrestock|].
  repeat respects_step.
Qed.

End RespectsBranches.

Section MenuInvariant.
Context `{Builtins}.

Lemma menu_turn_at_end_of_input current_user db out reads :
  ∃ out', menu_turn current_user (mkworld db [] out reads)
          = (Abrupt EOFError, mkworld db [] out' reads).
Proof.
  unfold menu_turn. unfold cli_bind at 1.
  destruct (menu_header_run current_user db [] out reads) as [out' ->].
  cli_run. eauto.
Qed.

(** X20 (stock at the menu).  A turn of the menu whose choice is not 4
    (field update) leaves every quantity at 0 or more if every quantity was
    at 0 or more: adding refuses a negative quantity, restocking a quantity
    that is not positive, purchasing more than the stock. *)
Theorem menu_turn_keeps_stock_nonneg current_user w :
  (∀ choice_line lines, stdin w = choice_line :: lines → strip choice_line ≠ "4") →
  stock_nonneg (store w) →
  stock_nonneg (store (snd (menu_turn current_user w))).
Proof.
  intros Hchoice Hinv. destruct w as [db [|choice_line lines] out reads]; simpl in *.
  - destruct (menu_turn_at_end_of_input current_user db out reads) as [out' ->].
    exact Hinv.
  - destruct (menu_turn_run current_user db choice_line lines out reads) as [out' ->].
    apply (respects_menu_choice_but_update stock_nonneg (admin current_user)
             (strip choice_line)); simpl; try assumption.
    + apply (Hchoice choice_line lines eq_refl).
    + intros now name category price quantity. apply create_sweet_nonneg.
    + apply delete_sweet_nonneg.
    + apply purchase_sweet_nonneg.
    + intros sweet_id quantity db0 Hq. apply restock_sweet_nonneg. lia.
Qed.
End MenuInvariant.

(** *** Mistyped input *)

Section ValueErrors.
Context `{Builtins}.









End ValueErrors.


Section MenuSession.
Context `{Builtins}.






End MenuSession.

(** ** Registration at the command line *)

Section CommandLineRegistration.
Context `{Builtins} `{Crypto} `{Authentication}.

End CommandLineRegistration.

(** *** The menu on the terminal of the examples *)

Lemma menu_purchase_requires_positive_quantity_witness :
  ∃ out',
    @menu_turn Terminal.builtins Demo.bob_identity (Terminal.session ["6"; "1"; "-5"])
    = (Normal Continue, mkworld Demo.shop [] out' 0)
    ∧ last out' = Some ("Error: Quantity must be positive!" +:+ NL).
Proof.
  destruct (@menu_purchase_requires_positive_quantity Terminal.builtins Demo.bob_identity
              Demo.shop "6" "1" "-5" [] [] 0%nat 1 (-5))
    as (out' & Hturn & Hlast);
    [reflexivity | reflexivity | reflexivity | unfold int64; lia | unfold int64; lia |].
  exists out'. split; [exact Hturn | apply Hlast; lia].
Defined.

Lemma menu_refuses_delete_and_restock_to_non_admins_witness :
  ∃ out',
    @menu_turn Terminal.builtins Demo.bob_identity (Terminal.session ["7"; "1"; "5"])
    = (Normal Continue, mkworld Demo.shop ["1"; "5"] out' 0).
Proof.
  apply (@menu_refuses_delete_and_restock_to_non_admins Terminal.builtins);
    [reflexivity | right; reflexivity].
Defined.

Lemma menu_restock_requires_positive_quantity_witness :
  ∃ out',
    @menu_turn Terminal.builtins Demo.alice_identity
      (Terminal.session ["7"; "1"; "9223372036854775807"])
    = (Abrupt (DatabaseError sqlite3.too_large), mkworld Demo.shop [] out' 0).
Proof.
  destruct (@menu_restock_requires_positive_quantity Terminal.builtins Demo.alice_identity
              Demo.shop "7" "1" "9223372036854775807" [] [] 0%nat 1 (2 ^ 63 - 1))
    as (out' & Hturn & _);
    [reflexivity | reflexivity | reflexivity | vm_compute; reflexivity
    | unfold int64; lia |].
  exists out'. unfold Terminal.session. rewrite Hturn. vm_compute. reflexivity.
Defined.

(** A restock of 5 at the menu goes on with a stock of 15. *)
Example menu_restock_on_the_terminal :
  ∃ out',
    @menu_turn Terminal.builtins Demo.alice_identity (Terminal.session ["7"; "1"; "5"])
    = (Normal Continue, mkworld (snd (restock_sweet 1 5 Demo.shop)) [] out' 0)
    ∧ stock (snd (restock_sweet 1 5 Demo.shop)) 1 = Some 15.
Proof. eexists. split; vm_compute; reflexivity. Qed.


Lemma demo_shop_stock_nonneg : stock_nonneg Demo.shop.
Proof.
  unfold stock_nonneg.
  replace (sweets_table Demo.shop) with ({[1 := Demo.ladoo_columns]} : gmap Z sweets.columns)
    by (vm_compute; reflexivity).
  apply map_Forall_singleton. simpl. lia.
Qed.

Lemma menu_turn_keeps_stock_nonneg_witness :
  stock_nonneg
    (store (snd (@menu_turn Terminal.builtins Demo.alice_identity
                   (Terminal.session ["7"; "1"; "-50"])))).
Proof.
  apply (@menu_turn_keeps_stock_nonneg Terminal.builtins).
  - intros choice_line lines [= <- _]. discriminate.
  - exact demo_shop_stock_nonneg.
Defined.

(** The field update of the menu takes any integer: the quantity -1 is
    stored. *)
Example menu_update_stores_a_negative_quantity :
  stock (store (snd (@menu_turn Terminal.builtins Demo.bob_identity
                       (Terminal.session ["4"; "1"; ""; ""; ""; "-1"])))) 1
  = Some (-1).
Proof. vm_compute. reflexivity. Qed.

(** A session: a mistyped quantity, a purchase of 7, logout. *)
Example menu_session_on_the_terminal :
  ∃ out',
    @sweet_management_menu Terminal.builtins Demo.bob_identity
      (Terminal.session ["6"; "1"; "seven"; "6"; "1"; "7"; "8"; "not read"])
    = Some (Normal tt, mkworld (snd (purchase_sweet 1 7 Demo.shop)) ["not read"] out' 0).
Proof. eexists. vm_compute. reflexivity. Qed.


(** ** A session of the whole interface *)

Section InterfaceSession.
Context `{Builtins} `{Crypto} `{Authentication}.








End InterfaceSession.

(** On an empty store alice registers (the first account, so an
    administrator), logs in, adds "Ladoo" with 10 in stock, restocks 5, logs
    out and leaves the interface by the choice 3. *)
Example interface_session_on_the_terminal :
  ∃ w',
    @cli_interface Terminal.builtins Demo.crypto Terminal.authentication
      (mkworld init_database
         ["1"; "alice"; "wonderland"; "";
          "2"; "alice"; "wonderland";
          "2"; "Ladoo"; "Indian"; "2.5"; "10";
          "7"; "1"; "5";
          "8";
          "3"] [] 0)
    = Some (SystemExit 0, w')
    ∧ stock (store w') 1 = Some 15
    ∧ admin_flag (store w') "alice" = Some true
    ∧ stdin w' = [].
Proof. eexists. vm_compute. repeat split. Qed.

(** The search of the catalogue, with its criteria. *)
Lemma search_sweets_selects_from_listing_witness :
  ∃ listing rows,
    get_all_sweets Catalog.store = (Return listing, Catalog.store)
    ∧ search_sweets (Some "choco") (Some "Indian") None None Catalog.store
      = (Return rows, Catalog.store)
    ∧ rows `sublist_of` listing.
Proof.
  destruct (search_sweets_selects_from_listing (Some "choco") (Some "Indian") None None
              Catalog.store) as (listing & rows & Hall & Hsearch & Hsub & _).
  - vm_compute. discriminate.
  - exists listing, rows. split; [exact Hall|]. split; [exact Hsearch | exact Hsub].
Defined.
